(* ===== verification/_CoqProject ===== *)
-Q . S2P
Prelude.v
PyStr.v
Classify.v
Summary.v
ArnSpec.v
Api.v
SimCloud.v
Deletion.v
Discovery.v
Region.v
Ordering.v
Run.v
RegionLoop.v
Bounds.v
Completeness.v
ShellCleanup.v
