(* ===== verification/Prelude.v ===== *)
(** * Verification of the Xelta infrastructure cleanup scripts

    The repository holds two teardown scripts for the resources that the
    Terraform code of the project creates in AWS:

    - [src/scripts/cleanup.py] (Python, boto3): for each region of
      [REGIONS] it lists every resource tagged [ManagedBy=terraform] or
      [ManagedBy=Terraform] through the Resource Groups Tagging API
      ([get_tagged_resources]), sorts the ARNs into nineteen buckets by
      substring tests and [str.split] ([process_region], lines 430-484),
      looks up the VPC attachment of every internet gateway
      ([get_igw_vpc_mapping]) and then calls one [delete_*] function per
      bucket, in seven phases, with fixed [time.sleep] pauses between
      phases.  [main] asks for a confirmation and runs [process_region]
      for every region, catching any exception per region.
    - [src/cleanup.py] (a bash script despite its name): for each region it
      force-deletes the secret [xelta-dev-db-credentials] and the VPC flow
      log group [/aws/vpc/xelta-dev-<region>] when they exist.

    The two scripts share no code; both talk to the AWS control plane only.

    ** Layout of the development

    - [Prelude] (this file): the Python exceptions the scripts raise or
      catch ([exc], with [is_exception] for [except Exception], which
      does not catch [SystemExit]), a state-and-exception monad [M] with
      its notations in [cleanup_scope] ([m_bind], [m_try] for
      [try/except], [m_for] for [for], [m_when] for [if] without
      [else]), the [cleanup] hint database and shared list lemmas.
    - [PyStr]: the Python string primitives the classification uses: the
      [in] operator ([contains]), [str.split] ([py_split], by fuel equal
      to the length of the string plus one, always enough since every
      piece but the last consumes a separator: [split_go_fuel]),
      [sep.join] ([String.concat]) and indexing with negative indices
      ([py_getitem]), with the lemmas that evaluate substring tests and
      splits on strings built by [String.concat].
    - [Classify]: the ARN classification of [process_region] (lines
      430-484: [classify_arn], one branch per [elif], [IndexError] as an
      error value) and the accumulation of the nineteen lists
      ([categorize], [add_classified]); when it fails (C3, C5), what each
      list holds (C4), that each ARN lands in one list at most (C6), and
      that every identifier is a suffix of its ARN (C24).
    - [Summary]: the console output that carries data of the program:
      the escape codes of [class Colors], [log] as the text it writes,
      and the summary of the lists that [process_region] prints before
      deleting (lines 487-512, [show_categorization]); it lists the
      nonempty lists in code order and its counts add up to the number
      of recognised resources (C31).
    - [ArnSpec]: an abstract description of the ARNs AWS issues for the
      nineteen kinds of resource ([resource], [render]) and what the
      script should file each one under ([expected]); the refinement
      theorem (C1) that [classify_arn] computes [expected] on every
      well-formed ARN, and the classes of ARNs it misfiles, which are
      findings: target groups named [*loadbalancer] (C7), node groups of
      clusters named [*nodegroup] (C8), and egress-only internet
      gateways and transit-gateway route tables (C9).
    - [Api]: the AWS control plane as an interface: the boto3 calls the
      script makes ([call]), the parts of responses it reads
      ([response]), the class [CloudApi] of worlds that answer them
      (raising [Exception]s only), and the state [st] of a run: the world
      and the [trace] of calls and pauses.  Every theorem about the
      script holds for every instance.  [extends P m] (what [m] appends
      to the trace satisfies [P], whatever AWS answers) is the one
      invariant of the monad: its lemmas [ext_bind], [ext_try], ...
      compose it along the code, and the ordering, pause, call-count and
      call-filter invariants are instances of it; [no_exit m] (what [m]
      raises is an [Exception]) composes the same way.
    - [SimCloud]: one concrete instance ([sim_api]) on which the script
      runs by evaluation; the witnesses and the sample runs use it.
    - [Deletion]: the seventeen [delete_*] functions of one shape
      ([delete_all]: one call per item, [ClientError] caught per item),
      [delete_nat_gateways] and [delete_internet_gateways] (lines
      55-371); fault isolation (C10), the detach error (C11) and the
      exception that escapes [delete_elasticache_clusters] (C16).
    - [Discovery]: [get_tagged_resources] with the paginator ([paginate],
      [collect_tags]) and [get_igw_vpc_mapping] (lines 15-53, 373-390);
      pagination terminates within [MAX_PAGES] pages when AWS ends its
      listing, with a result that does not depend on the fuel (C17); only
      the tag key [ManagedBy] is ever queried (C22); gateways without an
      attachment are dropped before deletion (C23).
    - [Region]: [process_region] (lines 392-562), composed from the
      above, with [DRY_RUN] as the parameter [dry_run]; with nothing
      tagged it stops after discovery, a failed classification aborts
      it before any deletion (C30), and a [ClientError] of the gateway
      lookup (one egress-only gateway id suffices) leaves every internet
      gateway of the region in place (C33).
    - [Ordering]: the dependency order of the deletions as a
      specification ([must_precede]) and the theorem that
      [process_region] respects it whatever AWS answers (C2), proved by
      an invariant of the monad ([emits]) that composes along the code;
      in a live run the 120-second pause comes after the last node-group
      deletion and before any later phase (C32); an exception other than
      [ClientError] from the first [delete_cache_cluster] (the
      ElastiCache finding) stops the phases before any deletion of a
      later rank ([aborts], C18).
    - [Run]: [main] (lines 564-594), with the [EOFError] of [input()] and
      the [SystemExit] of [sys.exit(0)], its entry point [run_as_script]
      (lines 596-597) and the run as a whole: the pauses
      ([sleeps_within]: at most 390 seconds per region in live mode,
      none in a dry run); a dry run of [main] makes read-only calls only
      (C12); past the confirmation [main] returns and runs the three
      regions in order, each in dependency order (C13, C15); a wrong or
      missing answer ends it before any call (C14).
    - [RegionLoop]: the loop of [main] over the regions as a transition
      system [loop_step] (one rule per branch of its [try/except]); its
      reachable configurations satisfy the invariant [loop_inv] (C26).
    - [Bounds]: the number of calls of the deletion phases: one per
      classified item and two per internet gateway (C27).
    - [Completeness]: when AWS answers the calls of the phases with
      results or [ClientError]s, [delete_phases] returns and sends the
      delete call of every classified resource (C25), proved by the
      invariant [live_runs] composed along the phases; composed with
      discovery and the classification, every listed ARN gets the
      delete call of what it was classified as (C28).
    - [ShellCleanup]: the bash script with its own command-line interface
      [ShellApi]: it deletes only the two named resources of its regions
      (C19), needs [yes] (C20), and deletes a secret exactly when it
      exists (C21); against a command line that answers like AWS
      ([sim_cli]) the confirmed script leaves exactly the resources that
      are not among its six targets (C29).

    ** Bounds and fuel

    [MAX_PAGES] (1000 pages of at most 100 ARNs) bounds the paginator;
    [paginate_enough_fuel] shows that any bound at least the number of
    pages AWS returns gives the same result, so the bound never changes
    the behaviour on a listing that ends.  Python's paginator has no
    such bound: on a listing that never ends it would not terminate,
    where the model raises; no theorem depends on the bound being
    reached.  [py_split] runs [split_go]
    with fuel [length s + 1], enough by [split_go_fuel].  Integers play
    no role: the script does no arithmetic beyond list indexing, which is
    modelled on [Z] with Python's negative indices.

    ** What is not modelled

    Console output changes no state.  [Summary] models [log], the
    colours and the summary of lines 487-512, the one output computed
    from the program's data; the progress messages of the other [log]
    and [print] calls, the traceback of [main] and the [echo] banners of
    the bash script are constant text and are left out.  [time.sleep] is an event of the trace with
    its duration, not a delay.  boto3 sessions and clients are not
    modelled: a call is a value of [call] tagged with its region.  What
    AWS does in reply is left abstract ([CloudApi]); the asynchronous
    completion of deletions is therefore not modelled, and the theorems
    speak of the calls the script makes and their order, not of whether
    AWS accepts them.  The unused [ThreadPoolExecutor] import is not
    code.  What is left of the two files is the shebang, the module
    docstring, the imports, [set -e] (whose only effect in this script is
    the end of input at [read], modelled in [ShellCleanup.script]) and
    the constant banner of lines 10-14 of the bash script. *)

From stdpp Require Import base list strings.
From Stdlib Require Import ZArith.

Declare Scope cleanup_scope.
Delimit Scope cleanup_scope with cleanup.

(** ** Python exceptions

    The exceptions the scripts raise or catch: [ClientError] is
    [botocore.exceptions.ClientError], the only class the [try] blocks of
    [cleanup.py] catch; [IndexError] is raised by a list index out of
    range ([parts[1]] in the node-group branch); [OtherError] stands for
    every other exception (botocore's parameter validation errors,
    [KeyError] on a missing response field), which only the [except
    Exception] of [main] catches.  [EOFError] is what [input()] raises at
    the end of its input, and [SystemExit] what [sys.exit] raises; the
    latter is a [BaseException] but not an [Exception]. *)
Inductive exc :=
| ClientError (code : string)
| IndexError
| OtherError (what : string)
| EOFError
| SystemExit (status : nat).

#[export] Instance exc_eq_dec : EqDecision exc.
Proof. solve_decision. Defined.

Definition is_client_error (e : exc) : bool :=
  match e with ClientError _ => true | _ => false end.

(** [except Exception]: every exception of [exc] but [SystemExit]. *)
Definition is_exception (e : exc) : bool :=
  match e with SystemExit _ => false | _ => true end.

(** ** A state and exception monad

    [M σ A] threads a state [σ] and may raise an [exc]; the state reached
    when an exception is raised is kept, as it is in Python: calls made
    before the exception have happened. *)
Definition M (σ A : Type) : Type := σ → (exc + A) * σ.

Section Monad.
Context {σ : Type}.

Definition m_ret {A} (x : A) : M σ A := λ s, (inr x, s).

Definition m_bind {A B} (m : M σ A) (k : A → M σ B) : M σ B :=
  λ s, match m s with
       | (inl e, s') => (inl e, s')
       | (inr x, s') => k x s'
       end.

Definition m_raise {A} (e : exc) : M σ A := λ s, (inl e, s).

(** [try: m except: h] for the exceptions selected by [catches]. *)
Definition m_try {A} (catches : exc → bool) (m : M σ A) (h : exc → M σ A) : M σ A :=
  λ s, match m s with
       | (inl e, s') => if catches e then h e s' else (inl e, s')
       | r => r
       end.

Definition m_modify (f : σ → σ) : M σ unit := λ s, (inr tt, f s).

(** [for x in l: body(x)] *)
Fixpoint m_for {A} (l : list A) (body : A → M σ unit) : M σ unit :=
  match l with
  | [] => m_ret tt
  | x :: l' => m_bind (body x) (λ _, m_for l' body)
  end.

(** [if c: body] *)
Definition m_when (c : bool) (body : M σ unit) : M σ unit :=
  if c then body else m_ret tt.
End Monad.

Notation "x <- m ;; k" := (m_bind m (λ x, k))
  (at level 100, m at next level, right associativity) : cleanup_scope.
Notation "m ;; k" := (m_bind m (λ _, k))
  (at level 100, right associativity) : cleanup_scope.

(** Code that can raise but keeps no state (the classification) returns
    [exc + A]; [x <-? e ;; k] is its bind. *)
Definition s_bind {A B} (e : exc + A) (k : A → exc + B) : exc + B :=
  match e with inl err => inl err | inr x => k x end.

Notation "x <-? e ;; k" := (s_bind e (λ x, k))
  (at level 100, e at next level, right associativity) : cleanup_scope.

(** ** Generic lemmas on the monad *)

Create HintDb cleanup discriminated.
Create Rewrite HintDb cleanup.

Section MonadLemmas.
Context {σ : Type}.

Lemma m_bind_ok {A B} (m : M σ A) (k : A → M σ B) s x s' :
  m s = (inr x, s') → m_bind m k s = k x s'.
Proof. intros H. unfold m_bind. by rewrite H. Qed.

(** [try: m except Exception: pass] always returns, in the state [m]
    left, whether it returned or raised. *)
Lemma m_try_all_unit (m : M σ unit) s :
  m_try (λ _, true) m (λ _, m_ret tt) s = (inr tt, snd (m s)).
Proof. unfold m_try, m_ret. by destruct (m s) as [[e|[]] s']. Qed.

(** [try: m except Exception: pass], when [m] raises an [Exception] if
    it raises: it returns in the state [m] left. *)
Lemma m_try_exception_unit (m : M σ unit) s :
  (∀ e, fst (m s) = inl e → is_exception e = true) →
  m_try is_exception m (λ _, m_ret tt) s = (inr tt, snd (m s)).
Proof.
  intros He. unfold m_try, m_ret. destruct (m s) as [[e|[]] s'] eqn:E; [|done].
  by rewrite (He e eq_refl).
Qed.
End MonadLemmas.

Lemma sum_list_with_plus {A} (f g : A → nat) (l : list A) :
  sum_list_with (λ x, f x + g x) l = sum_list_with f l + sum_list_with g l.
Proof. induction l as [|x l IH]; simpl; lia. Qed.

Lemma sum_list_with_ext {A} (f g : A → nat) (l : list A) :
  (∀ x, f x = g x) → sum_list_with f l = sum_list_with g l.
Proof. intros H. induction l as [|x l IH]; simpl; [done|]. by rewrite H, IH. Qed.

(** In a list of pairs whose first components are distinct, a first
    component determines the second. *)
Lemma NoDup_fst_unique {A B} (l : list (A * B)) x y1 y2 :
  NoDup l.*1 → (x, y1) ∈ l → (x, y2) ∈ l → y1 = y2.
Proof.
  induction l as [|[x' y'] l IH]; intros Hnd H1 H2; [by apply elem_of_nil in H1|].
  cbn in Hnd. apply NoDup_cons in Hnd as [Hx Hnd]. apply elem_of_cons in H1, H2.
  destruct H1 as [E1|H1], H2 as [E2|H2]; simplify_eq; [done| | |by eapply IH];
    exfalso; apply Hx, list_elem_of_fmap; (eexists; split; [|eassumption]); done.
Qed.
