(* ===== verification/PyStr.v ===== *)
(** Python string and list primitives used by [src/scripts/cleanup.py]:
    the [in] operator on strings ([contains]), [str.split] with a
    separator ([py_split]), [sep.join] (the Standard Library's
    [String.concat], which has Python's semantics) and list indexing with
    negative indices ([py_getitem]).  Strings are [String.string].

    The lemmas compute substring tests and splits on strings of the form
    [String.concat sep segs]: every ARN the classification meets has that
    form, with [sep] the colon or the slash. *)

From stdpp Require Import base list strings.
From Stdlib Require Import Ascii ZArith Lia.
From S2P Require Import Prelude.

(** ** String primitives of the Python code *)

(** [sub in s] (Python's substring test). *)
Fixpoint contains (sub s : string) : bool :=
  String.prefix sub s ||
  match s with
  | EmptyString => false
  | String _ s' => contains sub s'
  end.

(** [s[n:]] *)
Fixpoint str_drop (n : nat) (s : string) : string :=
  match n, s with
  | 0, _ => s
  | S n', String _ s' => str_drop n' s'
  | S _, EmptyString => EmptyString
  end.

(** The first occurrence of [sep] in [s]: [s.partition(sep)] without the
    middle part, [None] when [sep] does not occur. *)
Fixpoint find_sep (sep s : string) : option (string * string) :=
  if String.prefix sep s then Some (EmptyString, str_drop (String.length sep) s)
  else match s with
       | EmptyString => None
       | String c s' =>
           match find_sep sep s' with
           | Some (b, a) => Some (String c b, a)
           | None => None
           end
       end.

(** The loop of [str.split(sep)]: cut at the first occurrence and go on
    with the rest.  Each cut consumes at least one character when [sep] is
    not empty, so [S (length s)] rounds are enough ([split_go_fuel]). *)
Fixpoint split_go (fuel : nat) (sep s : string) : list string :=
  match fuel with
  | 0 => [s]
  | S f =>
      match find_sep sep s with
      | None => [s]
      | Some (b, a) => b :: split_go f sep a
      end
  end.

(** [s.split(sep)].  Python raises [ValueError] on an empty separator;
    every call site of [cleanup.py] passes a non-empty literal. *)
Definition py_split (sep s : string) : list string :=
  split_go (S (String.length s)) sep s.

(** [l[i]] with Python's negative indices; [None] is [IndexError]. *)
Definition py_getitem {A} (l : list A) (i : Z) : option A :=
  if (i <? 0)%Z then
    (if (Z.of_nat (length l) + i <? 0)%Z then None
     else l !! Z.to_nat (Z.of_nat (length l) + i))
  else l !! Z.to_nat i.

(** Auxiliary predicates of the lemmas (not used by the code). *)
Fixpoint has_char (c : ascii) (s : string) : bool :=
  match s with
  | EmptyString => false
  | String d s' => bool_decide (c = d) || has_char c s'
  end.

Fixpoint endswith (x s : string) : bool :=
  bool_decide (x = s) ||
  match s with
  | EmptyString => false
  | String _ s' => endswith x s'
  end.

(** [sep] overlaps no shifted copy of itself: no non-empty proper suffix
    of [sep] is a prefix of [sep].  One-character separators and
    ["cluster/"], ["nodegroup/"] have this property. *)
Definition border_free (sep : string) : bool :=
  forallb (λ i, negb (String.prefix (str_drop i sep) sep))
          (seq 1 (String.length sep - 1)).

(** [any_nonlast f l]: [f] holds of an element of [l] other than the last. *)
Fixpoint any_nonlast (f : string → bool) (l : list string) : bool :=
  match l with
  | [] | [_] => false
  | y :: l' => f y || any_nonlast f l'
  end.

(** ** Basic lemmas on append *)

Section Append.
Implicit Types a b s t x y : string.

Lemma str_app_cons c s t : String c s +:+ t = String c (s +:+ t).
Proof. reflexivity. Qed.

Lemma str_app_nil_l t : "" +:+ t = t.
Proof. reflexivity. Qed.

Lemma str_app_nil_r s : s +:+ "" = s.
Proof. induction s as [|c s IH]; [done|]. rewrite str_app_cons, IH. done. Qed.

Lemma str_app_assoc a b c : (a +:+ b) +:+ c = a +:+ (b +:+ c).
Proof. induction a as [|d a IH]; [done|]. rewrite !str_app_cons, IH. done. Qed.

Lemma str_length_app a b : String.length (a +:+ b) = String.length a + String.length b.
Proof. induction a as [|d a IH]; [done|]. rewrite str_app_cons. simpl. lia. Qed.

Lemma str_app_eq_app a b x y :
  a +:+ b = x +:+ y →
  ∃ k, (x = a +:+ k ∧ b = k +:+ y) ∨ (a = x +:+ k ∧ y = k +:+ b).
Proof.
  revert x. induction a as [|c a IH]; intros x H.
  - exists x. left. done.
  - destruct x as [|d x].
    + exists (String c a). right. done.
    + rewrite !str_app_cons in H. injection H as -> H.
      destruct (IH x H) as [k [[-> ->]|[-> ->]]]; exists k; [left|right]; done.
Qed.

Lemma str_app_inv_l a b c : a +:+ b = a +:+ c → b = c.
Proof. induction a as [|d a IH]; [done|]. rewrite !str_app_cons. intros [= H]. auto. Qed.

Lemma has_char_app c a b : has_char c (a +:+ b) = has_char c a || has_char c b.
Proof. induction a as [|d a IH]; [done|]. simpl. rewrite IH. apply orb_assoc. Qed.

Lemma str_drop_app a b : str_drop (String.length a) (a +:+ b) = b.
Proof. induction a as [|d a IH]; done. Qed.

Lemma str_length_drop n s : String.length (str_drop n s) = String.length s - n.
Proof. revert s. induction n as [|n IH]; intros [|c s]; simpl; auto; lia. Qed.
End Append.

#[export] Hint Rewrite str_app_nil_r str_app_assoc has_char_app str_length_app : cleanup.

(** ** Prefix, substring and suffix tests *)

Section Tests.
Implicit Types a b p s t w x : string.

Lemma prefix_spec p s : String.prefix p s = true ↔ ∃ q, s = p +:+ q.
Proof.
  revert s. induction p as [|c p IH]; intros s.
  - split; [intros _; by exists s | intros _; by destruct s].
  - destruct s as [|d s]; simpl.
    + split; [done|]. intros [q Hq]. discriminate.
    + destruct (ascii_dec c d) as [->|Hne].
      * rewrite IH. split; intros [q Hq]; exists q; [by subst | by injection Hq].
      * split; [done|]. intros [q Hq]. injection Hq. done.
Qed.

Lemma prefix_app p q : String.prefix p (p +:+ q) = true.
Proof. apply prefix_spec. eauto. Qed.

Lemma prefix_app_mono p x y : String.prefix p x = true → String.prefix p (x +:+ y) = true.
Proof. rewrite !prefix_spec. intros [q ->]. exists (q +:+ y). by rewrite str_app_assoc. Qed.

Lemma contains_nil w : contains w "" = String.prefix w "".
Proof. destruct w; done. Qed.

Lemma contains_cons w c s : contains w (String c s) = String.prefix w (String c s) || contains w s.
Proof. reflexivity. Qed.

Lemma contains_spec w s : contains w s = true ↔ ∃ a b, s = a +:+ w +:+ b.
Proof.
  induction s as [|c s IH].
  - rewrite contains_nil, prefix_spec. split.
    + intros [q Hq]. by exists "", q.
    + intros [[|] [b Hb]]; [by exists b | discriminate].
  - rewrite contains_cons, orb_true_iff, IH, prefix_spec. split.
    + intros [[q Hq]|[a [b ->]]]; [by exists "", q | by exists (String c a), b].
    + intros [[|d a] [b Hb]]; [left; by exists b | right].
      injection Hb as -> ->. by exists a, b.
Qed.

Lemma contains_app_l w a b : contains w (a +:+ w +:+ b) = true.
Proof. apply contains_spec. eauto. Qed.

Lemma contains_prefix w b : contains w (w +:+ b) = true.
Proof. apply contains_spec. by exists "", b. Qed.

Lemma contains_refl w : contains w w = true.
Proof. rewrite <- (str_app_nil_r w) at 2. apply contains_prefix. Qed.

Lemma endswith_spec x s : endswith x s = true ↔ ∃ p, s = p +:+ x.
Proof.
  induction s as [|c s IH]; simpl.
  - rewrite orb_false_r, bool_decide_eq_true. split.
    + intros <-. by exists "".
    + intros [[|] Hp]; [done | discriminate].
  - rewrite orb_true_iff, bool_decide_eq_true, IH. split.
    + intros [<-|[p ->]]; [by exists "" | by exists (String c p)].
    + intros [[|d p] Hp]; [by left | right]. injection Hp as -> ->. eauto.
Qed.

Lemma has_char_spec c s : has_char c s = true ↔ ∃ a b, s = a +:+ String c b.
Proof.
  induction s as [|d s IH]; simpl.
  - split; [done|]. intros [[|] [b Hb]]; discriminate.
  - rewrite orb_true_iff, bool_decide_eq_true, IH. split.
    + intros [->|[a [b ->]]]; [by exists "", s | by exists (String d a), b].
    + intros [[|e a] [b Hb]]; injection Hb; [left; done | intros -> ->; right; eauto].
Qed.

(** A test for a word that holds a character the string lacks fails. *)
Lemma contains_absent_char c w s :
  has_char c w = true → has_char c s = false → contains w s = false.
Proof.
  intros Hw Hs. apply not_true_iff_false. rewrite contains_spec. intros [a [b ->]].
  rewrite !has_char_app, Hw in Hs. by rewrite orb_true_r in Hs.
Qed.

Lemma prefix_absent_char c w s :
  has_char c w = true → has_char c s = false → String.prefix w s = false.
Proof.
  intros Hw Hs. apply not_true_iff_false. rewrite prefix_spec. intros [q ->].
  rewrite has_char_app, Hw in Hs. done.
Qed.
End Tests.

(** ** [str.split] *)

Section Split.
Implicit Types a b p s t u k sep : string.

Lemma find_sep_eq sep s :
  find_sep sep s =
    if String.prefix sep s then Some (EmptyString, str_drop (String.length sep) s)
    else match s with
         | EmptyString => None
         | String c s' =>
             match find_sep sep s' with
             | Some (b, a) => Some (String c b, a)
             | None => None
             end
         end.
Proof. destruct s; reflexivity. Qed.

Lemma contains_empty s : contains "" s = true.
Proof. apply contains_spec. exists "", s. done. Qed.

Lemma contains_single c s : contains (String c "") s = has_char c s.
Proof.
  induction s as [|d s IH]; [done|].
  rewrite contains_cons, IH. simpl. f_equal.
  destruct (ascii_dec c d) as [->|Hne].
  - rewrite bool_decide_eq_true_2; [|done]. by destruct s.
  - rewrite bool_decide_eq_false_2; [done|]. congruence.
Qed.

Lemma find_sep_some sep s b a : find_sep sep s = Some (b, a) → s = b +:+ sep +:+ a.
Proof.
  revert b. induction s as [|c s IH]; intros b; rewrite find_sep_eq;
    destruct (String.prefix sep _) eqn:P.
  - intros [= <- <-]. by destruct sep.
  - done.
  - intros [= <- <-]. apply prefix_spec in P as [q Hq]. rewrite Hq, str_drop_app. done.
  - destruct (find_sep sep s) as [[b' a']|] eqn:F; [|done].
    intros [= <- <-]. rewrite (IH b' eq_refl). done.
Qed.

Lemma find_sep_none sep s : find_sep sep s = None ↔ contains sep s = false.
Proof.
  induction s as [|c s IH]; rewrite find_sep_eq.
  - rewrite contains_nil. destruct (String.prefix sep ""); done.
  - rewrite contains_cons. destruct (String.prefix sep _); [done|]. simpl.
    rewrite <- IH. destruct (find_sep sep s) as [[]|]; done.
Qed.

(** The piece before the first occurrence holds no occurrence. *)
Lemma find_sep_first sep s b a :
  sep ≠ "" → find_sep sep s = Some (b, a) → contains sep b = false.
Proof.
  intros Hsep. revert b. induction s as [|c s IH]; intros b; rewrite find_sep_eq;
    destruct (String.prefix sep _) eqn:P.
  - intros [= <- _]. rewrite contains_nil. destruct sep; done.
  - done.
  - intros [= <- _]. rewrite contains_nil. destruct sep; done.
  - destruct (find_sep sep s) as [[b' a']|] eqn:F; [|done].
    intros [= <- <-]. rewrite contains_cons, (IH b' eq_refl), orb_false_r.
    apply not_true_iff_false. intros Hb.
    apply (prefix_app_mono _ _ (sep +:+ a')) in Hb.
    rewrite str_app_cons, <- (find_sep_some _ _ _ _ F), P in Hb. done.
Qed.

Lemma border_free_spec sep u k :
  border_free sep = true → sep = u +:+ k → u ≠ "" → k ≠ "" →
  String.prefix k sep = false.
Proof.
  unfold border_free. intros Hb -> Hu Hk.
  apply forallb_forall with (x := String.length u) in Hb.
  - rewrite str_drop_app in Hb. by apply negb_true_iff.
  - apply in_seq. rewrite str_length_app.
    destruct u, k; simpl; try done; lia.
Qed.

(** An occurrence of a border-free separator cannot start inside a
    non-empty piece that holds none. *)
Lemma prefix_no_straddle sep u b :
  border_free sep = true → u ≠ "" → contains sep u = false →
  String.prefix sep (u +:+ sep +:+ b) = false.
Proof.
  intros Hbf Hu Hc. apply not_true_iff_false. rewrite prefix_spec. intros [q Hq].
  destruct (str_app_eq_app _ _ _ _ Hq) as [k [[Hs Hk]|[Hu' _]]].
  - destruct (decide (k = "")) as [->|Hkne].
    + rewrite str_app_nil_r in Hs. subst sep.
      by rewrite contains_refl in Hc.
    + assert (String.prefix k sep = true) as Hp.
      { apply prefix_spec. symmetry in Hk.
        destruct (str_app_eq_app _ _ _ _ Hk) as [k' [[Hs' _]|[Hk' _]]]; [eauto|].
        exfalso. apply (f_equal String.length) in Hk', Hs.
        rewrite !str_length_app in Hk', Hs. destruct u; [done|]. simpl in Hs. lia. }
      by rewrite (border_free_spec sep u k) in Hp.
  - subst u. by rewrite contains_prefix in Hc.
Qed.

Lemma find_sep_app_sep sep a b :
  border_free sep = true → contains sep a = false →
  find_sep sep (a +:+ sep +:+ b) = Some (a, b).
Proof.
  intros Hbf. induction a as [|c a IH]; intros Ha; rewrite find_sep_eq.
  - rewrite str_app_nil_l, prefix_app, str_drop_app. done.
  - rewrite prefix_no_straddle; [|done|done|done].
    rewrite contains_cons in Ha. apply orb_false_iff in Ha as [_ Ha].
    rewrite str_app_cons, (IH Ha). done.
Qed.

Lemma concat_cons_ne sep x l :
  l ≠ [] → String.concat sep (x :: l) = x +:+ sep +:+ String.concat sep l.
Proof. destruct l; done. Qed.

Lemma split_go_nil f sep s : split_go f sep s ≠ [].
Proof. destruct f; simpl; [done|]. destruct (find_sep sep s) as [[]|]; done. Qed.

Lemma split_go_join f sep s : String.concat sep (split_go f sep s) = s.
Proof.
  revert s. induction f as [|f IH]; intros s; [done|]. simpl.
  destruct (find_sep sep s) as [[b a]|] eqn:F; [|done].
  rewrite concat_cons_ne by apply split_go_nil. rewrite IH.
  symmetry. by apply find_sep_some.
Qed.

Lemma split_go_fuel f g sep s :
  sep ≠ "" → String.length s < f → String.length s < g →
  split_go f sep s = split_go g sep s.
Proof.
  intros Hsep. revert g s. induction f as [|f IH]; intros [|g] s Hf Hg; try lia.
  simpl. destruct (find_sep sep s) as [[b a]|] eqn:F; [|done]. f_equal.
  apply find_sep_some in F. subst s. rewrite !str_length_app in Hf, Hg.
  destruct sep; [done|]. apply IH; simpl in *; lia.
Qed.

Lemma split_go_pieces f sep s :
  sep ≠ "" → String.length s < f →
  Forall (λ p, contains sep p = false) (split_go f sep s).
Proof.
  intros Hsep. revert s. induction f as [|f IH]; intros s Hf; [lia|]. simpl.
  destruct (find_sep sep s) as [[b a]|] eqn:F.
  - constructor; [by eapply find_sep_first|].
    apply find_sep_some in F. subst s. rewrite !str_length_app in Hf.
    apply IH. destruct sep; [done|]. simpl in *. lia.
  - constructor; [|done]. by apply find_sep_none.
Qed.

Lemma py_split_no_sep sep s : contains sep s = false → py_split sep s = [s].
Proof. intros H. unfold py_split. simpl. apply find_sep_none in H. by rewrite H. Qed.

Lemma py_split_app_sep sep a b :
  border_free sep = true → contains sep a = false →
  py_split sep (a +:+ sep +:+ b) = a :: py_split sep b.
Proof.
  intros Hbf Ha. assert (sep ≠ "") as Hsep by (intros ->; by rewrite contains_empty in Ha).
  unfold py_split at 1. simpl. rewrite find_sep_app_sep by done. f_equal.
  apply split_go_fuel; [done| |lia]. rewrite !str_length_app.
  destruct sep; [done|]. simpl. lia.
Qed.

Lemma py_split_sep_cons sep s :
  contains sep s = true → ∃ b x l, py_split sep s = b :: x :: l.
Proof.
  intros H. unfold py_split. simpl.
  destruct (find_sep sep s) as [[b a]|] eqn:F.
  - destruct (split_go (String.length s) sep a) as [|x l] eqn:E; [by apply split_go_nil in E|].
    eauto.
  - apply find_sep_none in F. congruence.
Qed.

Lemma border_free_single c : border_free (String c "") = true.
Proof. reflexivity. Qed.

(** Splitting a join of pieces free of a one-character separator gives
    the pieces back. *)
Lemma py_split_concat c segs :
  Forall (λ x, has_char c x = false) segs → segs ≠ [] →
  py_split (String c "") (String.concat (String c "") segs) = segs.
Proof.
  induction segs as [|x [|y l] IH]; intros Hf Hne; [done| |].
  - simpl. apply Forall_cons in Hf as [Hx _].
    apply py_split_no_sep. by rewrite contains_single.
  - apply Forall_cons in Hf as [Hx Hf].
    rewrite concat_cons_ne by done.
    rewrite py_split_app_sep by (rewrite ?contains_single; done).
    rewrite IH; done.
Qed.
End Split.

#[export] Hint Rewrite contains_single : cleanup.

(** ** Indexing *)

Lemma py_getitem_last {A} (l : list A) : py_getitem l (-1) = last l.
Proof.
  unfold py_getitem. simpl. rewrite last_lookup.
  destruct l as [|x l]; [done|]. simpl length.
  destruct (Z.ltb_spec (Z.of_nat (S (length l)) + -1) 0); [lia|].
  f_equal. lia.
Qed.

(** ** Substring tests on joined strings

    Every ARN is [String.concat ":" segs] and, inside its resource part,
    [String.concat "/" segs'].  The tests of the classification have four
    shapes, and each is computed here from the pieces, when the pieces
    hold no separator [c]:
    - [c ++ w] with [w] free of [c] (":cluster/"): some piece after the
      first starts with [w] ([contains_sep_prefix]);
    - [c ++ w ++ c] (":eks:"): some inner piece is [w]
      ([contains_sep_word]);
    - [w ++ c] ("subnet/"): some piece but the last ends with [w]
      ([contains_word_sep]);
    - [w] free of [c]: some piece contains [w] ([contains_no_sep]). *)

Section Joined.
Context (c : ascii).
Local Abbreviation C := (String c "").
Local Abbreviation free x := (has_char c x = false).
Implicit Types a b p s t u w x y R : string.

Lemma concat_cons_char x l :
  l ≠ [] → String.concat C (x :: l) = x +:+ String c (String.concat C l).
Proof. intros. by rewrite concat_cons_ne. Qed.

Lemma prefix_cons_eq d w s :
  String.prefix (String d w) (String d s) = String.prefix w s.
Proof. simpl. by destruct (ascii_dec d d). Qed.

Lemma prefix_cons_ne d e w s :
  d ≠ e → String.prefix (String d w) (String e s) = false.
Proof. intros H. simpl. by destruct (ascii_dec d e). Qed.

Lemma prefix_nil_l s : String.prefix "" s = true.
Proof. by destruct s. Qed.

Lemma prefix_free_app w x R : free w → String.prefix w (x +:+ String c R) = String.prefix w x.
Proof.
  revert x. induction w as [|e w IH]; intros x Hw; [by rewrite !prefix_nil_l|].
  simpl in Hw. apply orb_false_iff in Hw as [He Hw].
  apply bool_decide_eq_false in He.
  destruct x as [|d x].
  - rewrite str_app_nil_l, prefix_cons_ne by congruence. done.
  - rewrite str_app_cons. destruct (decide (e = d)) as [->|Hne].
    + rewrite !prefix_cons_eq. by apply IH.
    + by rewrite !prefix_cons_ne.
Qed.

Lemma prefix_word_sep w y t R :
  free w → free y →
  String.prefix (w +:+ String c t) (y +:+ String c R) =
    bool_decide (w = y) && String.prefix t R.
Proof.
  revert y. induction w as [|e w IH]; intros y Hw Hy.
  - destruct y as [|d y]; [by rewrite !str_app_nil_l, prefix_cons_eq|].
    simpl in Hy. apply orb_false_iff in Hy as [Hd _]. apply bool_decide_eq_false in Hd.
    rewrite str_app_nil_l, str_app_cons, prefix_cons_ne by done. done.
  - simpl in Hw. apply orb_false_iff in Hw as [He Hw]. apply bool_decide_eq_false in He.
    destruct y as [|d y].
    + rewrite str_app_nil_l, str_app_cons, prefix_cons_ne by congruence. done.
    + simpl in Hy. apply orb_false_iff in Hy as [_ Hy].
      rewrite !str_app_cons. destruct (decide (e = d)) as [->|Hne].
      * rewrite prefix_cons_eq, IH by done.
        destruct (decide (w = y)) as [->|Hwy].
        { by rewrite !bool_decide_eq_true_2. }
        rewrite !bool_decide_eq_false_2; congruence.
      * rewrite prefix_cons_ne by done. rewrite bool_decide_eq_false_2; [done|congruence].
Qed.

Lemma prefix_concat_free w y l :
  free w → String.prefix w (String.concat C (y :: l)) = String.prefix w y.
Proof.
  intros Hw. destruct l as [|z l]; [done|].
  rewrite concat_cons_char by done. by apply prefix_free_app.
Qed.

Lemma contains_sep_app w x R :
  free x →
  contains (String c w) (x +:+ String c R) = String.prefix w R || contains (String c w) R.
Proof.
  induction x as [|d x IH]; intros Hx.
  - rewrite str_app_nil_l, contains_cons, prefix_cons_eq. done.
  - simpl in Hx. apply orb_false_iff in Hx as [Hd Hx]. apply bool_decide_eq_false in Hd.
    rewrite str_app_cons, contains_cons, prefix_cons_ne by done. simpl. by apply IH.
Qed.

Lemma contains_free_app w x R :
  free w → contains w (x +:+ String c R) = contains w x || contains w R.
Proof.
  intros Hw. induction x as [|d x IH].
  - rewrite str_app_nil_l, contains_cons, contains_nil.
    rewrite <- (str_app_nil_l (String c R)), prefix_free_app by done. done.
  - rewrite str_app_cons, !contains_cons, IH.
    rewrite <- str_app_cons, prefix_free_app by done. apply orb_assoc.
Qed.

Lemma contains_word_app w x R :
  free w → free x →
  contains (w +:+ C) (x +:+ String c R) = endswith w x || contains (w +:+ C) R.
Proof.
  intros Hw. induction x as [|d x IH]; intros Hx.
  - rewrite str_app_nil_l, contains_cons.
    rewrite <- (str_app_nil_l (String c R)), prefix_word_sep, prefix_nil_l by done.
    rewrite andb_true_r. destruct w; done.
  - rewrite str_app_cons, contains_cons, <- str_app_cons.
    rewrite prefix_word_sep, prefix_nil_l, andb_true_r by done.
    simpl in Hx. apply orb_false_iff in Hx as [_ Hx].
    rewrite IH by done. simpl. apply orb_assoc.
Qed.

Lemma contains_sep_prefix w x l :
  free w → Forall (λ y, free y) (x :: l) →
  contains (String c w) (String.concat C (x :: l)) = existsb (String.prefix w) l.
Proof.
  intros Hw. revert x. induction l as [|y l IH]; intros x Hf;
    apply Forall_cons in Hf as [Hx Hf].
  - simpl. apply contains_absent_char with c; [simpl; by rewrite bool_decide_eq_true_2|done].
  - rewrite concat_cons_char, contains_sep_app by done.
    rewrite prefix_concat_free, IH by done. done.
Qed.

Lemma contains_sep_word w x l :
  free w → Forall (λ y, free y) (x :: l) →
  contains (String c (w +:+ C)) (String.concat C (x :: l)) =
    any_nonlast (λ y, bool_decide (y = w)) l.
Proof.
  intros Hw. revert x. induction l as [|y l IH]; intros x Hf;
    apply Forall_cons in Hf as [Hx Hf].
  - simpl. apply contains_absent_char with c; [simpl; by rewrite bool_decide_eq_true_2|done].
  - rewrite concat_cons_char, contains_sep_app, IH by done.
    apply Forall_cons in Hf as [Hy Hf].
    destruct l as [|z l].
    + simpl. rewrite orb_false_r. apply prefix_absent_char with c; [|done].
      rewrite has_char_app. simpl. rewrite bool_decide_eq_true_2; [|done]. apply orb_true_r.
    + rewrite concat_cons_char, prefix_word_sep, prefix_nil_l, andb_true_r by done.
      cbn [any_nonlast]. f_equal. apply bool_decide_ext. done.
Qed.

Lemma contains_word_sep w segs :
  free w → Forall (λ y, free y) segs →
  contains (w +:+ C) (String.concat C segs) = any_nonlast (endswith w) segs.
Proof.
  intros Hw. induction segs as [|x [|y l] IH]; intros Hf.
  - cbn [String.concat any_nonlast]. rewrite contains_nil.
    apply prefix_absent_char with c; [|done].
    rewrite has_char_app. simpl. rewrite bool_decide_eq_true_2; [|done]. apply orb_true_r.
  - apply Forall_cons in Hf as [Hx _]. simpl.
    apply contains_absent_char with c; [|done].
    rewrite has_char_app. simpl. rewrite bool_decide_eq_true_2; [|done]. apply orb_true_r.
  - apply Forall_cons in Hf as [Hx Hf].
    rewrite concat_cons_char, contains_word_app, IH by done. done.
Qed.

Lemma contains_no_sep w x l :
  free w → contains w (String.concat C (x :: l)) = existsb (contains w) (x :: l).
Proof.
  intros Hw. revert x. induction l as [|y l IH]; intros x.
  - simpl. by rewrite orb_false_r.
  - rewrite concat_cons_char, contains_free_app, IH by done. done.
Qed.
End Joined.

Lemma concat_app_last sep l x y :
  String.concat sep (l ++ [x +:+ y]) = String.concat sep (l ++ [x]) +:+ y.
Proof.
  induction l as [|z l IH]; [done|]. simpl app.
  rewrite !concat_cons_ne by (destruct l; done). rewrite IH. by autorewrite with cleanup.
Qed.

(** The last piece of a split is a suffix of the string. *)
Lemma py_split_last_suffix sep s : ∃ p, s = p +:+ default "" (last (py_split sep s)).
Proof.
  destruct (last (py_split sep s)) as [x|] eqn:E.
  - apply last_Some in E as [l' E]. exists (String.concat sep (l' ++ [""])).
    rewrite <- concat_app_last, str_app_nil_l. change (default "" (Some x)) with x.
    rewrite <- E. symmetry. apply split_go_join.
  - apply last_None in E. by apply split_go_nil in E.
Qed.

