(* ===== verification/Classify.v ===== *)
(** The classification of tagged resources by ARN, lines 409-484 of
    [process_region] in [src/scripts/cleanup.py].

    [process_region] keeps nineteen local lists; eighteen hold strings and
    [eks_nodegroups] holds (cluster, node group) pairs.  They are modelled
    by the record [buckets]: [eks_nodegroups] and one string list per
    [category], named after the Python variables.  [classify_arn] is the
    [if]/[elif] chain on one ARN and returns which list grows by what
    ([classified]); [categorize] is the [for resource in resources] loop.
    The only exception the loop can raise is [IndexError], from
    [parts[1]] in the node-group branch. *)

From stdpp Require Import base list strings.
From Stdlib Require Import Ascii ZArith Lia.
From S2P Require Import Prelude PyStr.

Local Open Scope cleanup_scope.

(** The eighteen lists of strings of [process_region]. *)
Inductive category :=
| eks_clusters
| elasticache_clusters
| elasticache_repl_groups
| elasticache_snapshots
| elasticache_param_groups
| elasticache_subnet_groups
| rds_clusters
| rds_param_groups
| rds_subnet_groups
| load_balancers
| target_groups
| nat_gateways
| internet_gateways
| subnets
| route_tables
| security_groups
| vpcs
| launch_templates.

#[export] Instance category_eq_dec : EqDecision category.
Proof. solve_decision. Defined.

Definition all_categories : list category :=
  [eks_clusters; elasticache_clusters; elasticache_repl_groups;
   elasticache_snapshots; elasticache_param_groups; elasticache_subnet_groups;
   rds_clusters; rds_param_groups; rds_subnet_groups; load_balancers;
   target_groups; nat_gateways; internet_gateways; subnets; route_tables;
   security_groups; vpcs; launch_templates].

Record buckets := {
  eks_nodegroups : list (string * string);
  by_category : category → list string
}.

Definition empty_buckets : buckets :=
  {| eks_nodegroups := []; by_category := λ _, [] |}.

(** What one iteration of the loop appends. *)
Inductive classified :=
| Into (c : category) (x : string)
| IntoNodegroup (cluster_name nodegroup_name : string)
| Skipped.

(** [l[i]], raising [IndexError] out of range. *)
Definition getitem (l : list string) (i : Z) : exc + string :=
  match py_getitem l i with Some x => inr x | None => inl IndexError end.

(** The body of [for resource in resources] (lines 431-484) on
    [arn = resource['ResourceARN']]. *)
Definition classify_arn (arn : string) : exc + classified :=
  if contains ":eks:" arn && contains ":cluster/" arn then
    cluster_name <-? getitem (py_split "cluster/" arn) (-1) ;;
    inr (Into eks_clusters cluster_name)
  else if contains ":eks:" arn && contains ":nodegroup/" arn then
    tail <-? getitem (py_split "nodegroup/" arn) (-1) ;;
    let parts := py_split "/" tail in
    cluster_name <-? getitem parts 0 ;;
    nodegroup_name <-? getitem parts 1 ;;
    inr (IntoNodegroup cluster_name nodegroup_name)
  else if contains ":elasticache:" arn && contains ":cluster:" arn then
    cluster_id <-? getitem (py_split ":" arn) (-1) ;;
    inr (Into elasticache_clusters cluster_id)
  else if contains ":elasticache:" arn && contains ":replicationgroup:" arn then
    group_id <-? getitem (py_split ":" arn) (-1) ;;
    inr (Into elasticache_repl_groups group_id)
  else if contains ":elasticache:" arn && contains ":snapshot:" arn then
    snapshot_name <-? getitem (py_split ":" arn) (-1) ;;
    inr (Into elasticache_snapshots snapshot_name)
  else if contains ":elasticache:" arn && contains ":parametergroup:" arn then
    pg_name <-? getitem (py_split ":" arn) (-1) ;;
    inr (Into elasticache_param_groups pg_name)
  else if contains ":elasticache:" arn && contains ":subnetgroup:" arn then
    sg_name <-? getitem (py_split ":" arn) (-1) ;;
    inr (Into elasticache_subnet_groups sg_name)
  else if contains ":rds:" arn && contains ":cluster:" arn then
    cluster_id <-? getitem (py_split ":" arn) (-1) ;;
    inr (Into rds_clusters cluster_id)
  else if contains ":rds:" arn && contains ":cluster-pg:" arn then
    pg_name <-? getitem (py_split ":" arn) (-1) ;;
    inr (Into rds_param_groups pg_name)
  else if contains ":rds:" arn && contains ":subgrp:" arn then
    sg_name <-? getitem (py_split ":" arn) (-1) ;;
    inr (Into rds_subnet_groups sg_name)
  else if contains ":elasticloadbalancing:" arn && contains "loadbalancer/" arn then
    inr (Into load_balancers arn)
  else if contains ":elasticloadbalancing:" arn && contains "targetgroup/" arn then
    inr (Into target_groups arn)
  else if contains ":ec2:" arn && contains "natgateway/" arn then
    x <-? getitem (py_split "/" arn) (-1) ;; inr (Into nat_gateways x)
  else if contains ":ec2:" arn && contains "internet-gateway/" arn then
    x <-? getitem (py_split "/" arn) (-1) ;; inr (Into internet_gateways x)
  else if contains ":ec2:" arn && contains "subnet/" arn then
    x <-? getitem (py_split "/" arn) (-1) ;; inr (Into subnets x)
  else if contains ":ec2:" arn && contains "route-table/" arn then
    x <-? getitem (py_split "/" arn) (-1) ;; inr (Into route_tables x)
  else if contains ":ec2:" arn && contains "security-group/" arn then
    sg_id <-? getitem (py_split "/" arn) (-1) ;;
    if bool_decide (sg_id ≠ "default") then inr (Into security_groups sg_id)
    else inr Skipped
  else if contains ":ec2:" arn && contains "vpc/" arn then
    x <-? getitem (py_split "/" arn) (-1) ;; inr (Into vpcs x)
  else if contains ":ec2:" arn && contains "launch-template/" arn then
    x <-? getitem (py_split "/" arn) (-1) ;; inr (Into launch_templates x)
  else inr Skipped.

(** [lst.append(x)] on the list the branch names. *)
Definition add_classified (b : buckets) (r : classified) : buckets :=
  match r with
  | Into c x =>
      {| eks_nodegroups := eks_nodegroups b;
         by_category := λ c', if decide (c' = c) then by_category b c' ++ [x]
                              else by_category b c' |}
  | IntoNodegroup cl ng =>
      {| eks_nodegroups := eks_nodegroups b ++ [(cl, ng)];
         by_category := by_category b |}
  | Skipped => b
  end.

(** [for resource in resources: ...], from the current lists. *)
Fixpoint categorize_go (b : buckets) (resources : list string) : exc + buckets :=
  match resources with
  | [] => inr b
  | arn :: rest =>
      r <-? classify_arn arn ;;
      categorize_go (add_classified b r) rest
  end.

(** Lines 409-484: the lists start empty. *)
Definition categorize (resources : list string) : exc + buckets :=
  categorize_go empty_buckets resources.

(** The part of an ARN after its last ["nodegroup/"]. *)
Definition nodegroup_tail (arn : string) : string :=
  default "" (last (py_split "nodegroup/" arn)).

(** The items the ARNs of [rs] add to the list of category [c], in order. *)
Definition items_of (c : category) (rs : list string) : list string :=
  omap (λ arn, match classify_arn arn with
               | inr (Into c' x) => if decide (c = c') then Some x else None
               | _ => None
               end) rs.

Definition nodegroups_of (rs : list string) : list (string * string) :=
  omap (λ arn, match classify_arn arn with
               | inr (IntoNodegroup cl ng) => Some (cl, ng)
               | _ => None
               end) rs.

(** Four ARNs of a dev environment: two subnets, a VPC and a node group. *)
Definition sample_resources : list string :=
  ["arn:aws:ec2:us-east-1:123456789012:subnet/subnet-0a1";
   "arn:aws:ec2:us-east-1:123456789012:vpc/vpc-0b2";
   "arn:aws:eks:us-east-1:123456789012:nodegroup/xelta-dev/ng-1/4ec5";
   "arn:aws:ec2:us-east-1:123456789012:subnet/subnet-0c3"].

(** The number of items in all the lists. *)
Definition bucket_total (b : buckets) : nat :=
  length (eks_nodegroups b) + sum_list_with (λ c, length (by_category b c)) all_categories.

(** What one ARN adds to the list of [c]. *)
Definition head_items (arn : string) (c : category) : list string :=
  match classify_arn arn with
  | inr (Into c' x) => if decide (c = c') then [x] else []
  | _ => []
  end.

(** ** Indexing the result of a split never fails at [0] or [-1] *)

Lemma getitem_split_last sep s :
  getitem (py_split sep s) (-1) = inr (default "" (last (py_split sep s))).
Proof.
  unfold getitem. rewrite py_getitem_last.
  destruct (last (py_split sep s)) eqn:E; [done|].
  apply last_None in E. by apply split_go_nil in E.
Qed.

Lemma getitem_split_first sep s :
  getitem (py_split sep s) 0 = inr (default "" (head (py_split sep s))).
Proof.
  unfold getitem, py_getitem. simpl.
  destruct (py_split sep s) eqn:E; [by apply split_go_nil in E|done].
Qed.

Lemma getitem_second (l : list string) :
  getitem l 1 = match l with _ :: x :: _ => inr x | _ => inl IndexError end.
Proof. by destruct l as [|? [|? ?]]. Qed.

(** Unfold [classify_arn] and evaluate the indexing of its splits, which
    cannot fail at [0] or [-1]. *)
Ltac unfold_classify :=
  unfold classify_arn; rewrite !getitem_split_last; cbn [s_bind];
  rewrite getitem_split_first; cbn [s_bind]; rewrite getitem_second.

(** ** The error of the classification *)

Lemma classify_arn_error_index arn e : classify_arn arn = inl e → e = IndexError.
Proof. unfold_classify. repeat case_match; naive_solver. Qed.

(** C3: The classification of one ARN raises an exception exactly when
    the ARN is an EKS node-group ARN (it has [":eks:"] and
    [":nodegroup/"] but no [":cluster/"]) whose part after
    ["nodegroup/"] holds no slash: then [parts[1]] raises [IndexError].
    No other branch can fail: the [[-1]] and [[0]] of a split always
    exist. *)
Theorem classify_arn_error arn e :
  classify_arn arn = inl e ↔
  e = IndexError ∧
  (contains ":eks:" arn && negb (contains ":cluster/" arn) && contains ":nodegroup/" arn &&
   negb (has_char "/" (nodegroup_tail arn))) = true.
Proof.
  unfold nodegroup_tail. unfold_classify.
  destruct (contains ":eks:" arn), (contains ":cluster/" arn), (contains ":nodegroup/" arn);
    simpl; try (repeat case_match; naive_solver).
  set (t := default "" (last (py_split "nodegroup/" arn))).
  destruct (has_char "/" t) eqn:Ht.
  - rewrite <- contains_single in Ht. apply py_split_sep_cons in Ht as (b & x & l & ->).
    naive_solver.
  - rewrite <- contains_single in Ht. rewrite py_split_no_sep by done. naive_solver.
Qed.

(** A node group whose ARN was cut after the cluster name. *)
Lemma classify_arn_error_witness :
  classify_arn "arn:aws:eks:us-east-1:123456789012:nodegroup/xelta-dev-eks" = inl IndexError.
Proof.
  apply classify_arn_error. split; [done|]. vm_compute. reflexivity.
Defined.

(** ** The loop: what each list holds *)

Lemma items_of_cons c arn rs :
  items_of c (arn :: rs) =
    match classify_arn arn with
    | inr (Into c' x) => if decide (c = c') then [x] else []
    | _ => []
    end ++ items_of c rs.
Proof. unfold items_of. simpl. by destruct (classify_arn arn) as [|[c' x| |]]; try case_decide. Qed.

Lemma nodegroups_of_cons arn rs :
  nodegroups_of (arn :: rs) =
    match classify_arn arn with
    | inr (IntoNodegroup cl ng) => [(cl, ng)]
    | _ => []
    end ++ nodegroups_of rs.
Proof. unfold nodegroups_of. simpl. by destruct (classify_arn arn) as [|[c' x| |]]. Qed.

Lemma categorize_go_ok b rs b' :
  categorize_go b rs = inr b' →
  (∀ c, by_category b' c = by_category b c ++ items_of c rs) ∧
  eks_nodegroups b' = eks_nodegroups b ++ nodegroups_of rs.
Proof.
  revert b. induction rs as [|arn rs IH]; intros b H.
  - injection H as <-. split; [intros c|]; by rewrite app_nil_r.
  - simpl in H. destruct (classify_arn arn) as [e|r] eqn:E; [done|]. simpl in H.
    apply IH in H as [Hc Hn]. rewrite nodegroups_of_cons, E.
    split; [intros c; rewrite items_of_cons, E|]; rewrite ?Hc, ?Hn;
      destruct r as [c' x| |]; simpl; rewrite ?app_assoc; try done.
    + destruct (decide (c = c')); by rewrite ?app_nil_r.
    + by rewrite <- app_assoc.
Qed.

(** C4: When the loop of lines 430-484 finishes, each of the nineteen
    lists holds, in the order of [resources], exactly the items that the
    [elif] chain assigns to it: the accumulating loop computes, for every
    category, the filter-map of the resources by [classify_arn]. *)
Theorem categorize_lists rs b :
  categorize rs = inr b →
  (∀ c, by_category b c = items_of c rs) ∧ eks_nodegroups b = nodegroups_of rs.
Proof. intros H. by apply categorize_go_ok in H. Qed.

Lemma categorize_lists_witness :
  ∃ b, categorize sample_resources = inr b ∧
       by_category b subnets = items_of subnets sample_resources ∧
       items_of subnets sample_resources = ["subnet-0a1"; "subnet-0c3"].
Proof.
  destruct (categorize sample_resources) as [e|b] eqn:E; [vm_compute in E; discriminate|].
  exists b. split; [done|]. split; [apply (categorize_lists sample_resources b E)|].
  vm_compute. reflexivity.
Defined.

Lemma categorize_go_fails b rs :
  (∃ e, categorize_go b rs = inl e) ↔ Exists (λ arn, ∃ e, classify_arn arn = inl e) rs.
Proof.
  revert b. induction rs as [|arn rs IH]; intros b; simpl.
  - split; [by intros [? ?]|intros H; inversion H].
  - rewrite Exists_cons. destruct (classify_arn arn) as [e|r]; simpl.
    + split; [eauto|]. eauto.
    + rewrite IH. split; [auto|]. intros [[? ?]|?]; [discriminate|done].
Qed.

Lemma categorize_go_error_index b rs e : categorize_go b rs = inl e → e = IndexError.
Proof.
  revert b. induction rs as [|arn rs IH]; intros b; simpl; [done|].
  destruct (classify_arn arn) as [e'|r] eqn:E; simpl; [|apply IH].
  intros [= <-]. by apply classify_arn_error_index in E.
Qed.

(** C5: The loop of lines 430-484 raises exactly when one of the
    resources is an ARN whose classification raises, and then it raises
    [IndexError]: a single malformed node-group ARN aborts the whole
    classification of its region. *)
Theorem categorize_error rs e :
  categorize rs = inl e ↔
  e = IndexError ∧ Exists (λ arn, classify_arn arn = inl IndexError) rs.
Proof.
  unfold categorize. split.
  - intros H. split; [by eapply categorize_go_error_index|].
    eapply Exists_impl; [apply (categorize_go_fails empty_buckets); eauto|].
    intros arn [e' He']. by pose proof He' as ->%classify_arn_error_index.
  - intros [-> Hex]. destruct (proj2 (categorize_go_fails empty_buckets rs)) as [e' He'].
    + eapply Exists_impl; [exact Hex|]. simpl. eauto.
    + by rewrite He', (categorize_go_error_index _ _ _ He').
Qed.

Lemma categorize_error_witness :
  categorize (sample_resources ++ ["arn:aws:eks:us-east-1:123456789012:nodegroup/xelta-dev-eks"])
    = inl IndexError.
Proof.
  apply categorize_error. split; [done|].
  apply Exists_app. right. constructor. vm_compute. reflexivity.
Defined.

(** ** Each resource lands in at most one list *)

Lemma head_contribution arn :
  length (match classify_arn arn with
          | inr (IntoNodegroup cl ng) => [(cl, ng)]
          | _ => []
          end) +
  sum_list_with (λ c, length (head_items arn c)) all_categories ≤ 1.
Proof.
  unfold head_items.
  destruct (classify_arn arn) as [e|[c' x| |]]; try destruct c'; vm_compute; lia.
Qed.

Lemma items_total rs :
  length (nodegroups_of rs) + sum_list_with (λ c, length (items_of c rs)) all_categories
  ≤ length rs.
Proof.
  induction rs as [|arn rs IH]; [done|].
  rewrite nodegroups_of_cons, length_app.
  rewrite (sum_list_with_ext _ (λ c, length (head_items arn c) + length (items_of c rs)))
    by (intros c; by rewrite items_of_cons, length_app).
  rewrite sum_list_with_plus. pose proof (head_contribution arn).
  change (length (arn :: rs)) with (S (length rs)). lia.
Qed.

(** C6: The [elif] chain is exclusive: when the loop of lines 430-484
    finishes, the nineteen lists together hold at most one item per
    tagged resource, so no resource is scheduled for deletion twice by
    one pass over a region. *)
Theorem categorize_exclusive rs b :
  categorize rs = inr b → bucket_total b ≤ length rs.
Proof.
  intros H. apply categorize_go_ok in H as [Hc Hn].
  unfold bucket_total. rewrite Hn. rewrite (sum_list_with_ext _ _ _ (λ c, f_equal length (Hc c))).
  apply items_total.
Qed.

Lemma categorize_exclusive_witness :
  ∃ b, categorize sample_resources = inr b ∧ bucket_total b ≤ 4.
Proof.
  destruct (categorize sample_resources) as [e|b] eqn:E; [vm_compute in E; discriminate|].
  exists b. split; [done|]. apply (categorize_exclusive sample_resources b E).
Defined.

(** ** The identifiers are suffixes of the ARN *)

(** C24: Every identifier the classification files under a list is a
    suffix of its ARN: the last piece of a split of the ARN, or the whole
    ARN for load balancers and target groups. *)
Theorem classify_arn_suffix arn c x :
  classify_arn arn = inr (Into c x) → ∃ p, arn = p +:+ x.
Proof.
  unfold_classify. intros H.
  repeat (case_match; simplify_eq; try done);
    first [apply py_split_last_suffix | exists ""; by rewrite str_app_nil_l].
Qed.

Lemma classify_arn_suffix_witness :
  classify_arn "arn:aws:ec2:us-east-1:123456789012:subnet/subnet-0a1" =
    inr (Into subnets "subnet-0a1") ∧
  ∃ p, "arn:aws:ec2:us-east-1:123456789012:subnet/subnet-0a1" = p +:+ "subnet-0a1".
Proof.
  assert (H : classify_arn "arn:aws:ec2:us-east-1:123456789012:subnet/subnet-0a1" =
                inr (Into subnets "subnet-0a1")) by (vm_compute; reflexivity).
  split; [exact H|]. exact (classify_arn_suffix _ _ _ H).
Defined.

