(* ===== verification/Summary.v ===== *)
(** Console output of [src/scripts/cleanup.py] that depends on the
    program's data: the escape codes of [class Colors] (lines 21-29),
    [log] (lines 31-36) as the text it writes to standard output, and the
    summary of the categorized lists that [process_region] prints before
    it deletes anything (lines 487-512).

    The Python list [categories] pairs a label with one of the nineteen
    lists; the loop reads each list only through its truthiness and
    [len], so [categories] is modelled as the pairs (label, length).
    The theorem of this file shows that the loop prints exactly the
    nonempty lists, in code order, and that the printed counts add up to
    the number of tagged resources that the [elif] chain recognises. *)

From stdpp Require Import base list strings pretty.
From Stdlib Require Import Ascii Lia.
From S2P Require Import Prelude PyStr Classify.

Local Open Scope cleanup_scope.

(** [class Colors]: ANSI escape sequences, ["\033[95m"] and so on. *)
Module Colors.
Definition esc (code : string) : string := String "027"%char code.
Definition HEADER : string := esc "[95m".
Definition OKBLUE : string := esc "[94m".
Definition OKCYAN : string := esc "[96m".
Definition OKGREEN : string := esc "[92m".
Definition WARNING : string := esc "[93m".
Definition FAIL : string := esc "[91m".
Definition ENDC : string := esc "[0m".
Definition BOLD : string := esc "[1m".
End Colors.

Definition newline : string := String "010"%char EmptyString.

(** [log(message, color=None)]: [if color:] tests the truthiness of the
    colour (neither [None] nor the empty string); [print] ends the line. *)
Definition log (message : string) (color : option string) : string :=
  match color with
  | Some c => if bool_decide (c = "") then message +:+ newline
              else c +:+ message +:+ Colors.ENDC +:+ newline
  | None => message +:+ newline
  end.

(** Lines 488-508: the [categories] list, each list by its length. *)
Definition categories (b : buckets) : list (string * nat) :=
  let n c := length (by_category b c) in
  [("EKS Clusters", n eks_clusters);
   ("EKS Node Groups", length (eks_nodegroups b));
   ("ElastiCache Clusters", n elasticache_clusters);
   ("ElastiCache Replication Groups", n elasticache_repl_groups);
   ("ElastiCache Snapshots", n elasticache_snapshots);
   ("ElastiCache Parameter Groups", n elasticache_param_groups);
   ("ElastiCache Subnet Groups", n elasticache_subnet_groups);
   ("RDS Clusters", n rds_clusters);
   ("RDS Parameter Groups", n rds_param_groups);
   ("RDS Subnet Groups", n rds_subnet_groups);
   ("Load Balancers", n load_balancers);
   ("Target Groups", n target_groups);
   ("NAT Gateways", n nat_gateways);
   ("Internet Gateways", n internet_gateways);
   ("Subnets", n subnets);
   ("Route Tables", n route_tables);
   ("Security Groups", n security_groups);
   ("VPCs", n vpcs);
   ("Launch Templates", n launch_templates)].

(** [log(f"  {name}: {len(items)}", Colors.OKBLUE)]. *)
Definition summary_line (name : string) (count : nat) : string :=
  log ("  " +:+ name +:+ ": " +:+ pretty count) (Some Colors.OKBLUE).

(** Lines 510-512: [for name, items in categories: if items: log(...)]. *)
Fixpoint show_counts (cs : list (string * nat)) : string :=
  match cs with
  | [] => ""
  | (name, count) :: rest =>
      (if decide (count = 0) then "" else summary_line name count) +:+ show_counts rest
  end.

(** Lines 487-512: the heading and the loop. *)
Definition show_categorization (b : buckets) : string :=
  log (newline +:+ "Categorized resources:") (Some Colors.OKCYAN) +:+
  show_counts (categories b).

(** The entries the loop prints: the nonempty lists, in code order. *)
Definition summary_entries (b : buckets) : list (string * nat) :=
  filter (λ e, e.2 ≠ 0) (categories b).

(** Whether the [elif] chain files the ARN into one of the lists. *)
Definition recognised (arn : string) : bool :=
  match classify_arn arn with
  | inr Skipped | inl _ => false
  | inr _ => true
  end.

(** ** Lemmas *)

Lemma show_counts_filter cs :
  show_counts cs =
    foldr (λ e acc, summary_line e.1 e.2 +:+ acc) "" (filter (λ e, e.2 ≠ 0) cs).
Proof.
  induction cs as [|[name count] cs IH]; [done|]. simpl.
  rewrite filter_cons. simpl. rewrite IH. repeat case_decide; simpl; done || lia.
Qed.

Lemma sum_filter_nonzero (l : list (string * nat)) :
  sum_list_with snd (filter (λ e, e.2 ≠ 0) l) = sum_list_with snd l.
Proof.
  induction l as [|[name count] l IH]; [done|].
  rewrite filter_cons. simpl. case_decide; simpl; lia.
Qed.

Lemma categories_total b : sum_list_with snd (categories b) = bucket_total b.
Proof. unfold categories, bucket_total, all_categories. cbn [sum_list_with snd]. lia. Qed.

Lemma head_count arn :
  length (match classify_arn arn with
          | inr (IntoNodegroup cl ng) => [(cl, ng)]
          | _ => []
          end) +
  sum_list_with (λ c, length (head_items arn c)) all_categories =
  if recognised arn then 1 else 0.
Proof.
  unfold head_items, recognised.
  destruct (classify_arn arn) as [e|[c' x| |]]; try destruct c'; vm_compute; lia.
Qed.

Lemma items_count rs :
  length (nodegroups_of rs) + sum_list_with (λ c, length (items_of c rs)) all_categories
  = length (filter recognised rs).
Proof.
  induction rs as [|arn rs IH]; [done|].
  rewrite nodegroups_of_cons, length_app.
  rewrite (sum_list_with_ext _ (λ c, length (head_items arn c) + length (items_of c rs)))
    by (intros c; by rewrite items_of_cons, length_app).
  rewrite sum_list_with_plus, filter_cons. pose proof (head_count arn).
  destruct (recognised arn); case_decide; simpl in *; try done; lia.
Qed.

Lemma categorize_total rs b :
  categorize rs = inr b → bucket_total b = length (filter recognised rs).
Proof.
  intros H. apply categorize_go_ok in H as [Hc Hn].
  unfold bucket_total. rewrite Hn. rewrite (sum_list_with_ext _ _ _ (λ c, f_equal length (Hc c))).
  apply items_count.
Qed.

(** C31: After a successful classification loop, the summary of lines
    487-512 prints the heading and then one line [name: count] for each
    nonempty list and no other, in the order of [categories]; each
    printed count is positive, and the counts add up to the number of
    tagged resources that the [elif] chain recognised, so every resource
    that will be deleted is counted once and the skipped ones are not. *)
Theorem show_categorization_counts rs b :
  categorize rs = inr b →
  show_categorization b =
    log (newline +:+ "Categorized resources:") (Some Colors.OKCYAN) +:+
    foldr (λ e acc, summary_line e.1 e.2 +:+ acc) "" (summary_entries b) ∧
  Forall (λ e, 0 < e.2) (summary_entries b) ∧
  sum_list_with snd (summary_entries b) = length (filter recognised rs).
Proof.
  intros H. split; [unfold show_categorization; by rewrite show_counts_filter|split].
  - apply Forall_forall. intros e He. apply list_elem_of_filter in He. lia.
  - unfold summary_entries. rewrite sum_filter_nonzero, categories_total.
    by apply categorize_total.
Qed.

Lemma show_categorization_counts_witness :
  ∃ b, categorize sample_resources = inr b ∧
    sum_list_with snd (summary_entries b) = length (filter recognised sample_resources).
Proof.
  destruct (categorize sample_resources) as [e|b] eqn:E; [vm_compute in E; discriminate|].
  exists b. split; [done|]. apply (show_categorization_counts sample_resources b E).
Defined.

(** What the summary lists for the sample ARNs: one node group, two
    subnets and one VPC. *)
Example summary_entries_sample :
  (x <-? categorize sample_resources ;; inr (summary_entries x)) =
    inr [("EKS Node Groups", 1); ("Subnets", 2); ("VPCs", 1)].
Proof. vm_compute. reflexivity. Qed.
