(* ===== verification/ArnSpec.v ===== *)
(** The contract of the classification of [process_region]: an abstract
    description of the ARNs of the nineteen resource kinds the script
    deletes ([resource]), the ARN AWS gives each ([render], the documented
    format [arn:partition:service:region:account:resource]) and the list
    and identifier the script should file it under ([expected]).  The
    refinement theorem [classify_render] shows that [classify_arn]
    implements this contract for every well-formed ARN; the theorems after
    it show the ARNs for which it does not. *)

From stdpp Require Import base list strings.
From Stdlib Require Import Ascii ZArith Lia.
From S2P Require Import Prelude PyStr Classify.

Local Open Scope cleanup_scope.

(** ** Abstract ARNs *)

Inductive resource :=
| EksCluster (name : string)
| EksNodegroup (cluster nodegroup uuid : string)
| CacheCluster (id : string)
| CacheReplicationGroup (id : string)
| CacheSnapshot (name : string)
| CacheParameterGroup (name : string)
| CacheSubnetGroup (name : string)
| RdsCluster (id : string)
| RdsClusterParameterGroup (name : string)
| RdsSubnetGroup (name : string)
| LoadBalancer (kind name id : string)
| TargetGroup (name id : string)
| NatGateway (id : string)
| InternetGateway (id : string)
| Subnet (id : string)
| RouteTable (id : string)
| SecurityGroup (id : string)
| Vpc (id : string)
| LaunchTemplate (id : string).

Definition service (x : resource) : string :=
  match x with
  | EksCluster _ | EksNodegroup _ _ _ => "eks"
  | CacheCluster _ | CacheReplicationGroup _ | CacheSnapshot _
  | CacheParameterGroup _ | CacheSubnetGroup _ => "elasticache"
  | RdsCluster _ | RdsClusterParameterGroup _ | RdsSubnetGroup _ => "rds"
  | LoadBalancer _ _ _ | TargetGroup _ _ => "elasticloadbalancing"
  | _ => "ec2"
  end.

(** The resource part of the ARN, as its colon-separated pieces. *)
Definition resource_part (x : resource) : list string :=
  match x with
  | EksCluster n => [String.concat "/" ["cluster"; n]]
  | EksNodegroup cl ng u => [String.concat "/" ["nodegroup"; cl; ng; u]]
  | CacheCluster i => ["cluster"; i]
  | CacheReplicationGroup i => ["replicationgroup"; i]
  | CacheSnapshot n => ["snapshot"; n]
  | CacheParameterGroup n => ["parametergroup"; n]
  | CacheSubnetGroup n => ["subnetgroup"; n]
  | RdsCluster i => ["cluster"; i]
  | RdsClusterParameterGroup n => ["cluster-pg"; n]
  | RdsSubnetGroup n => ["subgrp"; n]
  | LoadBalancer k n i => [String.concat "/" ["loadbalancer"; k; n; i]]
  | TargetGroup n i => [String.concat "/" ["targetgroup"; n; i]]
  | NatGateway i => [String.concat "/" ["natgateway"; i]]
  | InternetGateway i => [String.concat "/" ["internet-gateway"; i]]
  | Subnet i => [String.concat "/" ["subnet"; i]]
  | RouteTable i => [String.concat "/" ["route-table"; i]]
  | SecurityGroup i => [String.concat "/" ["security-group"; i]]
  | Vpc i => [String.concat "/" ["vpc"; i]]
  | LaunchTemplate i => [String.concat "/" ["launch-template"; i]]
  end.

Definition render (partition region account : string) (x : resource) : string :=
  String.concat ":" (["arn"; partition; service x; region; account] ++ resource_part x).

(** An EC2 ARN of any resource type: [arn:p:ec2:r:a:<kind>/<id>]. *)
Definition ec2_arn (partition region account kind id : string) : string :=
  String.concat ":" ["arn"; partition; "ec2"; region; account; String.concat "/" [kind; id]].

(** What the script promises: the list each kind is deleted from, with
    the identifier its [delete_*] function needs; the default security
    group is left alone. *)
Definition expected (arn : string) (x : resource) : classified :=
  match x with
  | EksCluster n => Into eks_clusters n
  | EksNodegroup cl ng _ => IntoNodegroup cl ng
  | CacheCluster i => Into elasticache_clusters i
  | CacheReplicationGroup i => Into elasticache_repl_groups i
  | CacheSnapshot n => Into elasticache_snapshots n
  | CacheParameterGroup n => Into elasticache_param_groups n
  | CacheSubnetGroup n => Into elasticache_subnet_groups n
  | RdsCluster i => Into rds_clusters i
  | RdsClusterParameterGroup n => Into rds_param_groups n
  | RdsSubnetGroup n => Into rds_subnet_groups n
  | LoadBalancer _ _ _ => Into load_balancers arn
  | TargetGroup _ _ => Into target_groups arn
  | NatGateway i => Into nat_gateways i
  | InternetGateway i => Into internet_gateways i
  | Subnet i => Into subnets i
  | RouteTable i => Into route_tables i
  | SecurityGroup i => if bool_decide (i = "default") then Skipped else Into security_groups i
  | Vpc i => Into vpcs i
  | LaunchTemplate i => Into launch_templates i
  end.

(** ** Well-formedness *)

(** A piece of an ARN holds neither separator. *)
Definition seg_ok (s : string) : bool :=
  negb (has_char ":" s) && negb (has_char "/" s).

(** The words the [elif] chain looks for between two colons. *)
Definition arn_keywords : list string :=
  ["eks"; "elasticache"; "rds"; "elasticloadbalancing"; "ec2"; "cluster";
   "replicationgroup"; "snapshot"; "parametergroup"; "subnetgroup";
   "cluster-pg"; "subgrp"].

(** Partition, region and account: plain pieces that are not one of the
    keywords (AWS regions and account ids hold digits, keywords none). *)
Definition loc_ok (s : string) : bool :=
  seg_ok s && negb (bool_decide (s ∈ arn_keywords)).

(** Identifiers are plain pieces; a target group whose name ends with
    ["loadbalancer"] and a node group whose cluster or own name ends with
    ["nodegroup"] are excluded: the script misfiles them (see
    [target_group_misfiled] and [nodegroup_misparsed]). *)
Definition resource_ok (x : resource) : bool :=
  match x with
  | EksNodegroup cl ng u =>
      seg_ok cl && seg_ok ng && seg_ok u &&
      negb (endswith "nodegroup" cl) && negb (endswith "nodegroup" ng)
  | LoadBalancer k n i => seg_ok k && seg_ok n && seg_ok i
  | TargetGroup n i => seg_ok n && seg_ok i && negb (endswith "loadbalancer" n)
  | EksCluster i | CacheCluster i | CacheReplicationGroup i | CacheSnapshot i
  | CacheParameterGroup i | CacheSubnetGroup i | RdsCluster i
  | RdsClusterParameterGroup i | RdsSubnetGroup i | NatGateway i
  | InternetGateway i | Subnet i | RouteTable i | SecurityGroup i | Vpc i
  | LaunchTemplate i => seg_ok i
  end.

(** ** The four shapes of a test, on a join of separator-free pieces *)

(** [s] without its last character (used to read the word of a test). *)
Fixpoint str_init (s : string) : string :=
  match s with
  | EmptyString | String _ EmptyString => EmptyString
  | String c s' => String c (str_init s')
  end.

Definition str_tail (s : string) : string :=
  match s with EmptyString => EmptyString | String _ s' => s' end.

Definition test_shape (c : ascii) (v : string) : nat :=
  match v with
  | String d rest =>
      if bool_decide (d = c) then
        (if bool_decide (rest = str_init rest +:+ String c "") && negb (has_char c (str_init rest))
         then 0 else if negb (has_char c rest) then 1 else 4)
      else if bool_decide (v = str_init v +:+ String c "") && negb (has_char c (str_init v)) then 2
      else if negb (has_char c v) then 3 else 4
  | EmptyString => 3
  end.

Section Shapes.
Context (c : ascii) (x : string) (l : list string).
Context (Hf : Forall (λ y, has_char c y = false) (x :: l)).

Lemma chk_sep_word v w :
  v = String c (w +:+ String c "") → has_char c w = false →
  contains v (String.concat (String c "") (x :: l)) = any_nonlast (λ y, bool_decide (y = w)) l.
Proof. intros -> Hw. by apply contains_sep_word. Qed.

Lemma chk_sep_prefix v w :
  v = String c w → has_char c w = false →
  contains v (String.concat (String c "") (x :: l)) = existsb (String.prefix w) l.
Proof. intros -> Hw. by apply contains_sep_prefix. Qed.

Lemma chk_word_sep v w :
  v = w +:+ String c "" → has_char c w = false →
  contains v (String.concat (String c "") (x :: l)) = any_nonlast (endswith w) (x :: l).
Proof. intros -> Hw. by apply contains_word_sep. Qed.

Lemma chk_no_sep v :
  has_char c v = false →
  contains v (String.concat (String c "") (x :: l)) = existsb (contains v) (x :: l).
Proof. intros Hv. by apply contains_no_sep. Qed.

Lemma chk_prefix_word_sep v w :
  v = w +:+ String c "" → has_char c w = false → l ≠ [] →
  String.prefix v (String.concat (String c "") (x :: l)) = bool_decide (w = x).
Proof.
  intros -> Hw Hl. apply Forall_cons in Hf as [Hx _].
  rewrite concat_cons_char, prefix_word_sep, prefix_nil_l by done. apply andb_true_r.
Qed.
End Shapes.

Lemma kw_ne x w :
  bool_decide (x ∈ arn_keywords) = false → bool_decide (w ∈ arn_keywords) = true →
  bool_decide (x = w) = false.
Proof.
  intros Hx Hw. apply bool_decide_eq_false_2. intros ->. by rewrite Hw in Hx.
Qed.

Lemma seg_ok_spec s : seg_ok s = true → has_char ":" s = false ∧ has_char "/" s = false.
Proof. unfold seg_ok. intros [?%negb_true_iff ?%negb_true_iff]%andb_true_iff. done. Qed.

Lemma loc_ok_spec s :
  loc_ok s = true →
  has_char ":" s = false ∧ has_char "/" s = false ∧ bool_decide (s ∈ arn_keywords) = false.
Proof.
  unfold loc_ok. intros [[? ?]%seg_ok_spec ?%negb_true_iff]%andb_true_iff. done.
Qed.

(** ** Evaluating the tests of the [elif] chain on a rendered ARN *)

Ltac free_tac :=
  repeat constructor; cbn [String.concat]; rewrite ?has_char_app;
  repeat match goal with H : has_char ?c ?x = false |- context [has_char ?c ?x] => rewrite H end;
  vm_compute; reflexivity.

Ltac eval_closed t :=
  let b := eval vm_compute in t in
  match b with
  | true => idtac
  | false => idtac
  end;
  let E := fresh "E" in
  assert (E : t = b) by (vm_compute; reflexivity); rewrite E; clear E.

Ltac arn_step :=
  match goal with
  | H : bool_decide (?x ∈ arn_keywords) = false |- context [bool_decide (?x = ?w)] =>
      rewrite (kw_ne x w H) by (vm_compute; reflexivity)
  | H : has_char ?c ?x = false |- context [contains ?v ?x] =>
      rewrite (contains_absent_char c v x) by (exact H || (vm_compute; reflexivity))
  | H : has_char ?c ?x = false |- context [String.prefix ?v ?x] =>
      rewrite (prefix_absent_char c v x) by (exact H || (vm_compute; reflexivity))
  | H : endswith ?w ?x = ?b |- context [endswith ?w ?x] => rewrite H
  | |- context [contains ?v (String.concat (String ?c "") (?x :: ?l))] =>
      let sh := eval vm_compute in (test_shape c v) in
      lazymatch sh with
      | 0 => let w := eval vm_compute in (str_init (str_tail v)) in
             rewrite (chk_sep_word c x l ltac:(free_tac) v w ltac:(vm_compute; reflexivity) ltac:(vm_compute; reflexivity))
      | 1 => let w := eval vm_compute in (str_tail v) in
             rewrite (chk_sep_prefix c x l ltac:(free_tac) v w ltac:(vm_compute; reflexivity) ltac:(vm_compute; reflexivity))
      | 2 => let w := eval vm_compute in (str_init v) in
             rewrite (chk_word_sep c x l ltac:(free_tac) v w ltac:(vm_compute; reflexivity) ltac:(vm_compute; reflexivity))
      | 3 => rewrite (chk_no_sep c x l v ltac:(vm_compute; reflexivity))
      end
  | |- context [String.prefix ?v (String.concat (String ?c "") (?x :: ?l))] =>
      let w := eval vm_compute in (str_init v) in
      rewrite (chk_prefix_word_sep c x l ltac:(free_tac) v w ltac:(vm_compute; reflexivity) ltac:(vm_compute; reflexivity)
                 ltac:(discriminate))
  | |- context [contains ?v ?x] => eval_closed (contains v x)
  | |- context [String.prefix ?v ?x] => eval_closed (String.prefix v x)
  | |- context [endswith ?v ?x] => eval_closed (endswith v x)
  | |- context [bool_decide (?a = ?b)] => eval_closed (bool_decide (a = b))
  end; cbn [any_nonlast existsb orb andb negb].


Lemma split_slash_last p s r a t i :
  Forall (λ y, has_char "/" y = false) [p; s; r; a; t; i] →
  py_split "/" (String.concat ":" ["arn"; p; s; r; a; String.concat "/" [t; i]]) =
    [String.concat ":" ["arn"; p; s; r; a; t]; i].
Proof.
  intros Hf. repeat (apply Forall_cons in Hf as [? Hf]).
  change (String.concat ":" ["arn"; p; s; r; a; String.concat "/" [t; i]])
    with (String.concat ":" (["arn"; p; s; r; a] ++ [t +:+ "/" +:+ i])).
  rewrite concat_app_last, py_split_app_sep, py_split_no_sep; [done| | |].
  - rewrite contains_single. done.
  - done.
  - rewrite contains_single. cbn. rewrite !has_char_app.
    repeat match goal with H : has_char ?c ?x = false |- context [has_char ?c ?x] => rewrite H end.
    done.
Qed.

Ltac free_hyps :=
  rewrite ?has_char_app;
  repeat match goal with H : has_char ?c ?x = false |- context [has_char ?c ?x] => rewrite H end.

Lemma split_word_last v w p s r a ts :
  v = w +:+ "/" → border_free v = true → has_char "/" w = false → ts ≠ [] →
  Forall (λ y, has_char "/" y = false) [p; s; r; a] →
  py_split v (String.concat ":" ["arn"; p; s; r; a; String.concat "/" (w :: ts)]) =
    String.concat ":" ["arn"; p; s; r; a; ""] :: py_split v (String.concat "/" ts).
Proof.
  intros -> Hb Hw Hts Hf. repeat (apply Forall_cons in Hf as [? Hf]).
  rewrite (concat_cons_ne "/" w ts) by done.
  change (String.concat ":" ["arn"; p; s; r; a; w +:+ "/" +:+ String.concat "/" ts])
    with (String.concat ":" (["arn"; p; s; r; a] ++ ["" +:+ (w +:+ ("/" +:+ String.concat "/" ts))])).
  rewrite concat_app_last, <- (str_app_assoc w "/"), py_split_app_sep by (try apply (contains_absent_char "/"); cbn; free_hyps;
    rewrite ?has_char_app, ?Hw, ?orb_true_r; done).
  done.
Qed.

Ltac split_tac :=
  first
    [ rewrite (py_split_concat ":") by (free_tac || discriminate)
    | rewrite split_slash_last by free_tac
    | rewrite (split_word_last "cluster/" "cluster") by ((vm_compute; reflexivity) || discriminate || free_tac);
      rewrite (py_split_no_sep "cluster/") by (repeat arn_step; reflexivity)
    | rewrite (split_word_last "nodegroup/" "nodegroup") by ((vm_compute; reflexivity) || discriminate || free_tac);
      rewrite (py_split_no_sep "nodegroup/") by (repeat arn_step; reflexivity);
      cbn [last default from_option Datatypes.id];
      rewrite (py_split_concat "/") by (free_tac || discriminate) ].

Ltac ok_hyps :=
  repeat match goal with
  | H : _ && _ = true |- _ => apply andb_true_iff in H as [? ?]
  | H : negb _ = true |- _ => apply negb_true_iff in H
  | H : seg_ok _ = true |- _ => apply seg_ok_spec in H as [? ?]
  | H : loc_ok _ = true |- _ => apply loc_ok_spec in H as (? & ? & ?)
  end.


Ltac eval_tests :=
  repeat (match goal with
  | |- context [contains ?v (String.concat ":" ?S)] =>
      let b := fresh "b" in
      evar (b : bool);
      let E := fresh "E" in
      assert (E : contains v (String.concat ":" S) = b) by (subst b; repeat arn_step; reflexivity);
      subst b; rewrite E; clear E
  end); cbn [andb orb negb].

Ltac classify_case :=
  ok_hyps; unfold render; cbn [service resource_part app];
  eval_tests; cbn [s_bind]; try split_tac;
  cbn [last default from_option head expected s_bind Datatypes.id String.concat];
  repeat case_bool_decide; congruence.

(** ** The refinement theorem *)

(** C1: The classification of [process_region] implements its contract:
    the ARN AWS gives a resource of any of the nineteen kinds, with a
    well-formed partition, region and account and identifiers without
    [':'] or ['/'], is filed by the [elif] chain in the list of its kind
    with the identifier its [delete_*] function takes (the cluster and
    node-group names for a node group, the whole ARN for load balancers
    and target groups), except the default security group, which is
    skipped. *)
Theorem classify_render p r a x :
  loc_ok p = true → loc_ok r = true → loc_ok a = true → resource_ok x = true →
  classify_arn (render p r a x) = inr (expected (render p r a x) x).
Proof.
  intros Hp Hr Ha Hx.
  unfold_classify.
  destruct x; cbn [resource_ok] in Hx.
  all: classify_case.
Qed.

Lemma classify_render_witness :
  classify_arn (render "aws" "us-east-1" "123456789012" (RdsCluster "xelta-dev-db")) =
    inr (Into rds_clusters "xelta-dev-db").
Proof.
  apply (classify_render "aws" "us-east-1" "123456789012" (RdsCluster "xelta-dev-db"));
    vm_compute; reflexivity.
Defined.

(** ** ARNs the chain misfiles *)

(** C7: A target group whose name ends with ["loadbalancer"] (a valid
    name such as [xelta-dev-loadbalancer]) is filed as a load balancer:
    the test ['loadbalancer/' in arn] of line 465 matches the end of its
    name followed by the slash before its id.  [delete_load_balancer] is
    then called on a target-group ARN and the target group is never
    deleted. *)
Theorem target_group_misfiled p r a n i :
  loc_ok p = true → loc_ok r = true → loc_ok a = true →
  seg_ok n = true → seg_ok i = true → endswith "loadbalancer" n = true →
  classify_arn (render p r a (TargetGroup n i)) =
    inr (Into load_balancers (render p r a (TargetGroup n i))).
Proof.
  intros Hp Hr Ha Hn Hi He.
  unfold_classify.
  classify_case.
Qed.

Lemma target_group_misfiled_witness :
  classify_arn (render "aws" "us-east-1" "123456789012"
                  (TargetGroup "xelta-dev-loadbalancer" "73e2d6bc24d8a067")) =
    inr (Into load_balancers
           (render "aws" "us-east-1" "123456789012"
              (TargetGroup "xelta-dev-loadbalancer" "73e2d6bc24d8a067"))).
Proof.
  apply target_group_misfiled; vm_compute; reflexivity.
Defined.

(** C8: An EKS node group whose cluster name ends with ["nodegroup"]
    (a valid name such as [xelta-nodegroup]) is parsed wrongly:
    [arn.split('nodegroup/')[-1]] (line 437) keeps only what follows the
    last ["nodegroup/"], which here is the end of the cluster name, so
    the node-group name is taken as the cluster name and the uuid as the
    node-group name; [delete_nodegroup] is called on names that do not
    exist and the node group is never deleted. *)
Theorem nodegroup_misparsed p r a cl ng u :
  loc_ok p = true → loc_ok r = true → loc_ok a = true →
  seg_ok cl = true → seg_ok ng = true → seg_ok u = true →
  endswith "nodegroup" cl = true → endswith "nodegroup" ng = false →
  classify_arn (render p r a (EksNodegroup cl ng u)) = inr (IntoNodegroup ng u).
Proof.
  intros Hp Hr Ha Hc Hn Hu He Hne.
  unfold_classify. ok_hyps. unfold render; cbn [service resource_part app].
  eval_tests. cbn [s_bind].
  rewrite (split_word_last "nodegroup/" "nodegroup") by ((vm_compute; reflexivity) || discriminate || free_tac).
  apply endswith_spec in He as [c0 ->]. rewrite has_char_app in *.
  repeat match goal with H : _ || _ = false |- _ => apply orb_false_iff in H as [? ?] end.
  assert (E : String.concat "/" [c0 +:+ "nodegroup"; ng; u] =
              c0 +:+ "nodegroup/" +:+ String.concat "/" [ng; u]).
  { cbn. by rewrite !str_app_assoc. }
  rewrite E, py_split_app_sep; [|done|apply (contains_absent_char "/"); [done|assumption]].
  rewrite (py_split_no_sep "nodegroup/") by (repeat arn_step; reflexivity).
  cbn [last default from_option Datatypes.id].
  rewrite (py_split_concat "/") by (free_tac || discriminate).
  reflexivity.
Qed.

Lemma nodegroup_misparsed_witness :
  classify_arn (render "aws" "us-east-1" "123456789012"
                  (EksNodegroup "xelta-nodegroup" "workers" "8ec5a1f2")) =
    inr (IntoNodegroup "workers" "8ec5a1f2").
Proof. apply nodegroup_misparsed; vm_compute; reflexivity. Defined.

(** C9: The test ['internet-gateway/' in arn] of line 471 also matches
    every egress-only internet gateway ([egress-only-internet-gateway/]),
    and ['route-table/' in arn] of line 475 every transit-gateway route
    table: whatever their id, both are filed with the VPC internet
    gateways and route tables, and [delete_internet_gateways] and
    [delete_route_tables] are called on resources of another type. *)
Theorem eigw_and_tgw_route_table_misfiled p r a i j :
  loc_ok p = true → loc_ok r = true → loc_ok a = true → seg_ok i = true → seg_ok j = true →
  classify_arn (ec2_arn p r a "egress-only-internet-gateway" i) = inr (Into internet_gateways i) ∧
  classify_arn (ec2_arn p r a "transit-gateway-route-table" j) = inr (Into route_tables j).
Proof.
  intros Hp Hr Ha Hi Hj. split; unfold_classify; ok_hyps; unfold ec2_arn;
    eval_tests; cbn [s_bind]; rewrite split_slash_last by free_tac; reflexivity.
Qed.

Lemma eigw_and_tgw_route_table_misfiled_witness :
  classify_arn (ec2_arn "aws" "us-east-1" "123456789012" "egress-only-internet-gateway" "eigw-0a1b2c3d")
    = inr (Into internet_gateways "eigw-0a1b2c3d") ∧
  classify_arn (ec2_arn "aws" "us-east-1" "123456789012" "transit-gateway-route-table" "tgw-rtb-0a1b2c")
    = inr (Into route_tables "tgw-rtb-0a1b2c").
Proof. apply eigw_and_tgw_route_table_misfiled; vm_compute; reflexivity. Defined.
