(* ===== verification/Api.v ===== *)
(** The AWS control plane as the scripts see it.

    A boto3 call ([client.delete_subnet(SubnetId=...)] and the like) is a
    value of [call]; the client's [region_name] travels with it.  What
    AWS does is left abstract: the class [CloudApi] gives, for a world
    [W], the next world and either a [response] or an exception
    ([ClientError] for an API error, [OtherError] for botocore's own
    errors such as parameter validation).  Every theorem about the script
    holds for every instance.

    The state of the script is [st]: the world and the [trace] of the
    calls it has made and the pauses it has taken ([time.sleep]), in
    order.  [aws] makes one call; [sleep] records a pause. *)

From stdpp Require Import base list strings.
From S2P Require Import Prelude.

Local Open Scope cleanup_scope.

(** The calls of [src/scripts/cleanup.py], one constructor per boto3
    method, with the arguments the script passes. *)
Inductive call :=
(* resourcegroupstaggingapi.get_resources, one page of the paginator *)
| GetResources (tag_key tag_value : string) (pagination_token : option string)
| DescribeInternetGateways (igw_ids : list string)
(* eks *)
| DeleteNodegroup (cluster_name nodegroup_name : string)
| DeleteCluster (name : string)
(* elasticache *)
| DeleteCacheCluster (cluster_id : string)
| DeleteReplicationGroup (group_id : string)
| DeleteSnapshot (snapshot_name : string)
| DeleteCacheParameterGroup (name : string)
| DeleteCacheSubnetGroup (name : string)
(* rds *)
| DeleteDbCluster (cluster_id : string)
| DeleteDbClusterParameterGroup (name : string)
| DeleteDbSubnetGroup (name : string)
(* elbv2 *)
| DeleteLoadBalancer (arn : string)
| DeleteTargetGroup (arn : string)
(* ec2 *)
| DeleteNatGateway (nat_id : string)
| DetachInternetGateway (igw_id vpc_id : string)
| DeleteInternetGateway (igw_id : string)
| DeleteSubnet (subnet_id : string)
| DeleteRouteTable (rt_id : string)
| DeleteSecurityGroup (sg_id : string)
| DeleteVpc (vpc_id : string)
| DeleteLaunchTemplate (lt_id : string).

#[export] Instance call_eq_dec : EqDecision call.
Proof. solve_decision. Defined.

(** The parts of a response the script reads. *)
Inductive response :=
| RDone
(* [page['ResourceTagMappingList']] as ARNs, and the next token *)
| RPage (arns : list string) (next_token : option string)
(* [response['InternetGateways']]: each id with the [VpcId]s of its
   [Attachments], in order *)
| RIgws (igws : list (string * list string)).

Inductive event :=
| ECall (region : string) (c : call)
| ESleep (seconds : nat).

#[export] Instance event_eq_dec : EqDecision event.
Proof. solve_decision. Defined.

(** What one component (the script) relies on from the other (AWS):
    an answer to every call, and, as botocore's exceptions all derive
    from [Exception], never a [SystemExit]. *)
Class CloudApi (W : Type) := {
  respond : W → string → call → W * (exc + response);
  respond_exception w region c w' e :
    respond w region c = (w', inl e) → is_exception e = true
}.

Record st (W : Type) := mk_st { world : W; trace : list event }.
Arguments mk_st {W} _ _.
Arguments world {W} _.
Arguments trace {W} _.

Section Calls.
Context {W : Type} `{CloudApi W}.

(** [client.<method>(...)] on a client of [region]. *)
Definition aws (region : string) (c : call) : M (st W) response :=
  λ s, let '(w', r) := respond (world s) region c in
       (r, mk_st w' (trace s ++ [ECall region c])).

(** [time.sleep(seconds)] *)
Definition sleep (seconds : nat) : M (st W) unit :=
  m_modify (λ s, mk_st (world s) (trace s ++ [ESleep seconds])).

(** [try: m except ClientError as e: h] *)
Definition try_client {A} (m : M (st W) A) (h : exc → M (st W) A) : M (st W) A :=
  m_try is_client_error m h.

(** [m] appends to the trace a list of events satisfying [P], whatever
    the world answers and whether [m] returns or raises.  The invariants
    of the development ([calls_only] here, [Ordering.emits],
    [Run.sleeps_within], the call bounds) are instances. *)
Definition extends {A} (P : list event → Prop) (m : M (st W) A) : Prop :=
  ∀ s, ∃ new, trace (snd (m s)) = trace s ++ new ∧ P new.

(** [m] only appends calls that satisfy [P] to the trace, and no pause. *)
Definition calls_only {A} (P : string → call → Prop) (m : M (st W) A) : Prop :=
  extends (Forall (λ e, ∃ r c, e = ECall r c ∧ P r c)) m.

(** Whatever the world answers, what [m] raises is an [Exception]: the
    [except Exception] of [main] catches it. *)
Definition no_exit {A} (m : M (st W) A) : Prop :=
  ∀ s e, fst (m s) = inl e → is_exception e = true.
End Calls.

(** ** Trace lemmas *)

Section TraceLemmas.
Context {W : Type} `{CloudApi W}.

Lemma aws_trace region c (s : st W) :
  trace (snd (aws region c s)) = trace s ++ [ECall region c].
Proof. unfold aws. by destruct (respond (world s) region c). Qed.

Lemma sleep_trace n (s : st W) : sleep n s = (inr tt, mk_st (world s) (trace s ++ [ESleep n])).
Proof. reflexivity. Qed.
End TraceLemmas.

(** ** The generic invariant along the monad *)

Section Extends.
Context {W : Type} `{CloudApi W}.
Implicit Types P Q : list event → Prop.

Lemma ext_impl {A} P Q (m : M (st W) A) : (∀ n, P n → Q n) → extends P m → extends Q m.
Proof. intros HPQ Hm s. destruct (Hm s) as (new & E & HP). eauto. Qed.

Lemma ext_ret {A} P (x : A) : P [] → extends P (m_ret (σ := st W) x).
Proof. intros HP s. exists []. by rewrite app_nil_r. Qed.

Lemma ext_raise {A} P e : P [] → extends P (m_raise (σ := st W) (A:=A) e).
Proof. intros HP s. exists []. by rewrite app_nil_r. Qed.

Lemma ext_aws P region c : P [ECall region c] → extends P (aws (W:=W) region c).
Proof. intros HP s. exists [ECall region c]. by rewrite aws_trace. Qed.

Lemma ext_sleep P n : P [ESleep n] → extends P (sleep (W:=W) n).
Proof. intros HP s. by exists [ESleep n]. Qed.

(** Sequencing: what [m] appends, then what [k] appends.  When [m]
    raises, only its part is there. *)
Lemma ext_bind {A B} P1 P2 P (m : M (st W) A) (k : A → M (st W) B) :
  extends P1 m → (∀ x, extends P2 (k x)) →
  (∀ n1, P1 n1 → P n1) → (∀ n1 n2, P1 n1 → P2 n2 → P (n1 ++ n2)) →
  extends P (m_bind m k).
Proof.
  intros Hm Hk H1 H12 s. destruct (Hm s) as (n1 & E1 & F1). unfold m_bind.
  destruct (m s) as [[e|x] s'] eqn:Em; cbn in E1 |- *; [eauto|].
  destruct (Hk x s') as (n2 & E2 & F2). exists (n1 ++ n2).
  rewrite E2, E1, app_assoc. eauto.
Qed.

Lemma ext_try {A} p P1 P2 P (m : M (st W) A) (h : exc → M (st W) A) :
  extends P1 m → (∀ e, extends P2 (h e)) →
  (∀ n1, P1 n1 → P n1) → (∀ n1 n2, P1 n1 → P2 n2 → P (n1 ++ n2)) →
  extends P (m_try p m h).
Proof.
  intros Hm Hh H1 H12 s. destruct (Hm s) as (n1 & E1 & F1). unfold m_try.
  destruct (m s) as [[e|x] s'] eqn:Em; cbn in E1 |- *; [destruct (p e)|]; [|eauto..].
  destruct (Hh e s') as (n2 & E2 & F2). exists (n1 ++ n2).
  rewrite E2, E1, app_assoc. eauto.
Qed.

Lemma ext_when P b (m : M (st W) unit) : P [] → extends P m → extends P (m_when b m).
Proof. destruct b; [done|]. intros; by apply ext_ret. Qed.

(** The instance [P = Forall Q]: every event appended satisfies [Q]. *)
Lemma ext_all_bind {A B} (Q : event → Prop) (m : M (st W) A) (k : A → M (st W) B) :
  extends (Forall Q) m → (∀ x, extends (Forall Q) (k x)) → extends (Forall Q) (m_bind m k).
Proof. intros. eapply ext_bind; eauto. intros. by apply Forall_app. Qed.

Lemma ext_all_try {A} p (Q : event → Prop) (m : M (st W) A) (h : exc → M (st W) A) :
  extends (Forall Q) m → (∀ e, extends (Forall Q) (h e)) → extends (Forall Q) (m_try p m h).
Proof. intros. eapply ext_try; eauto. intros. by apply Forall_app. Qed.

Lemma ext_all_for {A} (Q : event → Prop) (l : list A) (body : A → M (st W) unit) :
  (∀ x, extends (Forall Q) (body x)) → extends (Forall Q) (m_for l body).
Proof. intros Hb. induction l; [by apply ext_ret|]. by apply ext_all_bind. Qed.
End Extends.

Section CallsOnly.
Context {W : Type} `{CloudApi W} (P : string → call → Prop).

Lemma calls_only_impl {A} (Q : string → call → Prop) (m : M (st W) A) :
  (∀ r c, P r c → Q r c) → calls_only P m → calls_only Q m.
Proof. intros HPQ. apply ext_impl. intros n Hn. eapply Forall_impl; [done|]. naive_solver. Qed.

Lemma calls_only_ret {A} (x : A) : calls_only P (m_ret (σ := st W) x).
Proof. by apply ext_ret. Qed.

Lemma calls_only_raise {A} e : calls_only P (m_raise (σ := st W) (A:=A) e).
Proof. by apply ext_raise. Qed.

Lemma calls_only_aws region c : P region c → calls_only P (aws (W:=W) region c).
Proof. intros HP. apply ext_aws. eauto. Qed.

Lemma calls_only_bind {A B} (m : M (st W) A) (k : A → M (st W) B) :
  calls_only P m → (∀ x, calls_only P (k x)) → calls_only P (m_bind m k).
Proof. intros Hm Hk. eapply ext_bind; [done|done|done|]. intros. by apply Forall_app. Qed.

Lemma calls_only_try {A} p (m : M (st W) A) (h : exc → M (st W) A) :
  calls_only P m → (∀ e, calls_only P (h e)) → calls_only P (m_try p m h).
Proof. intros Hm Hh. eapply ext_try; [done|done|done|]. intros. by apply Forall_app. Qed.
End CallsOnly.

(** ** Nothing but an [Exception] is raised *)

Section NoExit.
Context {W : Type} `{CloudApi W}.

Lemma ne_ret {A} (x : A) : no_exit (m_ret (σ := st W) x).
Proof. by intros s e. Qed.

Lemma ne_raise {A} e : is_exception e = true → no_exit (m_raise (σ := st W) (A:=A) e).
Proof. intros He s e' [= <-]. done. Qed.

Lemma ne_aws region c : no_exit (aws (W:=W) region c).
Proof.
  intros s e. unfold aws. destruct (respond (world s) region c) as [w' r] eqn:E.
  cbn. intros ->. by eapply respond_exception.
Qed.

Lemma ne_sleep n : no_exit (sleep (W:=W) n).
Proof. by intros s e. Qed.

Lemma ne_bind {A B} (m : M (st W) A) (k : A → M (st W) B) :
  no_exit m → (∀ x, no_exit (k x)) → no_exit (m_bind m k).
Proof.
  intros Hm Hk s e. unfold m_bind. destruct (m s) as [[e'|x] s'] eqn:E; cbn.
  - intros [= <-]. apply (Hm s). by rewrite E.
  - apply Hk.
Qed.

Lemma ne_try {A} p (m : M (st W) A) (h : exc → M (st W) A) :
  no_exit m → (∀ e, no_exit (h e)) → no_exit (m_try p m h).
Proof.
  intros Hm Hh s e. unfold m_try. destruct (m s) as [[e'|x] s'] eqn:E; [|done].
  destruct (p e'); [apply Hh|]. intros [= <-]. apply (Hm s). by rewrite E.
Qed.

Lemma ne_when b (m : M (st W) unit) : no_exit m → no_exit (m_when b m).
Proof. destruct b; [done|intros; apply ne_ret]. Qed.

Lemma ne_for {A} (l : list A) (body : A → M (st W) unit) :
  (∀ x, no_exit (body x)) → no_exit (m_for l body).
Proof. intros Hb. induction l; [apply ne_ret|]. by apply ne_bind. Qed.
End NoExit.

#[export] Hint Resolve ne_ret ne_aws ne_sleep ne_when ne_for ne_bind ne_try : cleanup.
