(* ===== verification/SimCloud.v ===== *)
(** A concrete AWS, [sim_api], on which the script runs by evaluation:
    the witnesses of the theorems and the runs that show what the
    findings mean are computed on it.

    The world holds the tagged resources of each region as (region, ARN)
    pairs and the attachments of internet gateways as (region, gateway,
    VPC).  [get_resources] returns the ARNs tagged [ManagedBy=terraform]
    (the lower-case value only) two per page; a delete call forgets the
    resources whose ARN names its target; [describe_internet_gateways]
    fails with [InvalidInternetGatewayID.NotFound] on an id it does not
    know; [detach_internet_gateway] fails with [DependencyViolation] while
    a NAT gateway is left in the region; and [delete_cache_cluster] fails
    as botocore does before any request when a parameter is [None]
    ([ParamValidationError], which is not a [ClientError]). *)

From stdpp Require Import base list strings.
From S2P Require Import Prelude PyStr Api.

Local Open Scope cleanup_scope.

Record sim := mk_sim {
  sim_tagged : list (string * string);
  sim_attached : list (string * string * string)
}.

Definition page_size : nat := 2.

(** The pagination token of the page that starts at index [n]. *)
Fixpoint tally (n : nat) : string :=
  match n with 0 => "" | S n => "x" +:+ tally n end.

Definition region_arns (w : sim) (region : string) : list string :=
  omap (λ '(r, a), if bool_decide (r = region) then Some a else None) (sim_tagged w).

(** The name or id a delete call passes. *)
Definition call_target (c : call) : string :=
  match c with
  | DeleteNodegroup _ ng => ng
  | DeleteCluster x | DeleteCacheCluster x | DeleteReplicationGroup x | DeleteSnapshot x
  | DeleteCacheParameterGroup x | DeleteCacheSubnetGroup x | DeleteDbCluster x
  | DeleteDbClusterParameterGroup x | DeleteDbSubnetGroup x | DeleteLoadBalancer x
  | DeleteTargetGroup x | DeleteNatGateway x | DeleteInternetGateway x | DeleteSubnet x
  | DeleteRouteTable x | DeleteSecurityGroup x | DeleteVpc x | DeleteLaunchTemplate x => x
  | DetachInternetGateway igw _ => igw
  | GetResources _ _ _ | DescribeInternetGateways _ => ""
  end.

Definition forget (region id : string) (w : sim) : sim :=
  mk_sim (List.filter (λ '(r, a), negb (bool_decide (r = region) && contains id a)) (sim_tagged w))
         (sim_attached w).

Definition vpcs_of (w : sim) (region igw : string) : list string :=
  omap (λ '(r, g, v), if bool_decide (r = region ∧ g = igw) then Some v else None) (sim_attached w).

Definition sim_respond (w : sim) (region : string) (c : call) : sim * (exc + response) :=
  match c with
  | GetResources key value token =>
      let arns := if bool_decide (key = "ManagedBy" ∧ value = "terraform")
                  then region_arns w region else [] in
      let i := from_option String.length 0 token in
      (w, inr (RPage (take page_size (drop i arns))
                     (if bool_decide (i + page_size < length arns)
                      then Some (tally (i + page_size)) else None)))
  | DescribeInternetGateways ids =>
      if forallb (λ id, existsb (contains (":internet-gateway/" +:+ id)) (region_arns w region)) ids
      then (w, inr (RIgws (map (λ id, (id, vpcs_of w region id)) ids)))
      else (w, inl (ClientError "InvalidInternetGatewayID.NotFound"))
  | DeleteCacheCluster _ => (w, inl (OtherError "ParamValidationError"))
  | DetachInternetGateway igw _ =>
      if existsb (contains "natgateway/") (region_arns w region)
      then (w, inl (ClientError "DependencyViolation"))
      else (mk_sim (sim_tagged w)
              (List.filter (λ '(r, g, _), negb (bool_decide (r = region ∧ g = igw))) (sim_attached w)),
            inr RDone)
  | c => (forget region (call_target c) w, inr RDone)
  end.

#[export] Instance sim_api : CloudApi sim.
Proof.
  refine {| respond := sim_respond |}.
  intros w region c w' e. unfold sim_respond. repeat case_match; intros; simplify_eq; done.
Defined.

(** The resources of an environment in [us-east-1]: a VPC with a subnet,
    a NAT gateway, an internet gateway and an ElastiCache cluster. *)
Definition sample_world : sim :=
  mk_sim
    [("us-east-1", "arn:aws:ec2:us-east-1:123456789012:vpc/vpc-0a1");
     ("us-east-1", "arn:aws:ec2:us-east-1:123456789012:subnet/subnet-0b2");
     ("us-east-1", "arn:aws:ec2:us-east-1:123456789012:natgateway/nat-0c3");
     ("us-east-1", "arn:aws:ec2:us-east-1:123456789012:internet-gateway/igw-0d4");
     ("us-east-1", "arn:aws:elasticache:us-east-1:123456789012:cluster:xelta-dev-redis")]
    [("us-east-1", "igw-0d4", "vpc-0a1")].

Definition start (w : sim) : st sim := mk_st w [].
