(* ===== verification/Deletion.v ===== *)
(** The [delete_*] functions of [src/scripts/cleanup.py] (lines 55-371).

    Seventeen of them have one shape: return at once on an empty list;
    otherwise, for each item, unless [DRY_RUN], make one delete call in a
    [try] that swallows [ClientError] ([delete_one], [delete_all]).
    [delete_nat_gateways] then sleeps 60 seconds, and
    [delete_internet_gateways] detaches each gateway from its VPC before
    deleting it, both calls in one [try].  [DRY_RUN] is the section
    variable [dry_run]; the script sets it to [False] ([DRY_RUN]). *)

From stdpp Require Import base list strings.
From S2P Require Import Prelude Api SimCloud.

Local Open Scope cleanup_scope.

(** Line 18. *)
Definition DRY_RUN : bool := false.

Section Deletion.
Context {W : Type} `{CloudApi W} (dry_run : bool).

(** The body of the loop of each [delete_*] function:
    [if not DRY_RUN: try: client.<method>(...) except ClientError: log]. *)
Definition delete_one (region : string) (c : call) : M (st W) unit :=
  m_when (negb dry_run)
    (try_client (_ <- aws region c ;; m_ret tt) (λ _, m_ret tt)).

(** [if not items: return] then [for x in items: delete_one]. *)
Definition delete_all {A} (region : string) (mk : A → call) (items : list A) : M (st W) unit :=
  m_when (bool_decide (items ≠ [])) (m_for items (λ x, delete_one region (mk x))).

Definition delete_eks_nodegroups (region : string) (nodegroups : list (string * string)) :=
  delete_all region (λ '(cl, ng), DeleteNodegroup cl ng) nodegroups.
Definition delete_eks_clusters (region : string) (cluster_names : list string) :=
  delete_all region DeleteCluster cluster_names.
Definition delete_elasticache_clusters (region : string) (cache_clusters : list string) :=
  delete_all region DeleteCacheCluster cache_clusters.
Definition delete_elasticache_replication_groups (region : string) (repl_groups : list string) :=
  delete_all region DeleteReplicationGroup repl_groups.
Definition delete_rds_clusters (region : string) (cluster_ids : list string) :=
  delete_all region DeleteDbCluster cluster_ids.
Definition delete_load_balancers (region : string) (lb_arns : list string) :=
  delete_all region DeleteLoadBalancer lb_arns.
Definition delete_target_groups (region : string) (tg_arns : list string) :=
  delete_all region DeleteTargetGroup tg_arns.
Definition delete_subnets (region : string) (subnet_ids : list string) :=
  delete_all region DeleteSubnet subnet_ids.
Definition delete_route_tables (region : string) (rt_ids : list string) :=
  delete_all region DeleteRouteTable rt_ids.
Definition delete_security_groups (region : string) (sg_ids : list string) :=
  delete_all region DeleteSecurityGroup sg_ids.
Definition delete_vpcs (region : string) (vpc_ids : list string) :=
  delete_all region DeleteVpc vpc_ids.
Definition delete_launch_templates (region : string) (lt_ids : list string) :=
  delete_all region DeleteLaunchTemplate lt_ids.
Definition delete_elasticache_snapshots (region : string) (snapshot_names : list string) :=
  delete_all region DeleteSnapshot snapshot_names.
Definition delete_elasticache_parameter_groups (region : string) (param_groups : list string) :=
  delete_all region DeleteCacheParameterGroup param_groups.
Definition delete_elasticache_subnet_groups (region : string) (subnet_groups : list string) :=
  delete_all region DeleteCacheSubnetGroup subnet_groups.
Definition delete_rds_parameter_groups (region : string) (param_groups : list string) :=
  delete_all region DeleteDbClusterParameterGroup param_groups.
Definition delete_rds_subnet_groups (region : string) (subnet_groups : list string) :=
  delete_all region DeleteDbSubnetGroup subnet_groups.

(** Lines 176-194: the loop, then a 60-second wait. *)
Definition delete_nat_gateways (region : string) (nat_ids : list string) : M (st W) unit :=
  m_when (bool_decide (nat_ids ≠ []))
    (m_for nat_ids (λ x, delete_one region (DeleteNatGateway x)) ;;
     m_when (negb dry_run && bool_decide (nat_ids ≠ [])) (sleep 60)).

(** Lines 196-211: detach then delete, in one [try]. *)
Definition delete_internet_gateways (region : string) (igw_data : list (string * string)) : M (st W) unit :=
  m_when (bool_decide (igw_data ≠ []))
    (m_for igw_data (λ '(igw_id, vpc_id),
       m_when (negb dry_run)
         (try_client
            (_ <- aws region (DetachInternetGateway igw_id vpc_id) ;;
             _ <- aws region (DeleteInternetGateway igw_id) ;;
             m_ret tt)
            (λ _, m_ret tt)))).
End Deletion.

(** ** What the deletion functions do to the trace *)

Section DeletionLemmas.
Context {W : Type} `{CloudApi W}.

(** The API answers the call [c] in [region] with a result or a
    [ClientError], never with another exception, in every world. *)
Definition client_errors_only (region : string) (c : call) : Prop :=
  ∀ w, match snd (respond w region c) with
       | inl e => is_client_error e = true
       | inr _ => True
       end.

Lemma delete_one_live region c (s : st W) :
  client_errors_only region c →
  ∃ w', delete_one false region c s = (inr tt, mk_st w' (trace s ++ [ECall region c])).
Proof.
  intros Hok. specialize (Hok (world s)).
  unfold delete_one, try_client, m_try, m_when, m_bind, aws, m_ret. simpl.
  destruct (respond (world s) region c) as [w' [e|r]]; simpl in *; [|eauto].
  rewrite Hok. eauto.
Qed.

Lemma delete_one_dry region c (s : st W) : delete_one true region c s = (inr tt, s).
Proof. reflexivity. Qed.

Lemma m_for_delete_live {A} region (mk : A → call) items (s : st W) :
  Forall (λ x, client_errors_only region (mk x)) items →
  ∃ w', m_for items (λ x, delete_one false region (mk x)) s =
        (inr tt, mk_st w' (trace s ++ map (λ x, ECall region (mk x)) items)).
Proof.
  intros Hok. revert s. induction Hok as [|x items Hx _ IH]; intros s.
  - exists (world s). rewrite app_nil_r. by destruct s.
  - destruct (delete_one_live region (mk x) s Hx) as [w1 E1].
    simpl. rewrite (m_bind_ok _ _ _ _ _ E1).
    destruct (IH (mk_st w1 (trace s ++ [ECall region (mk x)]))) as [w2 E2].
    exists w2. rewrite E2. simpl. by rewrite <- app_assoc.
Qed.

(** C10: Fault isolation of the deletion loops: in live mode, when the
    API answers the delete calls with results or [ClientError]s only, a [delete_*]
    function makes exactly one delete call per item, in the order of
    the list, and returns normally: an error on one item does not stop
    the deletion of the next. *)
Theorem delete_all_live {A} region (mk : A → call) items (s : st W) :
  Forall (λ x, client_errors_only region (mk x)) items →
  ∃ w', delete_all false region mk items s =
        (inr tt, mk_st w' (trace s ++ map (λ x, ECall region (mk x)) items)).
Proof.
  intros Hok. unfold delete_all, m_when.
  destruct (bool_decide (items ≠ [])) eqn:E; [by apply m_for_delete_live|].
  apply bool_decide_eq_false in E. apply dec_stable in E. subst.
  exists (world s). rewrite app_nil_r. by destruct s.
Qed.

Lemma delete_all_dry {A} region (mk : A → call) items (s : st W) :
  delete_all true region mk items s = (inr tt, s).
Proof.
  unfold delete_all, m_when. destruct (bool_decide _); [|done].
  revert s. induction items as [|x items IH]; intros s; [done|]. apply IH.
Qed.

(** C11: In an internet gateway's [try] block, a [ClientError] from
    [detach_internet_gateway] skips [delete_internet_gateway]: the
    gateway is left in place and only the detach call is in the trace. *)
Theorem igw_detach_error_skips_delete region igw vpc (s : st W) w' code :
  respond (world s) region (DetachInternetGateway igw vpc) = (w', inl (ClientError code)) →
  delete_internet_gateways false region [(igw, vpc)] s =
    (inr tt, mk_st w' (trace s ++ [ECall region (DetachInternetGateway igw vpc)])).
Proof.
  intros E. unfold delete_internet_gateways, m_when.
  rewrite bool_decide_eq_true_2 by done. cbn [m_for negb].
  unfold try_client, m_try, m_bind, aws, m_ret. rewrite E. reflexivity.
Qed.

(** C16: A [delete_*] loop catches [ClientError] only: when the API
    fails the first delete call of [delete_elasticache_clusters] with
    another exception (botocore's [ParamValidationError] on
    [FinalSnapshotIdentifier=None]), the exception leaves the function
    after that one call, and the rest of the list is not deleted. *)
Theorem delete_cache_cluster_error_escapes region x xs (s : st W) w' e :
  respond (world s) region (DeleteCacheCluster x) = (w', inl e) →
  is_client_error e = false →
  delete_elasticache_clusters false region (x :: xs) s =
    (inl e, mk_st w' (trace s ++ [ECall region (DeleteCacheCluster x)])).
Proof.
  intros E He. unfold delete_elasticache_clusters, delete_all, m_when.
  rewrite bool_decide_eq_true_2 by done. cbn [m_for negb].
  unfold delete_one, try_client, m_try, m_when, m_bind, aws, m_ret. cbn. rewrite E. cbn.
  by rewrite He.
Qed.
End DeletionLemmas.

(** ** Witnesses on [SimCloud.sim_api] *)

Lemma delete_all_live_witness :
  Forall (λ x, client_errors_only "us-east-1" (DeleteSubnet x)) ["subnet-0b2"] ∧
  ∃ w', delete_all false "us-east-1" DeleteSubnet ["subnet-0b2"] (start sample_world) =
        (inr tt, mk_st w' ([] ++ map (λ x, ECall "us-east-1" (DeleteSubnet x)) ["subnet-0b2"])).
Proof.
  assert (Hok : Forall (λ x, client_errors_only "us-east-1" (DeleteSubnet x)) ["subnet-0b2"])
    by (repeat constructor; intros w; exact I).
  split; [exact Hok|]. exact (delete_all_live "us-east-1" DeleteSubnet ["subnet-0b2"] (start sample_world) Hok).
Defined.

Lemma igw_detach_error_skips_delete_witness :
  respond sample_world "us-east-1" (DetachInternetGateway "igw-0d4" "vpc-0a1") =
    (sample_world, inl (ClientError "DependencyViolation")) ∧
  delete_internet_gateways false "us-east-1" [("igw-0d4", "vpc-0a1")] (start sample_world) =
    (inr tt, mk_st sample_world ([] ++ [ECall "us-east-1" (DetachInternetGateway "igw-0d4" "vpc-0a1")])).
Proof.
  assert (E : respond sample_world "us-east-1" (DetachInternetGateway "igw-0d4" "vpc-0a1") =
                (sample_world, inl (ClientError "DependencyViolation"))) by (vm_compute; reflexivity).
  split; [exact E|]. exact (igw_detach_error_skips_delete "us-east-1" "igw-0d4" "vpc-0a1"
                              (start sample_world) sample_world "DependencyViolation" E).
Defined.

Lemma delete_cache_cluster_error_escapes_witness :
  respond sample_world "us-east-1" (DeleteCacheCluster "xelta-dev-redis") =
    (sample_world, inl (OtherError "ParamValidationError")) ∧
  delete_elasticache_clusters false "us-east-1" ["xelta-dev-redis"; "xelta-dev-redis-2"]
    (start sample_world) =
    (inl (OtherError "ParamValidationError"),
     mk_st sample_world ([] ++ [ECall "us-east-1" (DeleteCacheCluster "xelta-dev-redis")])).
Proof.
  assert (E : respond sample_world "us-east-1" (DeleteCacheCluster "xelta-dev-redis") =
                (sample_world, inl (OtherError "ParamValidationError"))) by reflexivity.
  split; [exact E|].
  exact (delete_cache_cluster_error_escapes "us-east-1" "xelta-dev-redis" ["xelta-dev-redis-2"]
           (start sample_world) sample_world _ E eq_refl).
Defined.

(** ** Only [Exception]s escape the deletions *)

(** Unfold the seventeen one-shape [delete_*] functions to [delete_all]. *)
Ltac unfold_deletes :=
  unfold delete_eks_nodegroups, delete_eks_clusters,
    delete_elasticache_replication_groups, delete_elasticache_clusters, delete_rds_clusters,
    delete_load_balancers, delete_target_groups, delete_subnets, delete_route_tables,
    delete_security_groups, delete_vpcs, delete_launch_templates, delete_elasticache_snapshots,
    delete_elasticache_subnet_groups, delete_elasticache_parameter_groups,
    delete_rds_subnet_groups, delete_rds_parameter_groups.


Section DeletionNoExit.
Context {W : Type} `{CloudApi W} (dry_run : bool).

Lemma ne_delete_one region c : no_exit (delete_one (W:=W) dry_run region c).
Proof. unfold delete_one, try_client. eauto 10 with cleanup. Qed.

Lemma ne_delete_all {A} region (mk : A → call) items :
  no_exit (delete_all (W:=W) dry_run region mk items).
Proof. unfold delete_all. auto using ne_delete_one with cleanup. Qed.

Lemma ne_delete_nat_gateways region l : no_exit (delete_nat_gateways (W:=W) dry_run region l).
Proof. unfold delete_nat_gateways. auto 10 using ne_delete_one with cleanup. Qed.

Lemma ne_delete_internet_gateways region l :
  no_exit (delete_internet_gateways (W:=W) dry_run region l).
Proof.
  unfold delete_internet_gateways, try_client. apply ne_when, ne_for. intros [igw vpc].
  eauto 10 with cleanup.
Qed.
End DeletionNoExit.
