(* ===== verification/Discovery.v ===== *)
(** Discovery in [src/scripts/cleanup.py]: the tagged resources of a
    region ([get_tagged_resources], lines 38-53, with the configuration of
    lines 15-17) and the VPC attachment of internet gateways
    ([get_igw_vpc_mapping], lines 373-390).

    [paginator.paginate] is the loop [paginate]: it asks for a page,
    keeps its ARNs and goes on while the response carries a next token.
    The [try] of line 44 surrounds the whole loop for one tag value: a
    [ClientError] on page [k] keeps the ARNs of pages [1..k-1] (they were
    already [extend]ed into [resources]) and ends the loop; [paginate]
    returns those ARNs with the error.  The loop is bounded by [fuel]
    pages; running out raises [OtherError], which stands for botocore's
    [PaginationError] on a token that does not advance
    ([paginate_enough_fuel] shows the bound is never reached when the API
    ends its pages in time).  [get_tagged_resources_tag_filter] shows
    which tag filters are sent, and [attached_igws_unattached] that a
    gateway without attachment is dropped. *)

From stdpp Require Import base list strings sets.
From S2P Require Import Prelude Api SimCloud.

Local Open Scope cleanup_scope.

(** Lines 15-17. *)
Definition REGIONS : list string := ["us-east-1"; "eu-central-1"; "ap-south-1"].
Definition TAG_KEY : string := "ManagedBy".
Definition TAG_VALUES : list string := ["terraform"; "Terraform"].

(** The bound on the pages of one paginated listing (up to 100
    resources a page: 100000 tagged resources per region and tag value). *)
Definition MAX_PAGES : nat := 1000.

Section Discovery.
Context {W : Type} `{CloudApi W}.

(** [for page in paginator.paginate(TagFilters=...): resources.extend(...)]
    inside [try ... except ClientError]: the ARNs gathered and the
    [ClientError] that ended the loop, if any. *)
Fixpoint paginate (fuel : nat) (region key value : string) (token : option string)
    : M (st W) (list string * option exc) :=
  match fuel with
  | 0 => m_raise (OtherError "PaginationError")
  | S f =>
      try_client
        (r <- aws region (GetResources key value token) ;;
         match r with
         | RPage arns None => m_ret (arns, None)
         | RPage arns (Some t) =>
             rest <- paginate f region key value (Some t) ;;
             m_ret (arns ++ fst rest, snd rest)
         | _ => m_raise (OtherError "KeyError")
         end)
        (λ e, m_ret ([], Some e))
  end.

(** [for tag_value in TAG_VALUES: ...] *)
Fixpoint collect_tags (fuel : nat) (region : string) (values : list string)
    : M (st W) (list string) :=
  match values with
  | [] => m_ret []
  | v :: vs =>
      r <- paginate fuel region TAG_KEY v None ;;
      rest <- collect_tags fuel region vs ;;
      m_ret (fst r ++ rest)
  end.

Definition get_tagged_resources (region : string) : M (st W) (list string) :=
  collect_tags MAX_PAGES region TAG_VALUES.

(** The pairs (gateway, VPC of its first attachment) of the gateways
    that have an attachment, in the order of the response. *)
Definition attached_igws (igws : list (string * list string)) : list (string * string) :=
  omap (λ '(igw, vpcs), match vpcs with v :: _ => Some (igw, v) | [] => None end) igws.

Definition get_igw_vpc_mapping (region : string) (igw_ids : list string)
    : M (st W) (list (string * string)) :=
  if bool_decide (igw_ids = []) then m_ret []
  else try_client
         (r <- aws region (DescribeInternetGateways igw_ids) ;;
          match r with
          | RIgws igws => m_ret (attached_igws igws)
          | _ => m_raise (OtherError "KeyError")
          end)
         (λ _, m_ret []).
End Discovery.

Section Pagination.
Context {W : Type} `{CloudApi W} (region key value : string).

(** The listing from [token] in world [w] ends within [n] pages: AWS
    answers each request with a page, the last one without a next
    token, or ends the listing with a [ClientError]. *)
Inductive pages_end : nat → W → option string → Prop :=
| pages_last n w t w' arns :
    respond w region (GetResources key value t) = (w', inr (RPage arns None)) →
    pages_end (S n) w t
| pages_error n w t w' code :
    respond w region (GetResources key value t) = (w', inl (ClientError code)) →
    pages_end (S n) w t
| pages_next n w t w' arns t' :
    respond w region (GetResources key value t) = (w', inr (RPage arns (Some t'))) →
    pages_end n w' (Some t') → pages_end (S n) w t.

(** C17: Pagination terminates: when the listing ends within [n]
    pages, [paginate] with any fuel of at least [n] returns normally,
    with a result and a final state that do not depend on the fuel: the
    bound [MAX_PAGES] is never what ends the loop. *)
Theorem paginate_enough_fuel n token (s : st W) :
  pages_end n (world s) token →
  ∃ r s', ∀ fuel, n ≤ fuel → paginate fuel region key value token s = (inr r, s').
Proof.
  remember (world s) as w eqn:Hw. intros Hp. revert s Hw.
  induction Hp as [n w t w' arns E|n w t w' code E|n w t w' arns t' E _ IH]; intros s ->.
  - eexists _, _. intros [|f] Hf; [lia|]. cbn [paginate].
    unfold try_client, m_try, m_bind, aws. rewrite E. reflexivity.
  - eexists _, _. intros [|f] Hf; [lia|]. cbn [paginate].
    unfold try_client, m_try, m_bind, aws. rewrite E. reflexivity.
  - destruct (IH (mk_st w' (trace s ++ [ECall region (GetResources key value t)])) eq_refl)
      as (r & s' & Hr).
    eexists _, _. intros [|f] Hf; [lia|]. cbn [paginate].
    unfold try_client, m_try, m_bind at 1, aws. rewrite E. cbn.
    unfold m_bind. rewrite (Hr f) by lia. reflexivity.
Qed.
End Pagination.

Lemma paginate_enough_fuel_witness :
  pages_end "us-east-1" "ManagedBy" "terraform" 3 sample_world None ∧
  ∃ r s', ∀ fuel, 3 ≤ fuel →
    paginate fuel "us-east-1" "ManagedBy" "terraform" None (start sample_world) = (inr r, s').
Proof.
  assert (Hp : pages_end "us-east-1" "ManagedBy" "terraform" 3 sample_world None).
  { eapply pages_next; [reflexivity|]. eapply pages_next; [reflexivity|].
    eapply pages_last; reflexivity. }
  split; [exact Hp|]. exact (paginate_enough_fuel "us-east-1" "ManagedBy" "terraform" 3 None
                               (start sample_world) Hp).
Defined.

(** ** What discovery asks for and keeps *)

Section Filters.
Context {W : Type} `{CloudApi W} (region : string).

Lemma paginate_calls fuel key value token :
  calls_only (λ r c, r = region ∧ ∃ t, c = GetResources key value t)
    (paginate (W:=W) fuel region key value token).
Proof.
  revert token. induction fuel as [|f IH]; intros token; [apply calls_only_raise|].
  apply calls_only_try; [|intros; apply calls_only_ret].
  apply calls_only_bind; [apply calls_only_aws; eauto|].
  intros [|arns [t|]|]; try apply calls_only_raise; try apply calls_only_ret.
  apply calls_only_bind; [apply IH|intros; apply calls_only_ret].
Qed.

Lemma collect_tags_calls fuel vs :
  calls_only (λ r c, r = region ∧ ∃ v t, c = GetResources TAG_KEY v t ∧ v ∈ vs)
    (collect_tags (W:=W) fuel region vs).
Proof.
  induction vs as [|v vs IH]; [apply calls_only_ret|].
  apply calls_only_bind; [|intros; apply calls_only_bind; [|intros; apply calls_only_ret]].
  - eapply calls_only_impl; [|apply paginate_calls]. intros r c [-> [t ->]]. split; [done|]. exists v, t. split; [done|set_solver].
  - eapply calls_only_impl; [|apply IH]. intros r c (-> & v' & t & -> & Hv). split; [done|]. exists v', t. split; [done|set_solver].
Qed.

(** C22: Discovery asks for one tag key only: every call of
    [get_tagged_resources] is a [get_resources] page in its region for
    the key [ManagedBy] and one of the values [terraform] and
    [Terraform]; a resource tagged [managed_by=terraform], which the
    docstring of the script promises to delete, is never listed. *)
Theorem get_tagged_resources_tag_filter :
  calls_only (λ r c, r = region ∧ ∃ v t, c = GetResources "ManagedBy" v t ∧ v ∈ TAG_VALUES)
    (get_tagged_resources (W:=W) region).
Proof. apply collect_tags_calls. Qed.
End Filters.

(** C23: Only attached gateways reach [delete_internet_gateways]: the
    pairs [get_igw_vpc_mapping] keeps are the gateways of the response
    with an attachment, with their first VPC, so a gateway AWS reports
    without attachment (a tagged gateway that was never attached or was
    already detached) is never deleted. *)
Theorem attached_igws_unattached igws g :
  (g, []) ∈ igws → NoDup igws.*1 → ∀ v, (g, v) ∉ attached_igws igws.
Proof.
  intros Hg Hnd v Hin. unfold attached_igws in Hin.
  apply list_elem_of_omap in Hin as ([g' vs] & Hin' & Hs).
  destruct vs as [|v' vs]; [done|]. injection Hs as <- <-.
  by pose proof (NoDup_fst_unique _ _ _ _ Hnd Hin' Hg).
Qed.

Lemma attached_igws_unattached_witness :
  ("igw-0d4", []) ∈ [("igw-0d4", []); ("igw-0e5", ["vpc-0a1"])] ∧
  NoDup [("igw-0d4", []); ("igw-0e5", ["vpc-0a1"])].*1 ∧
  ("igw-0d4", "vpc-0a1") ∉ attached_igws [("igw-0d4", []); ("igw-0e5", ["vpc-0a1"])].
Proof.
  assert (Hg : ("igw-0d4", []) ∈ [("igw-0d4", []); ("igw-0e5", ["vpc-0a1"])]) by set_solver.
  assert (Hnd : NoDup [("igw-0d4", @nil string); ("igw-0e5", ["vpc-0a1"])].*1).
  { cbn. apply NoDup_cons. split; [set_solver|apply NoDup_singleton]. }
  split; [exact Hg|]. split; [exact Hnd|].
  exact (attached_igws_unattached _ _ Hg Hnd "vpc-0a1").
Defined.

(** ** Only [Exception]s escape discovery *)

Section DiscoveryNoExit.
Context {W : Type} `{CloudApi W}.

Lemma ne_paginate fuel region key value token :
  no_exit (paginate (W:=W) fuel region key value token).
Proof.
  revert token. induction fuel as [|f IH]; intros token; cbn [paginate].
  - by apply ne_raise.
  - unfold try_client. apply ne_try; [|auto with cleanup].
    apply ne_bind; [apply ne_aws|]. intros [|arns [t|]|]; eauto using ne_raise with cleanup.
Qed.

Lemma ne_get_tagged_resources region : no_exit (get_tagged_resources (W:=W) region).
Proof.
  unfold get_tagged_resources. generalize TAG_VALUES. intros vs.
  induction vs as [|v vs IH]; cbn [collect_tags]; eauto using ne_paginate with cleanup.
Qed.

Lemma ne_get_igw_vpc_mapping region ids : no_exit (get_igw_vpc_mapping (W:=W) region ids).
Proof.
  unfold get_igw_vpc_mapping, try_client. case_bool_decide; [apply ne_ret|].
  apply ne_try; [|auto with cleanup]. apply ne_bind; [apply ne_aws|].
  intros []; eauto using ne_raise with cleanup.
Qed.
End DiscoveryNoExit.
