(* ===== verification/Region.v ===== *)
(** [process_region] of [src/scripts/cleanup.py] (lines 392-562).

    [process_region] lists the tagged resources, returns when there are
    none, classifies them ([Classify.categorize]: an [IndexError] escapes
    from here), looks up the VPCs of the internet gateways and then runs
    the seven deletion phases of lines 517-560 ([delete_phases]), with
    the pauses of lines 520-539.  [main] is in [Run].  The two early
    exits (nothing tagged, a failed classification) are stated here. *)

From stdpp Require Import base list strings.
From S2P Require Import Prelude Classify Api SimCloud Deletion Discovery.

Local Open Scope cleanup_scope.

Section Region.
Context {W : Type} `{CloudApi W} (dry_run : bool).

(** Lines 517-560: the deletions in dependency order. *)
Definition delete_phases (region : string) (b : buckets) (igw_data : list (string * string))
    : M (st W) unit :=
  let l := by_category b in
  (* Phase 1: EKS *)
  delete_eks_nodegroups dry_run region (eks_nodegroups b) ;;
  m_when (bool_decide (eks_nodegroups b ≠ []) && negb dry_run) (sleep 120) ;;
  delete_eks_clusters dry_run region (l eks_clusters) ;;
  m_when (bool_decide (l eks_clusters ≠ []) && negb dry_run) (sleep 120) ;;
  (* Phase 2: databases and caches *)
  delete_elasticache_replication_groups dry_run region (l elasticache_repl_groups) ;;
  delete_elasticache_clusters dry_run region (l elasticache_clusters) ;;
  delete_rds_clusters dry_run region (l rds_clusters) ;;
  m_when ((bool_decide (l elasticache_clusters ≠ []) || bool_decide (l elasticache_repl_groups ≠ [])
           || bool_decide (l rds_clusters ≠ [])) && negb dry_run) (sleep 60) ;;
  (* Phase 3: load balancing *)
  delete_load_balancers dry_run region (l load_balancers) ;;
  m_when (bool_decide (l load_balancers ≠ []) && negb dry_run) (sleep 30) ;;
  delete_target_groups dry_run region (l target_groups) ;;
  (* Phase 4: network infrastructure *)
  delete_nat_gateways dry_run region (l nat_gateways) ;;
  delete_internet_gateways dry_run region igw_data ;;
  (* Phase 5: subnets and routing *)
  delete_subnets dry_run region (l subnets) ;;
  delete_route_tables dry_run region (l route_tables) ;;
  (* Phase 6: security and VPC *)
  delete_security_groups dry_run region (l security_groups) ;;
  delete_vpcs dry_run region (l vpcs) ;;
  (* Phase 7: supporting resources *)
  delete_launch_templates dry_run region (l launch_templates) ;;
  delete_elasticache_snapshots dry_run region (l elasticache_snapshots) ;;
  delete_elasticache_subnet_groups dry_run region (l elasticache_subnet_groups) ;;
  delete_elasticache_parameter_groups dry_run region (l elasticache_param_groups) ;;
  delete_rds_subnet_groups dry_run region (l rds_subnet_groups) ;;
  delete_rds_parameter_groups dry_run region (l rds_param_groups).

(** [raise] the exception of a classification that failed. *)
Definition lift {A} (r : exc + A) : M (st W) A :=
  match r with inl e => m_raise e | inr x => m_ret x end.

(** Lines 392-562. *)
Definition process_region (region : string) : M (st W) unit :=
  resources <- get_tagged_resources region ;;
  if bool_decide (resources = []) then m_ret tt
  else
    b <- lift (categorize resources) ;;
    igw_data <- get_igw_vpc_mapping region (by_category b internet_gateways) ;;
    delete_phases region b igw_data.
End Region.

(** The calls on internet gateways. *)
Definition igw_call (c : call) : bool :=
  match c with DetachInternetGateway _ _ | DeleteInternetGateway _ => true | _ => false end.

(** An event that is not a call on an internet gateway. *)
Definition no_igw_call (e : event) : Prop := ∀ r c, e = ECall r c → igw_call c = false.

(** A region with an internet gateway and an egress-only gateway: the
    egress-only id, filed with the internet gateways, makes the lookup
    fail. *)
Definition eigw_world : sim :=
  mk_sim
    [("us-east-1", "arn:aws:ec2:us-east-1:123456789012:vpc/vpc-0a1");
     ("us-east-1", "arn:aws:ec2:us-east-1:123456789012:internet-gateway/igw-0d4");
     ("us-east-1", "arn:aws:ec2:us-east-1:123456789012:egress-only-internet-gateway/eigw-0e5")]
    [("us-east-1", "igw-0d4", "vpc-0a1")].

(** Nothing tagged, nothing done: when discovery lists no resource
    in a region, [process_region] returns right after it (line 403):
    no classification, no gateway lookup, no deletion, no pause. *)
Lemma process_region_nothing_tagged {W} `{CloudApi W} dry_run region (s s1 : st W) :
  get_tagged_resources region s = (inr [], s1) → process_region dry_run region s = (inr tt, s1).
Proof. intros E. unfold process_region, m_bind at 1. by rewrite E. Qed.

(** C30: A failed classification aborts the region before any deletion:
    when one listed ARN makes the classification raise, [process_region]
    raises that exception in the state discovery left, so neither the
    gateway lookup nor any delete call of the region is made. *)
Theorem process_region_classification_error {W} `{CloudApi W} dry_run region (s s1 : st W) rs e :
  get_tagged_resources region s = (inr rs, s1) → rs ≠ [] → categorize rs = inl e →
  process_region dry_run region s = (inl e, s1).
Proof.
  intros E Hne Hc. unfold process_region, m_bind at 1. rewrite E.
  rewrite bool_decide_eq_false_2 by done. unfold m_bind. by rewrite Hc.
Qed.

Lemma process_region_classification_error_witness :
  let w := mk_sim [("us-east-1", "arn:aws:eks:us-east-1:123456789012:nodegroup/xelta-dev-eks")] [] in
  let s1 := mk_st w [ECall "us-east-1" (GetResources "ManagedBy" "terraform" None);
                     ECall "us-east-1" (GetResources "ManagedBy" "Terraform" None)] in
  get_tagged_resources "us-east-1" (start w) =
    (inr ["arn:aws:eks:us-east-1:123456789012:nodegroup/xelta-dev-eks"], s1) ∧
  ["arn:aws:eks:us-east-1:123456789012:nodegroup/xelta-dev-eks"] ≠ [] ∧
  categorize ["arn:aws:eks:us-east-1:123456789012:nodegroup/xelta-dev-eks"] = inl IndexError ∧
  process_region false "us-east-1" (start w) = (inl IndexError, s1).
Proof.
  intros w s1.
  assert (E : get_tagged_resources "us-east-1" (start w) =
                (inr ["arn:aws:eks:us-east-1:123456789012:nodegroup/xelta-dev-eks"], s1))
    by (vm_compute; reflexivity).
  assert (Hne : ["arn:aws:eks:us-east-1:123456789012:nodegroup/xelta-dev-eks"] ≠ []) by discriminate.
  assert (Hc : categorize ["arn:aws:eks:us-east-1:123456789012:nodegroup/xelta-dev-eks"] = inl IndexError)
    by (vm_compute; reflexivity).
  split_and!; [exact E|exact Hne|exact Hc|].
  exact (process_region_classification_error false _ _ _ _ _ E Hne Hc).
Defined.

(** ** Only [Exception]s escape [process_region] *)

Section RegionNoExit.
Context {W : Type} `{CloudApi W} (dry_run : bool).

Lemma categorize_go_exception b rs e : categorize_go b rs = inl e → is_exception e = true.
Proof.
  revert b. induction rs as [|arn rs IH]; intros b; cbn; [done|].
  destruct (classify_arn arn) as [e'|r] eqn:E; cbn; [|apply IH].
  intros [= <-]. by rewrite (classify_arn_error_index _ _ E).
Qed.

Lemma ne_delete_phases region b igw_data :
  no_exit (delete_phases (W:=W) dry_run region b igw_data).
Proof.
  unfold delete_phases; unfold_deletes. cbv zeta.
  repeat (apply ne_bind; [|intros _]);
    auto using ne_delete_all, ne_delete_nat_gateways, ne_delete_internet_gateways with cleanup.
Qed.

Lemma ne_process_region region : no_exit (process_region (W:=W) dry_run region).
Proof.
  unfold process_region. apply ne_bind; [apply ne_get_tagged_resources|intros rs].
  case_bool_decide; [apply ne_ret|].
  apply ne_bind; [|intros b; apply ne_bind; [apply ne_get_igw_vpc_mapping|intros; apply ne_delete_phases]].
  unfold lift. destruct (categorize rs) as [e|b] eqn:E; [|apply ne_ret].
  apply ne_raise. by eapply categorize_go_exception.
Qed.
End RegionNoExit.

(** ** A failed gateway lookup spares every gateway of the region *)

Section IgwLookup.
Context {W : Type} `{CloudApi W} (dry_run : bool) (region : string).

Lemma no_igw_delete_one c :
  igw_call c = false → extends (Forall no_igw_call) (delete_one (W:=W) dry_run region c).
Proof.
  intros Hc. unfold delete_one, try_client. apply ext_when; [done|].
  apply ext_all_try; [|intros; by apply ext_ret]. apply ext_all_bind; [|intros; by apply ext_ret].
  apply ext_aws. repeat constructor. by intros ? ? [= _ <-].
Qed.

Lemma no_igw_delete_all {A} (mk : A → call) items :
  (∀ x, igw_call (mk x) = false) → extends (Forall no_igw_call) (delete_all (W:=W) dry_run region mk items).
Proof.
  intros Hmk. unfold delete_all. apply ext_when; [done|]. apply ext_all_for. intros x.
  by apply no_igw_delete_one.
Qed.

Lemma no_igw_delete_phases b : extends (Forall no_igw_call) (delete_phases (W:=W) dry_run region b []).
Proof.
  unfold delete_phases; unfold_deletes. cbv zeta.
  repeat (apply ext_all_bind; [|intros _]);
    try (apply no_igw_delete_all; intros []; done);
    try (apply no_igw_delete_all; done);
    try (apply ext_when; [done|]; apply ext_sleep; repeat constructor; discriminate).
  - unfold delete_nat_gateways. apply ext_when; [done|]. apply ext_all_bind.
    + apply ext_all_for. intros x. by apply no_igw_delete_one.
    + intros _. apply ext_when; [done|]. apply ext_sleep. repeat constructor. discriminate.
  - unfold delete_internet_gateways. by apply ext_ret.
Qed.

Lemma igw_lookup_client_error ids (s : st W) w' code :
  ids ≠ [] → respond (world s) region (DescribeInternetGateways ids) = (w', inl (ClientError code)) →
  get_igw_vpc_mapping region ids s = (inr [], mk_st w' (trace s ++ [ECall region (DescribeInternetGateways ids)])).
Proof.
  intros Hne Hr. unfold get_igw_vpc_mapping, try_client, m_try, m_bind, aws.
  rewrite bool_decide_eq_false_2 by done. cbn. by rewrite Hr.
Qed.
End IgwLookup.

(** C33: One unknown gateway id spares every gateway of the region.
    When the tagged resources of a region are classified and include
    internet gateways, but [describe_internet_gateways] on their ids
    answers with a [ClientError] (as it does when one id is not that of
    an internet gateway, such as the id of an egress-only gateway that
    the classification files with them), [get_igw_vpc_mapping] returns
    the empty list (lines 387-390), and after that lookup [process_region]
    makes no [detach_internet_gateway] or [delete_internet_gateway] call
    at all, for the valid gateways neither. *)
Theorem igw_lookup_error_spares_gateways {W} `{CloudApi W} dry_run region (s s1 : st W) rs b w' code :
  get_tagged_resources region s = (inr rs, s1) → rs ≠ [] → categorize rs = inr b →
  by_category b internet_gateways ≠ [] →
  respond (world s1) region (DescribeInternetGateways (by_category b internet_gateways)) =
    (w', inl (ClientError code)) →
  ∃ new, trace (snd (process_region dry_run region s)) =
           trace s1 ++ ECall region (DescribeInternetGateways (by_category b internet_gateways)) :: new ∧
         Forall (λ e, ∀ r c, e = ECall r c → igw_call c = false) new.
Proof.
  intros E Hne Hc Hi Hr. unfold process_region. rewrite (m_bind_ok _ _ _ _ _ E).
  rewrite bool_decide_eq_false_2 by done.
  assert (El : lift (W:=W) (categorize rs) s1 = (inr b, s1)) by (unfold lift; by rewrite Hc).
  rewrite (m_bind_ok _ _ _ _ _ El), (m_bind_ok _ _ _ _ _ (igw_lookup_client_error region _ _ _ _ Hi Hr)).
  destruct (no_igw_delete_phases dry_run region b
              (mk_st w' (trace s1 ++ [ECall region (DescribeInternetGateways (by_category b internet_gateways))])))
    as (new & Et & F).
  exists new. split; [|exact F]. rewrite Et. cbn. by rewrite <- app_assoc.
Qed.

Lemma igw_lookup_error_spares_gateways_witness :
  ∃ rs s1 b w',
    get_tagged_resources "us-east-1" (start eigw_world) = (inr rs, s1) ∧ rs ≠ [] ∧
    categorize rs = inr b ∧ by_category b internet_gateways ≠ [] ∧
    respond (world s1) "us-east-1" (DescribeInternetGateways (by_category b internet_gateways)) =
      (w', inl (ClientError "InvalidInternetGatewayID.NotFound")) ∧
    ∃ new, trace (snd (process_region false "us-east-1" (start eigw_world))) =
             trace s1 ++ ECall "us-east-1" (DescribeInternetGateways (by_category b internet_gateways)) :: new ∧
           Forall (λ e, ∀ r c, e = ECall r c → igw_call c = false) new.
Proof.
  destruct (get_tagged_resources "us-east-1" (start eigw_world)) as [[e|rs] s1] eqn:E;
    [vm_compute in E; discriminate|].
  destruct (categorize rs) as [e|b] eqn:Hc.
  { vm_compute in E. injection E as <- _. vm_compute in Hc. discriminate. }
  assert (Hne : rs ≠ []) by (vm_compute in E; injection E as <- _; discriminate).
  assert (Hi : by_category b internet_gateways ≠ [])
    by (vm_compute in E; injection E as <- _; vm_compute in Hc; injection Hc as <-; discriminate).
  assert (Hr : respond (world s1) "us-east-1" (DescribeInternetGateways (by_category b internet_gateways)) =
                 (world s1, inl (ClientError "InvalidInternetGatewayID.NotFound")))
    by (vm_compute in E; injection E as <- <-; vm_compute in Hc; injection Hc as <-;
        vm_compute; reflexivity).
  exists rs, s1, b, (world s1). split_and!; [done|exact Hne|done|exact Hi|exact Hr|].
  exact (igw_lookup_error_spares_gateways false "us-east-1" _ _ _ _ _ _ E Hne Hc Hi Hr).
Defined.
