(* ===== verification/Ordering.v ===== *)
(** The dependency order of the deletions of [process_region]
    ([src/scripts/cleanup.py], lines 515-560), as a specification and as
    a theorem.

    [must_precede] lists the AWS dependencies between deletions: a node
    group before its cluster and its launch template, what has network
    interfaces before the subnets, what holds security groups before
    them, everything in a VPC before the VPC, and so on.  [phase] ranks
    the calls in the order the code makes them; [must_precede_phase]
    shows that the ranks respect the dependencies.  [emits region lo hi m]
    is the invariant of a monadic computation that appends calls to
    [region] of ranks [lo..hi] in rank order, whatever AWS answers and
    whether the computation returns or raises; its lemmas compose along
    [m_bind], [m_try], [m_when] and [m_for] ([emits_chain] walks a
    sequence of calls), so that [process_region] is ordered because each
    [delete_*] function stays in its phase.  The last section places
    the pause of lines 519-521 between the node-group deletions and the
    rest of the phases. *)

From stdpp Require Import base list strings sorting.
From S2P Require Import Prelude Classify Api SimCloud Deletion Discovery Region.

Local Open Scope cleanup_scope.

(** ** The dependency order, as a specification *)

(** The rank of a call in the order of [delete_phases]: 0 for the
    read-only calls of discovery, then one rank per [delete_*] function
    in the order of lines 517-560. *)
Definition phase (c : call) : nat :=
  match c with
  | GetResources _ _ _ | DescribeInternetGateways _ => 0
  | DeleteNodegroup _ _ => 1
  | DeleteCluster _ => 2
  | DeleteReplicationGroup _ => 3
  | DeleteCacheCluster _ => 4
  | DeleteDbCluster _ => 5
  | DeleteLoadBalancer _ => 6
  | DeleteTargetGroup _ => 7
  | DeleteNatGateway _ => 8
  | DetachInternetGateway _ _ | DeleteInternetGateway _ => 9
  | DeleteSubnet _ => 10
  | DeleteRouteTable _ => 11
  | DeleteSecurityGroup _ => 12
  | DeleteVpc _ => 13
  | DeleteLaunchTemplate _ => 14
  | DeleteSnapshot _ => 15
  | DeleteCacheSubnetGroup _ => 16
  | DeleteCacheParameterGroup _ => 17
  | DeleteDbSubnetGroup _ => 18
  | DeleteDbClusterParameterGroup _ => 19
  end.

(** Deletions of resources that have network interfaces in subnets. *)
Definition in_subnets (c : call) : bool :=
  match c with
  | DeleteNodegroup _ _ | DeleteCluster _ | DeleteCacheCluster _ | DeleteReplicationGroup _
  | DeleteDbCluster _ | DeleteLoadBalancer _ | DeleteNatGateway _ => true
  | _ => false
  end.

(** Deletions of resources that hold security groups. *)
Definition uses_security_groups (c : call) : bool :=
  match c with
  | DeleteNodegroup _ _ | DeleteCluster _ | DeleteCacheCluster _ | DeleteReplicationGroup _
  | DeleteDbCluster _ | DeleteLoadBalancer _ => true
  | _ => false
  end.

(** Deletions (and the detach) of what must be gone before its VPC. *)
Definition in_vpc (c : call) : bool :=
  in_subnets c ||
  match c with
  | DetachInternetGateway _ _ | DeleteSubnet _ | DeleteRouteTable _
  | DeleteSecurityGroup _ | DeleteTargetGroup _ => true
  | _ => false
  end.

Definition is_cache (c : call) : bool :=
  match c with DeleteCacheCluster _ | DeleteReplicationGroup _ => true | _ => false end.

(** [must_precede c1 c2]: AWS refuses [c2] while the resource [c1]
    deletes may still exist (the "dependency order" of line 516). *)
Inductive must_precede : call → call → Prop :=
| mp_nodegroup_cluster cl ng n : must_precede (DeleteNodegroup cl ng) (DeleteCluster n)
| mp_nodegroup_template cl ng lt : must_precede (DeleteNodegroup cl ng) (DeleteLaunchTemplate lt)
| mp_cache_subnet_group c g : is_cache c = true → must_precede c (DeleteCacheSubnetGroup g)
| mp_cache_parameter_group c g : is_cache c = true → must_precede c (DeleteCacheParameterGroup g)
| mp_rds_subnet_group i g : must_precede (DeleteDbCluster i) (DeleteDbSubnetGroup g)
| mp_rds_parameter_group i g : must_precede (DeleteDbCluster i) (DeleteDbClusterParameterGroup g)
| mp_listener_target_group lb tg : must_precede (DeleteLoadBalancer lb) (DeleteTargetGroup tg)
| mp_nat_detach n igw v : must_precede (DeleteNatGateway n) (DetachInternetGateway igw v)
| mp_subnet c sn : in_subnets c = true → must_precede c (DeleteSubnet sn)
| mp_security_group c sg : uses_security_groups c = true → must_precede c (DeleteSecurityGroup sg)
| mp_vpc c v : in_vpc c = true → must_precede c (DeleteVpc v).

(** No call of the list comes after a call that must follow it. *)
Definition dependency_ordered (new : list event) : Prop :=
  ForallOrdPairs (λ e1 e2, ∀ r1 r2 c1 c2,
    e1 = ECall r1 c1 → e2 = ECall r2 c2 → ¬ must_precede c2 c1) new.

(** Every call of the list goes to [region]. *)
Definition calls_in (region : string) (new : list event) : Prop :=
  Forall (λ e, ∀ r c, e = ECall r c → r = region) new.

Definition in_phases (region : string) (lo hi : nat) (e : event) : Prop :=
  match e with ECall r c => r = region ∧ lo ≤ phase c ≤ hi | ESleep _ => True end.

Definition ev_le (e1 e2 : event) : Prop :=
  match e1, e2 with ECall _ c1, ECall _ c2 => phase c1 ≤ phase c2 | _, _ => True end.

Section Emits.
Context {W : Type} `{CloudApi W} (region : string).

(** [m] appends to the trace, whatever the world and whether it returns
    or raises, calls to [region] of ranks in [lo..hi], in rank order. *)
Definition emits {A} (lo hi : nat) (m : M (st W) A) : Prop :=
  extends (λ new, StronglySorted ev_le new ∧ Forall (in_phases region lo hi) new) m.

(** [m] raises, whatever the world answers, after calls to [region] of
    ranks in [lo..hi] only. *)
Definition aborts {A} (lo hi : nat) (m : M (st W) A) : Prop :=
  ∀ s, ∃ e new, fst (m s) = inl e ∧ trace (snd (m s)) = trace s ++ new ∧
                Forall (in_phases region lo hi) new.
End Emits.

(** ** The ranks respect the dependencies *)

Lemma must_precede_phase c1 c2 : must_precede c1 c2 → phase c1 < phase c2.
Proof.
  intros []; try match goal with c : call |- _ => destruct c; cbn in *; try discriminate end.
  all: cbn; lia.
Qed.

Lemma in_phases_mono region lo hi lo' hi' e :
  in_phases region lo hi e → lo' ≤ lo → hi ≤ hi' → in_phases region lo' hi' e.
Proof. destruct e; cbn; naive_solver lia. Qed.

Lemma phases_app region lo mid hi n1 n2 :
  StronglySorted ev_le n1 → Forall (in_phases region lo mid) n1 →
  StronglySorted ev_le n2 → Forall (in_phases region mid hi) n2 →
  lo ≤ mid ≤ hi →
  StronglySorted ev_le (n1 ++ n2) ∧ Forall (in_phases region lo hi) (n1 ++ n2).
Proof.
  intros S1 F1 S2 F2 Hm. split.
  - apply StronglySorted_app_2; [|done..].
    intros [] [] H1 H2; cbn; [|done..].
    eapply Forall_forall in F1; [|done]. eapply Forall_forall in F2; [|done].
    cbn in *; lia.
  - apply Forall_app; split; (eapply Forall_impl; [done|]); intros; eapply in_phases_mono; eauto; lia.
Qed.

Lemma phases_widen region lo mid hi n :
  StronglySorted ev_le n → Forall (in_phases region lo mid) n → mid ≤ hi →
  StronglySorted ev_le n ∧ Forall (in_phases region lo hi) n.
Proof.
  intros S F ?. split; [done|]. eapply Forall_impl; [done|].
  intros; eapply in_phases_mono; eauto.
Qed.

Lemma sorted_dependency_ordered new :
  StronglySorted ev_le new → dependency_ordered new.
Proof.
  unfold dependency_ordered. induction 1 as [|e l _ IH HF]; constructor; [|done].
  eapply Forall_impl; [done|]. intros e' Hle r1 r2 c1 c2 -> -> Hmp.
  apply must_precede_phase in Hmp. cbn in Hle. lia.
Qed.

Lemma phases_calls_in region lo hi new :
  Forall (in_phases region lo hi) new → calls_in region new.
Proof. intros HF. eapply Forall_impl; [done|]. by intros e He r c ->; destruct He. Qed.

Section EmitsLemmas.
Context {W : Type} `{CloudApi W} (region : string).
Implicit Types s : st W.

Lemma emits_mono {A} lo hi lo' hi' (m : M (st W) A) :
  emits region lo hi m → lo' ≤ lo → hi ≤ hi' → emits region lo' hi' m.
Proof.
  intros Hm ? ?. eapply ext_impl; [|exact Hm]. intros n [S F]. split; [done|].
  eapply Forall_impl; [done|]. intros; eapply in_phases_mono; eauto.
Qed.

Lemma emits_bump {A} lo hi (m : M (st W) A) :
  lo < hi → emits region (S lo) hi m → emits region lo hi m.
Proof. intros ? Hm. eapply emits_mono; [done|lia..]. Qed.

Lemma emits_ret {A} lo hi (x : A) : emits region lo hi (m_ret (σ := st W) x).
Proof. apply ext_ret. by repeat constructor. Qed.

Lemma emits_raise {A} lo hi e : emits region lo hi (m_raise (σ := st W) (A:=A) e).
Proof. apply ext_raise. by repeat constructor. Qed.

Lemma emits_sleep lo hi n : emits region lo hi (sleep (W:=W) n).
Proof. apply ext_sleep. by repeat constructor. Qed.

Lemma emits_aws lo c : phase c = lo → emits region lo lo (aws region c).
Proof. intros Hc. apply ext_aws. split_and!; repeat constructor; cbn; lia. Qed.

Lemma emits_bind {A B} lo mid hi (m : M (st W) A) (k : A → M (st W) B) :
  emits region lo mid m → lo ≤ mid ≤ hi → (∀ x, emits region mid hi (k x)) →
  emits region lo hi (m_bind m k).
Proof.
  intros Hm Hmid Hk. eapply ext_bind; [exact Hm|exact Hk|..].
  - intros n [S F]. eapply phases_widen; eauto; lia.
  - intros n1 n2 [S1 F1] [S2 F2]. by eapply phases_app.
Qed.

Lemma emits_try {A} p lo mid hi (m : M (st W) A) (h : exc → M (st W) A) :
  emits region lo mid m → lo ≤ mid ≤ hi → (∀ e, emits region mid hi (h e)) →
  emits region lo hi (m_try p m h).
Proof.
  intros Hm Hmid Hh. eapply ext_try; [exact Hm|exact Hh|..].
  - intros n [S F]. eapply phases_widen; eauto; lia.
  - intros n1 n2 [S1 F1] [S2 F2]. by eapply phases_app.
Qed.

Lemma emits_seq {A B} lo hi (m : M (st W) A) (k : A → M (st W) B) :
  emits region lo lo m → lo ≤ hi → (∀ x, emits region lo hi (k x)) →
  emits region lo hi (m_bind m k).
Proof. intros. eapply emits_bind; eauto. Qed.

Lemma emits_try_seq {A} p lo hi (m : M (st W) A) (h : exc → M (st W) A) :
  emits region lo lo m → lo ≤ hi → (∀ e, emits region lo hi (h e)) →
  emits region lo hi (m_try p m h).
Proof. intros. eapply emits_try; eauto. Qed.

Lemma emits_when lo hi b (m : M (st W) unit) :
  emits region lo hi m → emits region lo hi (m_when b m).
Proof. destruct b; [done|apply emits_ret]. Qed.

Lemma emits_for {A} k (l : list A) (body : A → M (st W) unit) :
  (∀ x, emits region k k (body x)) → emits region k k (m_for l body).
Proof.
  intros Hb. induction l as [|x l IH]; [apply emits_ret|].
  apply emits_seq; [apply Hb|lia|done].
Qed.
End EmitsLemmas.

(** ** Each function stays in its phase *)

Section PhaseLemmas.
Context {W : Type} `{CloudApi W} (dry_run : bool) (region : string).

Lemma emits_delete_one k c : phase c = k → emits region k k (delete_one (W:=W) dry_run region c).
Proof.
  intros Hc. apply emits_when. apply emits_try_seq; [|lia|intros; apply emits_ret].
  apply emits_seq; [by apply emits_aws|lia|intros; apply emits_ret].
Qed.

Lemma emits_delete_all {A} k (mk : A → call) items :
  (∀ x, phase (mk x) = k) → emits region k k (delete_all (W:=W) dry_run region mk items).
Proof. intros Hk. apply emits_when, emits_for. intros x. by apply emits_delete_one. Qed.

Lemma emits_delete_nat_gateways l :
  emits region 8 8 (delete_nat_gateways (W:=W) dry_run region l).
Proof.
  apply emits_when. apply emits_seq; [|lia|intros; apply emits_when, emits_sleep].
  apply emits_for. intros x. by apply emits_delete_one.
Qed.

Lemma emits_delete_internet_gateways l :
  emits region 9 9 (delete_internet_gateways (W:=W) dry_run region l).
Proof.
  apply emits_when, emits_for. intros [igw vpc]. apply emits_when.
  apply emits_try_seq; [|lia|intros; apply emits_ret].
  apply emits_seq; [by apply emits_aws|lia|intros].
  apply emits_seq; [by apply emits_aws|lia|intros; apply emits_ret].
Qed.

Lemma emits_paginate fuel key value token :
  emits region 0 0 (paginate (W:=W) fuel region key value token).
Proof.
  revert token. induction fuel as [|f IH]; intros token; [apply emits_raise|].
  apply emits_try_seq; [|lia|intros; apply emits_ret].
  apply emits_seq; [by apply emits_aws|lia|].
  intros [|arns [t|]|]; try apply emits_raise; try apply emits_ret.
  apply emits_seq; [apply IH|lia|intros; apply emits_ret].
Qed.

Lemma emits_get_tagged_resources : emits region 0 0 (get_tagged_resources (W:=W) region).
Proof.
  unfold get_tagged_resources. induction TAG_VALUES as [|v vs IH]; [apply emits_ret|].
  apply emits_seq; [apply emits_paginate|lia|].
  intros; apply emits_seq; [apply IH|lia|intros; apply emits_ret].
Qed.

Lemma emits_get_igw_vpc_mapping ids :
  emits region 0 0 (get_igw_vpc_mapping (W:=W) region ids).
Proof.
  unfold get_igw_vpc_mapping. case_bool_decide; [apply emits_ret|].
  apply emits_try_seq; [|lia|intros; apply emits_ret].
  apply emits_seq; [by apply emits_aws|lia|].
  intros []; [apply emits_raise..|apply emits_ret].
Qed.

Lemma emits_delete_all_dry {A} k (mk : A → call) items :
  emits region k k (delete_all (W:=W) true region mk items).
Proof. intros s. exists []. rewrite delete_all_dry, app_nil_r. by repeat constructor. Qed.

Lemma emits_delete_nat_gateways_dry k l :
  emits region k k (delete_nat_gateways (W:=W) true region l).
Proof.
  apply emits_when. apply emits_seq; [|lia|intros; apply emits_ret].
  apply emits_for. intros x. apply emits_ret.
Qed.

Lemma emits_delete_internet_gateways_dry k l :
  emits region k k (delete_internet_gateways (W:=W) true region l).
Proof. apply emits_when, emits_for. intros [igw vpc]. apply emits_ret. Qed.

Lemma emits_lift {A} lo hi (r : exc + A) : emits region lo hi (lift (W:=W) r).
Proof. destruct r; [apply emits_raise|apply emits_ret]. Qed.
End PhaseLemmas.

(** One step of a sequence [m ;; k]: [m] runs in the current phase, or
    the phase moves on. *)
Ltac emits_leaf :=
  first
    [ apply emits_ret | apply emits_sleep
    | apply emits_delete_nat_gateways | apply emits_delete_internet_gateways
    | apply emits_delete_all_dry | apply emits_delete_nat_gateways_dry
    | apply emits_delete_internet_gateways_dry
    | apply emits_when; emits_leaf
    | apply emits_delete_all; intros x; try destruct x; reflexivity ].

Ltac emits_chain :=
  repeat match goal with
  | |- emits _ ?lo ?hi (m_bind _ _) =>
      first [ apply (emits_seq _ lo hi); [emits_leaf|lia|intros _]
            | apply emits_bump; [lia|] ]
  | |- emits _ ?lo ?hi _ =>
      first [ emits_leaf | apply emits_bump; [lia|] ]
  end.

Section RegionOrder.
Context {W : Type} `{CloudApi W} (dry_run : bool) (region : string).

Lemma emits_delete_phases b igw_data :
  emits region 1 19 (delete_phases (W:=W) dry_run region b igw_data).
Proof.
  unfold delete_phases; unfold_deletes. cbv zeta. emits_chain.
Qed.

Lemma emits_process_region : emits region 0 19 (process_region (W:=W) dry_run region).
Proof.
  unfold process_region.
  apply emits_seq; [apply emits_get_tagged_resources|lia|intros resources].
  case_bool_decide; [apply emits_ret|].
  apply emits_seq; [apply emits_lift|lia|intros b].
  apply emits_seq; [apply emits_get_igw_vpc_mapping|lia|intros igw_data].
  eapply emits_mono; [apply emits_delete_phases|lia..].
Qed.
End RegionOrder.


Section DependencyOrder.
Context {W : Type} `{CloudApi W}.

(** C2: Dependency order.  Whatever AWS answers, and whether a region
    completes or ends in an exception, the calls [process_region] makes
    all go to its region and never issue a deletion after one that AWS
    requires to come later: no node group is deleted after its cluster,
    no subnet after its VPC, and so on ([must_precede]). *)
Theorem process_region_dependency_order dry_run region (s : st W) :
  ∃ new, trace (snd (process_region dry_run region s)) = trace s ++ new ∧
         dependency_ordered new ∧ calls_in region new.
Proof.
  destruct (emits_process_region dry_run region s) as (new & E & S & F).
  exists new. eauto using sorted_dependency_ordered, phases_calls_in.
Qed.
End DependencyOrder.

Section NodegroupWait.
Context {W : Type} `{CloudApi W}.

(** C32: The pause of lines 519-521 separates node groups from
    clusters.  In a live run with node groups to delete, when AWS answers
    the node-group deletions with at most a [ClientError],
    [delete_phases] first makes exactly one [DeleteNodegroup] call per
    node group, in list order, then sleeps 120 seconds, and every call
    after the pause is of a later phase (rank 2 or more): no node group
    is deleted after the pause and no cluster before it, whatever AWS
    answers afterwards and whether the later phases raise. *)
Theorem nodegroup_wait_before_clusters region b igw_data (s : st W) :
  eks_nodegroups b ≠ [] →
  Forall (λ '(cl, ng), client_errors_only region (DeleteNodegroup cl ng)) (eks_nodegroups b) →
  ∃ post,
    trace (snd (delete_phases false region b igw_data s)) =
      trace s ++ map (λ '(cl, ng), ECall region (DeleteNodegroup cl ng)) (eks_nodegroups b)
              ++ ESleep 120 :: post ∧
    Forall (in_phases region 2 19) post.
Proof.
  intros Hne Hok. unfold delete_phases, delete_eks_nodegroups at 1, delete_all at 1, m_when at 1.
  rewrite (bool_decide_eq_true_2 _ Hne).
  assert (Hok' : Forall (λ x, client_errors_only region ((λ '(cl, ng), DeleteNodegroup cl ng) x))
                  (eks_nodegroups b)) by (eapply Forall_impl; [exact Hok|]; by intros [??]).
  destruct (m_for_delete_live region (λ '(cl, ng), DeleteNodegroup cl ng) _ s Hok') as [w1 E1].
  rewrite (m_bind_ok _ _ _ _ _ E1). cbn [andb negb m_when].
  unfold m_bind at 1, sleep, m_modify. cbn [fst snd trace world].
  match goal with
  | |- context [trace (snd (?m ?s2))] =>
      assert (Hr : emits region 2 19 m) by (unfold_deletes; cbv zeta; emits_chain);
      destruct (Hr s2) as (post & Ep & _ & F)
  end.
  exists post. split; [|done]. rewrite Ep. cbn [trace]. rewrite <- !app_assoc.
  do 2 f_equal. apply map_ext. by intros [??].
Qed.
End NodegroupWait.

Lemma nodegroup_wait_before_clusters_witness :
  ∃ post,
    trace (snd (delete_phases false "us-east-1"
                  {| eks_nodegroups := [("xelta-dev", "ng-1")]; by_category := λ _, [] |} []
                  (start sample_world))) =
      [] ++ map (λ '(cl, ng), ECall "us-east-1" (DeleteNodegroup cl ng)) [("xelta-dev", "ng-1")]
         ++ ESleep 120 :: post ∧
    Forall (in_phases "us-east-1" 2 19) post.
Proof.
  apply (nodegroup_wait_before_clusters "us-east-1"
           {| eks_nodegroups := [("xelta-dev", "ng-1")]; by_category := λ _, [] |} []
           (start sample_world)); [done|].
  repeat constructor; intros w; exact I.
Defined.

(** ** A region that stops at the ElastiCache clusters *)

Section Aborts.
Context {W : Type} `{CloudApi W} (region : string).

Lemma aborts_bump {A} lo lo' hi (m : M (st W) A) :
  lo ≤ lo' → aborts region lo' hi m → aborts region lo hi m.
Proof.
  intros Hle Hm s. destruct (Hm s) as (e & new & E & T & F). exists e, new.
  split_and!; [done|done|]. eapply Forall_impl; [done|]. intros ev Hev. eapply in_phases_mono; [done|lia..].
Qed.

Lemma aborts_bind_l {A B} lo hi (m : M (st W) A) (k : A → M (st W) B) :
  aborts region lo hi m → aborts region lo hi (m_bind m k).
Proof.
  intros Hm s. destruct (Hm s) as (e & new & E & T & F). unfold m_bind.
  destruct (m s) as [[e'|x] s'] eqn:Em; cbn in *; [|discriminate]. by exists e', new.
Qed.

Lemma aborts_seq {A B} lo hi (m : M (st W) A) (k : A → M (st W) B) :
  emits region lo lo m → (∀ x, aborts region lo hi (k x)) → lo ≤ hi →
  aborts region lo hi (m_bind m k).
Proof.
  intros Hm Hk Hle s. destruct (Hm s) as (n1 & E1 & _ & F1). unfold m_bind.
  assert (F1' : Forall (in_phases region lo hi) n1)
    by (eapply Forall_impl; [done|]; intros ev Hev; eapply in_phases_mono; [done|lia..]).
  destruct (m s) as [[e|x] s'] eqn:Em; cbn in *; [by exists e, n1|].
  destruct (Hk x s') as (e & n2 & E2 & T2 & F2). exists e, (n1 ++ n2).
  rewrite T2, E1, app_assoc. split_and!; [done|done|]. by apply Forall_app.
Qed.

Lemma delete_one_raises c (s : st W) w' e :
  respond (world s) region c = (w', inl e) → is_client_error e = false →
  delete_one false region c s = (inl e, mk_st w' (trace s ++ [ECall region c])).
Proof. intros Ew Hc. unfold delete_one, m_when, try_client, m_try, m_bind, aws. cbn. rewrite Ew. cbn. by rewrite Hc. Qed.

(** The first [delete_cache_cluster] raises what botocore raises, and
    nothing catches it. *)
Lemma aborts_delete_elasticache_clusters l cc rest e :
  l = cc :: rest →
  (∀ w, ∃ w', respond w region (DeleteCacheCluster cc) = (w', inl e)) → is_client_error e = false →
  aborts region 4 4 (delete_elasticache_clusters (W:=W) false region l).
Proof.
  intros -> Hr Hc s. destruct (Hr (world s)) as [w' Ew].
  assert (E : delete_elasticache_clusters (W:=W) false region (cc :: rest) s =
              (inl e, mk_st w' (trace s ++ [ECall region (DeleteCacheCluster cc)]))).
  { unfold delete_elasticache_clusters, delete_all. rewrite bool_decide_eq_true_2 by done.
    cbn [m_when m_for]. unfold m_bind. by rewrite (delete_one_raises _ _ _ _ Ew Hc). }
  exists e, [ECall region (DeleteCacheCluster cc)]. rewrite E.
  split_and!; [done|done|]. repeat constructor; cbn; lia.
Qed.
End Aborts.

Section CacheAbort.
Context {W : Type} `{CloudApi W}.

(** C18: The ElastiCache finding, in general.  In a live run, when AWS
    (botocore) answers the [delete_cache_cluster] of the first
    ElastiCache cluster with an exception that is not a [ClientError] (as
    it does for [FinalSnapshotIdentifier=None], a [ParamValidationError]),
    [delete_phases] raises, and the calls it made are all of the first
    four ranks (node groups, EKS clusters, replication groups, cache
    clusters): no RDS cluster, load balancer, target group, NAT gateway,
    internet gateway, subnet, route table, security group, VPC, launch
    template or group of the region is ever deleted. *)
Theorem cache_cluster_error_aborts_phases region b igw_data cc rest e (s : st W) :
  by_category b elasticache_clusters = cc :: rest →
  (∀ w, ∃ w', respond w region (DeleteCacheCluster cc) = (w', inl e)) →
  is_client_error e = false →
  ∃ e' new, fst (delete_phases false region b igw_data s) = inl e' ∧
    trace (snd (delete_phases false region b igw_data s)) = trace s ++ new ∧
    Forall (in_phases region 1 4) new.
Proof.
  intros Hb Hr Hc. revert s. change (aborts region 1 4 (delete_phases (W:=W) false region b igw_data)).
  unfold delete_phases, delete_eks_nodegroups, delete_eks_clusters,
    delete_elasticache_replication_groups. cbv zeta.
  apply aborts_seq; [emits_leaf|intros _|lia].
  apply aborts_seq; [emits_leaf|intros _|lia].
  apply (aborts_bump _ 1 2); [lia|]. apply aborts_seq; [emits_leaf|intros _|lia].
  apply aborts_seq; [emits_leaf|intros _|lia].
  apply (aborts_bump _ 2 3); [lia|]. apply aborts_seq; [emits_leaf|intros _|lia].
  apply (aborts_bump _ 3 4); [lia|]. apply aborts_bind_l.
  by eapply aborts_delete_elasticache_clusters.
Qed.
End CacheAbort.

Lemma cache_cluster_error_aborts_phases_witness :
  by_category {| eks_nodegroups := [];
                 by_category := λ c, if decide (c = elasticache_clusters)
                                     then ["xelta-dev-redis"] else [] |} elasticache_clusters
    = ["xelta-dev-redis"] ∧
  ∃ e' new,
    fst (delete_phases false "us-east-1"
           {| eks_nodegroups := [];
              by_category := λ c, if decide (c = elasticache_clusters)
                                  then ["xelta-dev-redis"] else [] |} [] (start sample_world)) = inl e' ∧
    trace (snd (delete_phases false "us-east-1"
           {| eks_nodegroups := [];
              by_category := λ c, if decide (c = elasticache_clusters)
                                  then ["xelta-dev-redis"] else [] |} [] (start sample_world))) =
      [] ++ new ∧
    Forall (in_phases "us-east-1" 1 4) new.
Proof.
  split; [reflexivity|].
  apply (cache_cluster_error_aborts_phases "us-east-1" _ [] "xelta-dev-redis" []
           (OtherError "ParamValidationError") (start sample_world)); [reflexivity| |reflexivity].
  intros w. exists w. reflexivity.
Defined.
