(* ===== verification/Run.v ===== *)
(** [main] of [src/scripts/cleanup.py] (lines 564-594): the
    confirmation (with the [EOFError] of [input()] and the [SystemExit]
    of [sys.exit(0)], which escape [main]) and the loop over the regions with its [except
    Exception], and the entry point of lines 596-597 ([run_as_script]);
    and the run of the script as a whole: the pauses of
    [process_region] (lines 519-539 and 194), what [DRY_RUN] leaves out,
    and the sample run that shows the ElastiCache finding.

    [sleeps_within d m] is the invariant of a computation that pauses at
    most [d] seconds in all, whatever AWS answers; it composes like
    [Ordering.emits]. *)

From stdpp Require Import base list strings sets sorting.
From S2P Require Import Prelude Classify Api SimCloud Deletion Discovery Region Ordering.

Local Open Scope cleanup_scope.

(** The seconds of [time.sleep] in a trace. *)
Definition sleep_total (new : list event) : nat :=
  sum_list_with (λ e, match e with ESleep n => n | ECall _ _ => 0 end) new.

Section Main.
Context {W : Type} `{CloudApi W} (dry_run : bool).

(** Lines 583-590: [for region in REGIONS: try: process_region(region)
    except Exception: continue]. *)
Definition process_regions (regions : list string) : M (st W) unit :=
  m_for regions (λ region, m_try is_exception (process_region dry_run region) (λ _, m_ret tt)).

(** Lines 564-590.  [answer] is what [input()] reads in live mode, [None]
    at the end of the input, where [input()] raises [EOFError]; a wrong
    answer raises [SystemExit] through [sys.exit(0)].  Both happen before
    any call, outside the [try] of the loop. *)
Definition main (answer : option string) : M (st W) unit :=
  if dry_run then process_regions REGIONS
  else match answer with
       | None => m_raise EOFError
       | Some response =>
           if bool_decide (response = "DELETE") then process_regions REGIONS
           else m_raise (SystemExit 0)
       end.
End Main.

(** Lines 596-597: [if __name__ == "__main__": main()], run with the
    configured [DRY_RUN]; [answer] is what [input] reads. *)
Definition run_as_script {W} `{CloudApi W} (answer : option string) : M (st W) unit :=
  main DRY_RUN answer.

(** The calls that change nothing: those of discovery. *)
Definition read_only (c : call) : bool :=
  match c with GetResources _ _ _ | DescribeInternetGateways _ => true | _ => false end.

(** What the run of one region leaves in the trace: calls to that region
    only, in dependency order, and at most [390] seconds of pauses
    ([120 + 120 + 60 + 30 + 60]), none in a dry run. *)
Definition region_run (dry_run : bool) (region : string) (new : list event) : Prop :=
  dependency_ordered new ∧ calls_in region new ∧
  sleep_total new ≤ (if dry_run then 0 else 390).

Section Sleeps.
Context {W : Type} `{CloudApi W}.

Definition sleeps_within {A} (d : nat) (m : M (st W) A) : Prop :=
  extends (λ new, sleep_total new ≤ d) m.
End Sleeps.

Lemma sleep_total_app n1 n2 : sleep_total (n1 ++ n2) = sleep_total n1 + sleep_total n2.
Proof. apply sum_list_with_app. Qed.

Section SleepLemmas.
Context {W : Type} `{CloudApi W}.

Lemma sw_mono {A} d d' (m : M (st W) A) : sleeps_within d m → d ≤ d' → sleeps_within d' m.
Proof. intros Hm ?. eapply ext_impl; [|exact Hm]. cbn. lia. Qed.

Lemma sw_ret {A} d (x : A) : sleeps_within d (m_ret (σ := st W) x).
Proof. apply ext_ret. cbn. lia. Qed.

Lemma sw_raise {A} d e : sleeps_within d (m_raise (σ := st W) (A:=A) e).
Proof. apply ext_raise. cbn. lia. Qed.

Lemma sw_sleep n : sleeps_within n (sleep (W:=W) n).
Proof. apply ext_sleep. cbn. lia. Qed.

Lemma sw_aws d region c : sleeps_within d (aws (W:=W) region c).
Proof. apply ext_aws. cbn. lia. Qed.

Lemma sw_bind {A B} d1 d2 (m : M (st W) A) (k : A → M (st W) B) :
  sleeps_within d1 m → (∀ x, sleeps_within d2 (k x)) → sleeps_within (d1 + d2) (m_bind m k).
Proof.
  intros Hm Hk. eapply ext_bind; [exact Hm|exact Hk|cbn; lia|]. cbn. intros. rewrite sleep_total_app. lia.
Qed.

Lemma sw_try {A} p d1 d2 (m : M (st W) A) (h : exc → M (st W) A) :
  sleeps_within d1 m → (∀ e, sleeps_within d2 (h e)) → sleeps_within (d1 + d2) (m_try p m h).
Proof.
  intros Hm Hh. eapply ext_try; [exact Hm|exact Hh|cbn; lia|]. cbn. intros. rewrite sleep_total_app. lia.
Qed.

Lemma sw_when d b (m : M (st W) unit) : sleeps_within d m → sleeps_within d (m_when b m).
Proof. destruct b; [done|apply sw_ret]. Qed.

Lemma sw_for {A} (l : list A) (body : A → M (st W) unit) :
  (∀ x, sleeps_within 0 (body x)) → sleeps_within 0 (m_for l body).
Proof.
  intros Hb. induction l as [|x l IH]; [apply sw_ret|].
  apply (sw_bind 0 0); [apply Hb|done].
Qed.
End SleepLemmas.

(** ** The pauses of each function *)

Section SleepBounds.
Context {W : Type} `{CloudApi W} (dry_run : bool) (region : string).

Lemma sw_when_sleep (b : bool) (n : nat) : sleeps_within (if b then n else 0) (m_when b (sleep (W:=W) n)).
Proof. destruct b; [apply sw_sleep|apply sw_ret]. Qed.

Lemma sw_delete_one c : sleeps_within 0 (delete_one (W:=W) dry_run region c).
Proof.
  apply sw_when. apply (sw_try _ 0 0); [|intros; apply sw_ret].
  apply (sw_bind 0 0); [apply sw_aws|intros; apply sw_ret].
Qed.

Lemma sw_delete_all {A} (mk : A → call) items :
  sleeps_within 0 (delete_all (W:=W) dry_run region mk items).
Proof. apply sw_when, sw_for. intros. apply sw_delete_one. Qed.

Lemma sw_delete_nat_gateways l :
  sleeps_within (if dry_run then 0 else 60) (delete_nat_gateways (W:=W) dry_run region l).
Proof.
  apply sw_when. apply (sw_bind 0); [apply sw_for; intros; apply sw_delete_one|intros].
  destruct dry_run; cbn; [apply sw_ret|apply sw_when, sw_sleep].
Qed.

Lemma sw_delete_internet_gateways l :
  sleeps_within 0 (delete_internet_gateways (W:=W) dry_run region l).
Proof.
  apply sw_when, sw_for. intros [igw vpc]. apply sw_when.
  apply (sw_try _ 0 0); [|intros; apply sw_ret].
  apply (sw_bind 0 0); [apply sw_aws|intros].
  apply (sw_bind 0 0); [apply sw_aws|intros; apply sw_ret].
Qed.

Lemma sw_paginate fuel key value token :
  sleeps_within 0 (paginate (W:=W) fuel region key value token).
Proof.
  revert token. induction fuel as [|f IH]; intros token; [apply sw_raise|].
  apply (sw_try _ 0 0); [|intros; apply sw_ret].
  apply (sw_bind 0 0); [apply sw_aws|].
  intros [|arns [t|]|]; try apply sw_raise; try apply sw_ret.
  apply (sw_bind 0 0); [apply IH|intros; apply sw_ret].
Qed.

Lemma sw_get_tagged_resources : sleeps_within 0 (get_tagged_resources (W:=W) region).
Proof.
  unfold get_tagged_resources. induction TAG_VALUES as [|v vs IH]; [apply sw_ret|].
  apply (sw_bind 0 0); [apply sw_paginate|intros].
  apply (sw_bind 0 0); [apply IH|intros; apply sw_ret].
Qed.

Lemma sw_get_igw_vpc_mapping ids : sleeps_within 0 (get_igw_vpc_mapping (W:=W) region ids).
Proof.
  unfold get_igw_vpc_mapping. case_bool_decide; [apply sw_ret|].
  apply (sw_try _ 0 0); [|intros; apply sw_ret].
  apply (sw_bind 0 0); [apply sw_aws|].
  intros []; [apply sw_raise..|apply sw_ret].
Qed.
End SleepBounds.

Ltac sw_leaf :=
  first [ apply sw_ret | apply sw_when_sleep | apply sw_delete_all
        | apply sw_delete_nat_gateways | apply sw_delete_internet_gateways ].

Ltac sw_chain := repeat first [ eapply sw_bind; [sw_leaf|intros _] | sw_leaf ].

Section RegionSleeps.
Context {W : Type} `{CloudApi W}.

Lemma sw_delete_phases (dry_run : bool) region b igw_data :
  sleeps_within (if dry_run then 0 else 390) (delete_phases (W:=W) dry_run region b igw_data).
Proof.
  eapply sw_mono.
  - unfold delete_phases; unfold_deletes. cbv zeta. sw_chain.
  - destruct dry_run; cbn; repeat case_match; lia.
Qed.

Lemma sw_process_region (dry_run : bool) region :
  sleeps_within (if dry_run then 0 else 390) (process_region (W:=W) dry_run region).
Proof.
  unfold process_region. apply (sw_bind 0); [apply sw_get_tagged_resources|intros rs].
  case_bool_decide; [apply sw_ret|].
  apply (sw_bind 0); [destruct (categorize rs); [apply sw_raise|apply sw_ret]|intros b].
  apply (sw_bind 0); [apply sw_get_igw_vpc_mapping|intros; apply sw_delete_phases].
Qed.
End RegionSleeps.

Lemma phase_read_only c : phase c ≤ 0 → read_only c = true.
Proof. destruct c; cbn; lia || done. Qed.

Section RegionRuns.
Context {W : Type} `{CloudApi W}.

Lemma emits_process_region_dry region : emits region 0 0 (process_region (W:=W) true region).
Proof.
  unfold process_region.
  apply emits_seq; [apply emits_get_tagged_resources|lia|intros resources].
  case_bool_decide; [apply emits_ret|].
  apply emits_seq; [apply emits_lift|lia|intros b].
  apply emits_seq; [apply emits_get_igw_vpc_mapping|lia|intros igw_data].
  unfold delete_phases; unfold_deletes. cbv zeta. emits_chain.
Qed.

(** The one trace extension [m] makes satisfies what [emits] and
    [sleeps_within] say of it. *)
Lemma emits_sleeps {A} region lo hi d (m : M (st W) A) s :
  emits region lo hi m → sleeps_within d m →
  ∃ new, trace (snd (m s)) = trace s ++ new ∧ StronglySorted ev_le new ∧
         Forall (in_phases region lo hi) new ∧ sleep_total new ≤ d.
Proof.
  intros He Hs. destruct (He s) as (n1 & E1 & S1 & F1), (Hs s) as (n2 & E2 & T2).
  rewrite E1 in E2. apply app_inv_head in E2 as <-. eauto.
Qed.

Lemma process_region_run dry_run region (s : st W) :
  ∃ new, trace (snd (process_region dry_run region s)) = trace s ++ new ∧
         region_run dry_run region new.
Proof.
  destruct (emits_sleeps region 0 19 _ _ s (emits_process_region dry_run region)
              (sw_process_region dry_run region)) as (new & E & S & F & T).
  exists new. split; [done|]. split_and!; eauto using sorted_dependency_ordered, phases_calls_in.
Qed.

Lemma process_regions_cons dry_run r rs (s : st W) :
  process_regions dry_run (r :: rs) s = process_regions dry_run rs (snd (process_region dry_run r s)).
Proof.
  cbn [process_regions m_for]. unfold m_bind at 1.
  rewrite m_try_exception_unit; [done|]. apply ne_process_region.
Qed.

Lemma process_regions_run dry_run regions (s : st W) :
  fst (process_regions dry_run regions s) = inr tt ∧
  ∃ ns, trace (snd (process_regions dry_run regions s)) = trace s ++ concat ns ∧
        Forall2 (region_run dry_run) regions ns.
Proof.
  revert s. induction regions as [|r rs IH]; intros s.
  - split; [done|]. exists []. by rewrite app_nil_r.
  - rewrite process_regions_cons.
    destruct (process_region_run dry_run r s) as (n & E & Hn).
    destruct (IH (snd (process_region dry_run r s))) as (Hok & ns & Ens & Hns).
    split; [done|]. exists (n :: ns). rewrite Ens, E, <- app_assoc. by split; [|constructor].
Qed.

(** With [DRY_RUN] set, [process_region] makes only read-only calls to
    its region and never pauses. *)
Lemma process_region_dry region (s : st W) :
  ∃ new, trace (snd (process_region true region s)) = trace s ++ new ∧
         Forall (λ e, ∀ r c, e = ECall r c → r = region ∧ read_only c = true) new ∧
         sleep_total new = 0.
Proof.
  destruct (emits_sleeps region 0 0 0 _ s (emits_process_region_dry region)
              (sw_process_region true region)) as (new & E & _ & F & T).
  exists new. split_and!; [done| |lia].
  eapply Forall_impl; [done|]. intros e He r c ->. destruct He as [-> Hp].
  split; [done|]. apply phase_read_only. lia.
Qed.

Lemma process_regions_dry regions (s : st W) :
  ∃ new, trace (snd (process_regions true regions s)) = trace s ++ new ∧
         Forall (λ e, ∀ r c, e = ECall r c → r ∈ regions ∧ read_only c = true) new ∧
         sleep_total new = 0.
Proof.
  revert s. induction regions as [|r rs IH]; intros s.
  - exists []. rewrite app_nil_r. by repeat constructor.
  - rewrite process_regions_cons.
    destruct (process_region_dry r s) as (n1 & E1 & F1 & T1).
    destruct (IH (snd (process_region true r s))) as (n2 & E2 & F2 & T2).
    exists (n1 ++ n2). rewrite E2, E1, <- app_assoc. split_and!; [done| |].
    + apply Forall_app. split; (eapply Forall_impl; [done|]);
        intros e He r' c ->; destruct (He r' c eq_refl); split; set_solver.
    + rewrite sleep_total_app. lia.
Qed.

(** Past the confirmation, [main] is the loop over [REGIONS]. *)
Lemma main_confirmed dry_run answer (s : st W) :
  (dry_run = true ∨ answer = Some "DELETE") →
  main dry_run answer s = process_regions dry_run REGIONS s.
Proof.
  intros [->| ->]; unfold main; [done|]. destruct dry_run; [done|]. by rewrite bool_decide_eq_true_2.
Qed.

(** C12: Dry run: with [DRY_RUN] set, [main] asks for no confirmation
    and, whatever is typed, makes only the read-only calls of discovery
    ([get_resources] and [describe_internet_gateways]) in the regions of
    [REGIONS], and never pauses: nothing is deleted. *)
Theorem main_dry_run_read_only answer (s : st W) :
  ∃ new, trace (snd (main true answer s)) = trace s ++ new ∧
         Forall (λ e, ∀ r c, e = ECall r c → r ∈ REGIONS ∧ read_only c = true) new ∧
         sleep_total new = 0.
Proof. apply process_regions_dry. Qed.

(** C13: The whole run: once [main] goes past the confirmation (a dry
    run, or [DELETE] typed in live mode), it returns normally, since its
    [except Exception] catches whatever a region raises, and its trace
    is one run per region of [REGIONS], in order, each with calls to
    that region only, in dependency order, and at most 390 seconds of
    pauses (none in a dry run). *)
Theorem main_runs_regions dry_run answer (s : st W) :
  (dry_run = true ∨ answer = Some "DELETE") →
  fst (main dry_run answer s) = inr tt ∧
  ∃ ns, trace (snd (main dry_run answer s)) = trace s ++ concat ns ∧
        Forall2 (region_run dry_run) REGIONS ns.
Proof.
  intros Hc. rewrite (main_confirmed dry_run answer s Hc). apply process_regions_run.
Qed.

(** C14: Confirmation: in live mode, an answer other than [DELETE] ends
    the script with [sys.exit(0)], and the end of the input ends it with
    the [EOFError] of [input()]; both escape [main] (they are raised
    before its [try]), before any call, with the world and the trace
    unchanged. *)
Theorem main_aborts_without_confirmation answer (s : st W) :
  answer ≠ Some "DELETE" →
  main false answer s = (inl (if answer then SystemExit 0 else EOFError), s).
Proof.
  intros Ha. unfold main. destruct answer as [a|]; [|done].
  rewrite bool_decide_eq_false_2 by congruence. done.
Qed.

(** C15: Region isolation: after the confirmation, [main] runs
    [process_region] on [us-east-1], [eu-central-1] and [ap-south-1] in
    this order, each from the state the previous one left, whether that
    one returned or raised. *)
Theorem main_runs_regions_in_sequence dry_run answer (s : st W) :
  (dry_run = true ∨ answer = Some "DELETE") →
  main dry_run answer s =
    (inr tt, snd (process_region dry_run "ap-south-1"
               (snd (process_region dry_run "eu-central-1"
                 (snd (process_region dry_run "us-east-1" s)))))).
Proof.
  intros Hc. rewrite (main_confirmed dry_run answer s Hc).
  unfold REGIONS. rewrite !process_regions_cons. reflexivity.
Qed.
End RegionRuns.

(** The ElastiCache finding on the sample environment of
    [SimCloud] ([Ordering.cache_cluster_error_aborts_phases] in general): in live mode [main] runs to its end, but in [us-east-1]
    [process_region] stops at [delete_cache_cluster], whose
    [FinalSnapshotIdentifier=None] botocore rejects with a
    [ParamValidationError]: no NAT gateway, internet gateway, subnet or
    VPC deletion is ever sent, and every tagged resource of the region is
    left in place. *)
Example cache_cluster_aborts_region :
  fst (main false (Some "DELETE") (start sample_world)) = inr tt ∧
  ECall "us-east-1" (DeleteCacheCluster "xelta-dev-redis") ∈
    trace (snd (main false (Some "DELETE") (start sample_world))) ∧
  forallb (λ e, match e with
                | ECall _ (DeleteNatGateway _ | DetachInternetGateway _ _ | DeleteInternetGateway _
                           | DeleteSubnet _ | DeleteVpc _) => false
                | _ => true
                end) (trace (snd (main false (Some "DELETE") (start sample_world)))) = true ∧
  region_arns (world (snd (main false (Some "DELETE") (start sample_world)))) "us-east-1" =
    region_arns sample_world "us-east-1".
Proof.
  split_and!; [vm_compute; reflexivity| |vm_compute; reflexivity..].
  apply list_elem_of_In. vm_compute. tauto.
Qed.

Lemma main_aborts_without_confirmation_witness :
  Some "no" ≠ Some "DELETE" ∧
  main false (Some "no") (start sample_world) = (inl (SystemExit 0), start sample_world).
Proof.
  assert (Ha : Some "no" ≠ Some "DELETE") by discriminate.
  split; [exact Ha|]. exact (main_aborts_without_confirmation (Some "no") (start sample_world) Ha).
Defined.

Lemma main_runs_regions_witness :
  (false = true ∨ Some "DELETE" = Some "DELETE") ∧
  fst (main false (Some "DELETE") (start sample_world)) = inr tt.
Proof.
  assert (Hc : false = true ∨ Some "DELETE" = Some "DELETE") by (right; reflexivity).
  split; [exact Hc|]. exact (proj1 (main_runs_regions false (Some "DELETE") (start sample_world) Hc)).
Defined.

Lemma main_runs_regions_in_sequence_witness :
  (false = true ∨ Some "DELETE" = Some "DELETE") ∧
  main false (Some "DELETE") (start sample_world) =
    (inr tt, snd (process_region false "ap-south-1"
               (snd (process_region false "eu-central-1"
                 (snd (process_region false "us-east-1" (start sample_world))))))).
Proof.
  assert (Hc : false = true ∨ Some "DELETE" = Some "DELETE") by (right; reflexivity).
  split; [exact Hc|]. exact (main_runs_regions_in_sequence false (Some "DELETE") (start sample_world) Hc).
Defined.
