(* ===== verification/RegionLoop.v ===== *)
(** The loop of [main] over the regions ([src/scripts/cleanup.py], lines
    583-590) as a transition system.

    A configuration is the list of regions still to process and the
    state of the run.  [loop_step] has one rule per branch of the body:
    [process_region(region)] returns ([ls_ok]), or raises an
    [Exception] and the [except Exception] logs it and continues
    ([ls_exc]).  Either way the next region starts from the state the
    previous one left.  The theorem: every reachable configuration
    satisfies the invariant [loop_inv] (the trace so far is one
    well-ordered, pause-bounded run per region already processed, and
    those regions are a prefix of the list). *)

From stdpp Require Import base list strings relations.
From S2P Require Import Prelude Classify Api SimCloud Deletion Discovery Region Ordering Run.

Local Open Scope cleanup_scope.

Section Loop.
Context {W : Type} `{CloudApi W} (dry_run : bool).

Inductive loop_step : list string * st W → list string * st W → Prop :=
| ls_ok r rs s s' :
    process_region dry_run r s = (inr tt, s') → loop_step (r :: rs, s) (rs, s')
| ls_exc r rs s e s' :
    process_region dry_run r s = (inl e, s') → is_exception e = true →
    loop_step (r :: rs, s) (rs, s').

(** The regions [regions0] were to be processed from [s0]; in
    configuration [(rs, s)] the ones before [rs] are done, and the trace
    since [s0] is one run per done region, in order, each with calls to
    its region only, in dependency order, within the pause bound. *)
Definition loop_inv (regions0 : list string) (s0 : st W) (cfg : list string * st W) : Prop :=
  ∃ done ns, regions0 = done ++ cfg.1 ∧ trace cfg.2 = trace s0 ++ concat ns ∧
             Forall2 (region_run dry_run) done ns.
End Loop.

Section LoopLemmas.
Context {W : Type} `{CloudApi W} (dry_run : bool).

(** A step processes the first region, from where the state was. *)
Lemma loop_step_inv r rs (s : st W) cfg :
  loop_step dry_run (r :: rs, s) cfg ↔ cfg = (rs, snd (process_region dry_run r s)).
Proof.
  split.
  - inversion 1 as [? ? ? ? E|? ? ? ? ? E]; subst; by rewrite E.
  - intros ->. destruct (process_region dry_run r s) as [[e|[]] s'] eqn:E.
    + eapply ls_exc; [done|]. apply (ne_process_region dry_run r s). by rewrite E.
    + by eapply ls_ok.
Qed.

Lemma loop_final_stuck (s : st W) cfg : ¬ loop_step dry_run ([], s) cfg.
Proof. inversion 1. Qed.

Lemma loop_runs regions (s : st W) :
  nsteps (loop_step dry_run) (length regions) (regions, s)
         ([], snd (process_regions dry_run regions s)).
Proof.
  revert s. induction regions as [|r rs IH]; intros s; [constructor|].
  rewrite process_regions_cons. econstructor; [by apply loop_step_inv|apply IH].
Qed.

Lemma loop_inv_step regions0 (s0 : st W) cfg cfg' :
  loop_inv dry_run regions0 s0 cfg → loop_step dry_run cfg cfg' → loop_inv dry_run regions0 s0 cfg'.
Proof.
  intros (done & ns & Hr & Ht & Hd) Hs. destruct cfg as [[|r rs] s]; [by apply loop_final_stuck in Hs|].
  apply loop_step_inv in Hs as ->. cbn in *.
  destruct (process_region_run dry_run r s) as (new & E & Hn).
  exists (done ++ [r]), (ns ++ [new]). cbn. split_and!.
  - by rewrite Hr, <- app_assoc.
  - by rewrite E, Ht, concat_app, <- app_assoc, concat_cons, concat_nil, app_nil_r.
  - apply Forall2_app; [done|by constructor].
Qed.
End LoopLemmas.

Section LoopTheorems.
Context {W : Type} `{CloudApi W} (dry_run : bool).

(** C26: Invariant of the region loop: in every configuration reachable
    from [(regions0, s0)], the regions already processed are a prefix of
    [regions0], and the trace since [s0] is one run per processed region,
    in order, each with calls to that region only, in dependency order
    and within the pause bound. *)
Theorem loop_inv_reachable regions0 (s0 : st W) cfg :
  rtc (loop_step dry_run) (regions0, s0) cfg → loop_inv dry_run regions0 s0 cfg.
Proof.
  revert cfg. apply (rtc_ind_r (loop_inv dry_run regions0 s0)).
  - exists [], []. cbn. by rewrite app_nil_r.
  - intros cfg cfg' _ Hs IH. by eapply loop_inv_step.
Qed.

End LoopTheorems.

Lemma loop_inv_reachable_witness :
  rtc (loop_step false) (REGIONS, start sample_world)
      ([], snd (process_regions false REGIONS (start sample_world))) ∧
  loop_inv false REGIONS (start sample_world)
      ([], snd (process_regions false REGIONS (start sample_world))).
Proof.
  assert (Hr : rtc (loop_step false) (REGIONS, start sample_world)
                   ([], snd (process_regions false REGIONS (start sample_world))))
    by (eapply rtc_nsteps_2, loop_runs).
  split; [exact Hr|]. exact (loop_inv_reachable false _ _ _ Hr).
Defined.
