(* ===== verification/Bounds.v ===== *)
(** Bounds on the number of AWS calls of a run of
    [src/scripts/cleanup.py].

    [call_count] counts the calls of a trace; [calls_at_most n m] (an
    instance of [Api.extends]) says that [m] makes at most [n] calls,
    whatever AWS answers.  The deletion phases make at most one call per
    classified item and two per internet gateway (detach, delete). *)

From stdpp Require Import base list strings.
From S2P Require Import Prelude Classify Api Deletion Discovery Region Ordering.

Local Open Scope cleanup_scope.

(** The number of AWS calls in a trace. *)
Definition call_count (new : list event) : nat :=
  sum_list_with (λ e, match e with ECall _ _ => 1 | ESleep _ => 0 end) new.

Section Count.
Context {W : Type} `{CloudApi W}.

Definition calls_at_most {A} (n : nat) (m : M (st W) A) : Prop :=
  extends (λ new, call_count new ≤ n) m.
End Count.

Lemma call_count_app n1 n2 : call_count (n1 ++ n2) = call_count n1 + call_count n2.
Proof. apply sum_list_with_app. Qed.

Section CountLemmas.
Context {W : Type} `{CloudApi W}.

Lemma ca_mono {A} n n' (m : M (st W) A) : calls_at_most n m → n ≤ n' → calls_at_most n' m.
Proof. intros Hm ?. eapply ext_impl; [|exact Hm]. cbn. lia. Qed.

Lemma ca_ret {A} n (x : A) : calls_at_most n (m_ret (σ := st W) x).
Proof. apply ext_ret. cbn. lia. Qed.

Lemma ca_raise {A} n e : calls_at_most n (m_raise (σ := st W) (A:=A) e).
Proof. apply ext_raise. cbn. lia. Qed.

Lemma ca_sleep k : calls_at_most 0 (sleep (W:=W) k).
Proof. apply ext_sleep. cbn. lia. Qed.

Lemma ca_aws region c : calls_at_most 1 (aws (W:=W) region c).
Proof. apply ext_aws. cbn. lia. Qed.

Lemma ca_bind {A B} n1 n2 (m : M (st W) A) (k : A → M (st W) B) :
  calls_at_most n1 m → (∀ x, calls_at_most n2 (k x)) → calls_at_most (n1 + n2) (m_bind m k).
Proof.
  intros Hm Hk. eapply ext_bind; [exact Hm|exact Hk|cbn; lia|]. cbn. intros. rewrite call_count_app. lia.
Qed.

Lemma ca_try {A} p n1 n2 (m : M (st W) A) (h : exc → M (st W) A) :
  calls_at_most n1 m → (∀ e, calls_at_most n2 (h e)) → calls_at_most (n1 + n2) (m_try p m h).
Proof.
  intros Hm Hh. eapply ext_try; [exact Hm|exact Hh|cbn; lia|]. cbn. intros. rewrite call_count_app. lia.
Qed.

Lemma ca_when n b (m : M (st W) unit) : calls_at_most n m → calls_at_most n (m_when b m).
Proof. intros. apply ext_when; [cbn; lia|done]. Qed.

Lemma ca_for {A} k (l : list A) (body : A → M (st W) unit) :
  (∀ x, calls_at_most k (body x)) → calls_at_most (k * length l) (m_for l body).
Proof.
  intros Hb. induction l as [|x l IH]; [apply ca_ret|].
  eapply ca_mono; [apply (ca_bind k); [apply Hb|intros; apply IH]|]. cbn. lia.
Qed.
End CountLemmas.

Section FunctionBounds.
Context {W : Type} `{CloudApi W} (dry_run : bool) (region : string).

Lemma ca_delete_one c : calls_at_most 1 (delete_one (W:=W) dry_run region c).
Proof.
  apply ca_when. eapply ca_mono; [apply (ca_try _ 1 0); [|intros; apply ca_ret]|lia].
  eapply ca_mono; [apply (ca_bind 1 0); [apply ca_aws|intros; apply ca_ret]|lia].
Qed.

Lemma ca_delete_all {A} (mk : A → call) items :
  calls_at_most (length items) (delete_all (W:=W) dry_run region mk items).
Proof.
  apply ca_when. eapply ca_mono; [apply ca_for; intros; apply ca_delete_one|lia].
Qed.

Lemma ca_delete_nat_gateways l :
  calls_at_most (length l) (delete_nat_gateways (W:=W) dry_run region l).
Proof.
  apply ca_when. eapply ca_mono;
    [apply ca_bind; [apply ca_for; intros; apply ca_delete_one|intros; apply ca_when, ca_sleep]|lia].
Qed.

Lemma ca_delete_internet_gateways l :
  calls_at_most (2 * length l) (delete_internet_gateways (W:=W) dry_run region l).
Proof.
  apply ca_when. eapply ca_mono; [apply (ca_for 2)|lia]. intros [g v]. apply ca_when.
  eapply ca_mono; [apply (ca_try _ 2 0); [|intros; apply ca_ret]|lia].
  apply (ca_bind 1 1); [apply ca_aws|intros].
  eapply ca_mono; [apply (ca_bind 1 0); [apply ca_aws|intros; apply ca_ret]|lia].
Qed.

End FunctionBounds.

Ltac ca_leaf :=
  first [ apply ca_ret | apply ca_when, ca_sleep | apply ca_delete_all
        | apply ca_delete_nat_gateways | apply ca_delete_internet_gateways ].

Ltac ca_chain := repeat first [ eapply ca_bind; [ca_leaf|intros _] | ca_leaf ].

Section Bounds.
Context {W : Type} `{CloudApi W}.

(** C27: The deletion phases are bounded: [delete_phases] makes at most
    one call per item of the lists and two per internet gateway (detach
    and delete), whatever AWS answers and in live or dry mode. *)
Theorem delete_phases_call_bound dry_run region b igw_data :
  calls_at_most (bucket_total b + 2 * length igw_data)
    (delete_phases (W:=W) dry_run region b igw_data).
Proof.
  eapply ca_mono.
  - unfold delete_phases; unfold_deletes. cbv zeta. ca_chain.
  - unfold bucket_total, all_categories. cbn [sum_list_with]. lia.
Qed.
End Bounds.
