(* ===== verification/Completeness.v ===== *)
(** Completeness of the deletion phases of [process_region]
    ([src/scripts/cleanup.py], lines 517-560): when AWS answers the calls
    of the phases with results or [ClientError]s, [delete_phases] runs to
    its end and asks for the deletion of every resource the
    classification filed, whatever the outcome of each request.

    [requested_calls b] lists the delete call of every item of the lists
    [b] (the internet gateways go through [get_igw_vpc_mapping] and are
    not in it); [live_runs req m] is the invariant of a computation that
    returns normally and makes every call of [req].  Composed with
    discovery and the classification, [process_region_deletes_classified]
    follows each listed ARN to its delete call. *)

From stdpp Require Import base list strings sets.
From S2P Require Import Prelude Classify Api SimCloud Deletion Discovery Region Ordering.

Local Open Scope cleanup_scope.

(** The delete call of an item of the list of category [c]. *)
Definition category_calls (c : category) (l : list string) : list call :=
  match c with
  | eks_clusters => DeleteCluster <$> l
  | elasticache_clusters => DeleteCacheCluster <$> l
  | elasticache_repl_groups => DeleteReplicationGroup <$> l
  | elasticache_snapshots => DeleteSnapshot <$> l
  | elasticache_param_groups => DeleteCacheParameterGroup <$> l
  | elasticache_subnet_groups => DeleteCacheSubnetGroup <$> l
  | rds_clusters => DeleteDbCluster <$> l
  | rds_param_groups => DeleteDbClusterParameterGroup <$> l
  | rds_subnet_groups => DeleteDbSubnetGroup <$> l
  | load_balancers => DeleteLoadBalancer <$> l
  | target_groups => DeleteTargetGroup <$> l
  | nat_gateways => DeleteNatGateway <$> l
  | internet_gateways => []
  | subnets => DeleteSubnet <$> l
  | route_tables => DeleteRouteTable <$> l
  | security_groups => DeleteSecurityGroup <$> l
  | vpcs => DeleteVpc <$> l
  | launch_templates => DeleteLaunchTemplate <$> l
  end.

Definition requested_calls (b : buckets) : list call :=
  ((λ '(cl, ng), DeleteNodegroup cl ng) <$> eks_nodegroups b) ++
  concat ((λ c, category_calls c (by_category b c)) <$> all_categories).

(** The calls of [delete_internet_gateways] when every detach succeeds. *)
Definition igw_calls (igw_data : list (string * string)) : list call :=
  concat ((λ '(g, v), [DetachInternetGateway g v; DeleteInternetGateway g]) <$> igw_data).

(** The lists of the sample ARNs of [Classify]: a node group, two
    subnets and a VPC. *)
Definition sample_buckets : buckets :=
  match categorize sample_resources with inr b => b | inl _ => empty_buckets end.

(** An environment of [us-east-1] without ElastiCache: a VPC with a
    subnet, a NAT gateway and an attached internet gateway; what
    discovery lists there, what the classification and the gateway
    lookup make of it. *)
Definition clean_world : sim :=
  mk_sim
    [("us-east-1", "arn:aws:ec2:us-east-1:123456789012:vpc/vpc-0a1");
     ("us-east-1", "arn:aws:ec2:us-east-1:123456789012:subnet/subnet-0b2");
     ("us-east-1", "arn:aws:ec2:us-east-1:123456789012:natgateway/nat-0c3");
     ("us-east-1", "arn:aws:ec2:us-east-1:123456789012:internet-gateway/igw-0d4")]
    [("us-east-1", "igw-0d4", "vpc-0a1")].

Definition clean_listing : (exc + list string) * st sim :=
  get_tagged_resources "us-east-1" (start clean_world).
Definition clean_arns : list string :=
  match fst clean_listing with inr rs => rs | inl _ => [] end.
Definition clean_buckets : buckets :=
  match categorize clean_arns with inr b => b | inl _ => empty_buckets end.
Definition clean_lookup : (exc + list (string * string)) * st sim :=
  get_igw_vpc_mapping "us-east-1" (by_category clean_buckets internet_gateways) (snd clean_listing).
Definition clean_igws : list (string * string) :=
  match fst clean_lookup with inr l => l | inl _ => [] end.

Section Live.
Context {W : Type} `{CloudApi W} (region : string).

Definition live_runs (req : list call) (m : M (st W) unit) : Prop :=
  ∀ s, ∃ w' new, m s = (inr tt, mk_st w' (trace s ++ new)) ∧
                 ∀ c, c ∈ req → ECall region c ∈ new.
End Live.

(** On [sim_api], every call but [delete_cache_cluster] ends in a
    result or a [ClientError]. *)
Lemma sim_client_errors region c :
  (∀ x, c ≠ DeleteCacheCluster x) → client_errors_only (W:=sim) region c.
Proof.
  intros Hc w. destruct c; cbn; repeat case_match; cbn in *; simplify_eq; try done.
  exfalso. by eapply Hc.
Qed.

(** ** From an ARN to its place in the requested calls *)

Lemma items_of_elem c x arn rs :
  arn ∈ rs → classify_arn arn = inr (Into c x) → x ∈ items_of c rs.
Proof.
  induction rs as [|a rs IH]; intros Hin Hx; [by apply elem_of_nil in Hin|].
  rewrite items_of_cons. apply elem_of_cons in Hin as [->|Hin].
  - rewrite Hx, decide_True by done. by left.
  - apply elem_of_app. right. auto.
Qed.

Lemma nodegroups_of_elem cl ng arn rs :
  arn ∈ rs → classify_arn arn = inr (IntoNodegroup cl ng) → (cl, ng) ∈ nodegroups_of rs.
Proof.
  induction rs as [|a rs IH]; intros Hin Hx; [by apply elem_of_nil in Hin|].
  rewrite nodegroups_of_cons. apply elem_of_cons in Hin as [->|Hin].
  - rewrite Hx. by left.
  - apply elem_of_app. right. auto.
Qed.

Lemma category_calls_elem c x l call :
  x ∈ l → call ∈ category_calls c [x] → call ∈ category_calls c l.
Proof. destruct c; cbn; set_solver. Qed.

Lemma requested_calls_elem b c call :
  call ∈ category_calls c (by_category b c) → call ∈ requested_calls b.
Proof.
  intros Hc. unfold requested_calls, all_categories. apply elem_of_app. right.
  cbn [fmap list_fmap concat]. destruct c; set_solver.
Qed.

Section LiveLemmas.
Context {W : Type} `{CloudApi W} (region : string).
Implicit Types s : st W.

Lemma lr_weaken req req' (m : M (st W) unit) :
  req ⊆ req' → live_runs region req' m → live_runs region req m.
Proof. intros Hsub Hm s. destruct (Hm s) as (w' & new & E & Hin). eauto 10. Qed.

Lemma lr_ret : live_runs region [] (m_ret (σ := st W) tt).
Proof. intros s. exists (world s), []. rewrite app_nil_r. split; [by destruct s|set_solver]. Qed.

Lemma lr_seq r1 r2 (m1 m2 : M (st W) unit) :
  live_runs region r1 m1 → live_runs region r2 m2 → live_runs region (r1 ++ r2) (m1 ;; m2).
Proof.
  intros H1 H2 s. destruct (H1 s) as (w1 & n1 & E1 & I1).
  destruct (H2 (mk_st w1 (trace s ++ n1))) as (w2 & n2 & E2 & I2).
  exists w2, (n1 ++ n2). unfold m_bind. rewrite E1, E2, app_assoc. split; [done|].
  intros c [Hc|Hc]%elem_of_app; apply elem_of_app; auto.
Qed.

Lemma lr_when_sleep b n : live_runs region [] (m_when b (sleep (W:=W) n)).
Proof.
  destruct b; [|apply lr_ret]. intros s. exists (world s), [ESleep n].
  split; [done|set_solver].
Qed.

Lemma lr_for {A} (l : list A) (body : A → M (st W) unit) (mk : A → call) :
  (∀ x, x ∈ l → live_runs region [mk x] (body x)) → live_runs region (mk <$> l) (m_for l body).
Proof.
  induction l as [|x l IH]; intros Hb; [apply lr_ret|].
  apply (lr_seq [mk x]); [apply Hb; left|apply IH; intros; apply Hb; by right].
Qed.

Lemma lr_delete_one c : client_errors_only region c → live_runs region [c] (delete_one false region c).
Proof.
  intros Hc s. destruct (delete_one_live region c s Hc) as [w' E].
  exists w', [ECall region c]. split; [done|set_solver].
Qed.

Lemma lr_delete_all {A} (mk : A → call) items :
  (∀ x, x ∈ items → client_errors_only region (mk x)) →
  live_runs region (mk <$> items) (delete_all false region mk items).
Proof.
  intros Hok. unfold delete_all, m_when. case_bool_decide as Hne.
  - apply lr_for. intros x Hx. by apply lr_delete_one, Hok.
  - subst. apply lr_ret.
Qed.

Lemma lr_delete_nat_gateways l :
  (∀ x, x ∈ l → client_errors_only region (DeleteNatGateway x)) →
  live_runs region (DeleteNatGateway <$> l) (delete_nat_gateways false region l).
Proof.
  intros Hok. unfold delete_nat_gateways, m_when at 1. case_bool_decide as Hne.
  - rewrite <- (app_nil_r (DeleteNatGateway <$> l)). apply lr_seq; [|apply lr_when_sleep].
    apply lr_for. intros x Hx. by apply lr_delete_one, Hok.
  - subst. apply lr_ret.
Qed.

(** One gateway: the detach and the delete in one [try]. *)
Lemma lr_igw_body g v :
  client_errors_only region (DetachInternetGateway g v) →
  client_errors_only region (DeleteInternetGateway g) →
  live_runs region []
    (m_when (negb false)
       (try_client (_ <- aws region (DetachInternetGateway g v) ;;
                    _ <- aws region (DeleteInternetGateway g) ;; m_ret tt)
                   (λ _, m_ret (σ := st W) tt))).
Proof.
  intros Hd Hi s. specialize (Hd (world s)).
  unfold m_when, negb, try_client, m_try, m_bind, aws, m_ret.
  destruct (respond (world s) region _) as [w1 [e|r]]; cbn in Hd |- *.
  - rewrite Hd. eexists _, _. split; [done|set_solver].
  - specialize (Hi w1). destruct (respond w1 region _) as [w2 [e|r']]; cbn in Hi |- *.
    + rewrite Hi. eexists _, _. rewrite <- app_assoc. split; [done|set_solver].
    + eexists _, _. rewrite <- app_assoc. split; [done|set_solver].
Qed.

Lemma lr_delete_internet_gateways l :
  (∀ c, c ∈ igw_calls l → client_errors_only region c) →
  live_runs region [] (delete_internet_gateways false region l).
Proof.
  intros Hok. unfold delete_internet_gateways, m_when at 1. destruct (bool_decide _); [|apply lr_ret].
  induction l as [|[g v] l IH]; [apply lr_ret|].
  apply (lr_seq [] []).
  - apply lr_igw_body; apply Hok; cbn; set_solver.
  - apply IH. intros c Hc. apply Hok. cbn. set_solver.
Qed.
End LiveLemmas.

(** A side condition of a leaf: the call is among those the hypothesis
    covers. *)
Ltac lr_side Hok :=
  intros ? ?; apply Hok; unfold requested_calls, igw_calls, all_categories;
  cbn [fmap list_fmap concat category_calls app]; set_solver.

Ltac lr_leaf Hok :=
  first [ apply lr_when_sleep | apply lr_ret
        | apply lr_delete_nat_gateways; lr_side Hok
        | apply lr_delete_internet_gateways; lr_side Hok
        | apply lr_delete_all; lr_side Hok ].

Ltac lr_chain Hok := repeat first [ apply lr_seq; [lr_leaf Hok|] | lr_leaf Hok ].

Section Complete.
Context {W : Type} `{CloudApi W}.

Lemma delete_phases_live region b igw_data :
  (∀ c, c ∈ requested_calls b ++ igw_calls igw_data → client_errors_only region c) →
  live_runs region (requested_calls b) (delete_phases (W:=W) false region b igw_data).
Proof.
  intros Hok. eapply (lr_weaken region (requested_calls b)).
  2: { unfold delete_phases; unfold_deletes. cbv zeta. lr_chain Hok. }
  unfold requested_calls, all_categories. cbn [fmap list_fmap concat category_calls app].
  set_solver.
Qed.

(** C25: Completeness of the deletion phases: when AWS answers every
    call of the phases with a result or a [ClientError] (errors are
    logged and skipped), [delete_phases] returns normally and sends the
    delete call of every node group and of every item the classification
    filed under the other lists, in its region. *)
Theorem delete_phases_complete region b igw_data (s : st W) :
  (∀ c, c ∈ requested_calls b ++ igw_calls igw_data → client_errors_only region c) →
  ∃ w' new, delete_phases false region b igw_data s = (inr tt, mk_st w' (trace s ++ new)) ∧
            ∀ c, c ∈ requested_calls b → ECall region c ∈ new.
Proof. intros Hok. by apply delete_phases_live. Qed.

(** C28: From tagged ARN to delete call: once discovery has listed the
    ARNs [rs] of a region (not none), the classification has succeeded
    and the gateway lookup has returned, and AWS answers the deletions
    with results or [ClientError]s, [process_region] returns normally
    and sends, for every listed ARN, the delete call of what the
    classification made of it: the node group, or the item of its list
    (internet gateways apart, which go through the lookup). *)
Theorem process_region_deletes_classified region (s : st W) rs s1 b igw_data s2 :
  get_tagged_resources region s = (inr rs, s1) → rs ≠ [] → categorize rs = inr b →
  get_igw_vpc_mapping region (by_category b internet_gateways) s1 = (inr igw_data, s2) →
  (∀ c, c ∈ requested_calls b ++ igw_calls igw_data → client_errors_only region c) →
  ∃ w' new, process_region false region s = (inr tt, mk_st w' (trace s2 ++ new)) ∧
    ∀ arn, arn ∈ rs →
      (∀ c x call, classify_arn arn = inr (Into c x) → call ∈ category_calls c [x] →
                   ECall region call ∈ new) ∧
      (∀ cl ng, classify_arn arn = inr (IntoNodegroup cl ng) →
                ECall region (DeleteNodegroup cl ng) ∈ new).
Proof.
  intros Hd Hne Hc Hi Hok. unfold process_region, m_bind at 1. rewrite Hd.
  rewrite bool_decide_eq_false_2 by done. unfold m_bind at 1. rewrite Hc. cbn [lift m_ret].
  unfold m_bind. rewrite Hi.
  destruct (delete_phases_live region b igw_data Hok s2) as (w' & new & E & Hin).
  exists w', new. split; [done|]. apply categorize_go_ok in Hc as [Hcat Hng].
  intros arn Harn. split.
  - intros c x call Hx Hcall. apply Hin. apply (requested_calls_elem b c).
    eapply category_calls_elem; [|done]. rewrite Hcat. cbn. eauto using items_of_elem.
  - intros cl ng Hx. apply Hin, elem_of_app. left. apply list_elem_of_fmap.
    exists (cl, ng). split; [done|]. rewrite Hng. cbn. eauto using nodegroups_of_elem.
Qed.
End Complete.

Lemma delete_phases_complete_witness :
  (∀ c, c ∈ requested_calls sample_buckets ++ igw_calls [] →
        client_errors_only (W:=sim) "us-east-1" c) ∧
  ∃ w' new, delete_phases false "us-east-1" sample_buckets [] (start sample_world) =
              (inr tt, mk_st w' ([] ++ new)) ∧
            ∀ c, c ∈ requested_calls sample_buckets → ECall "us-east-1" c ∈ new.
Proof.
  assert (E : requested_calls sample_buckets ++ igw_calls [] =
                [DeleteNodegroup "xelta-dev" "ng-1"; DeleteSubnet "subnet-0a1";
                 DeleteSubnet "subnet-0c3"; DeleteVpc "vpc-0b2"]) by (vm_compute; reflexivity).
  assert (Hok : ∀ c, c ∈ requested_calls sample_buckets ++ igw_calls [] →
                     client_errors_only (W:=sim) "us-east-1" c).
  { intros c Hc. apply sim_client_errors. intros x ->. rewrite E in Hc. set_solver. }
  split; [exact Hok|].
  exact (delete_phases_complete "us-east-1" sample_buckets [] (start sample_world) Hok).
Defined.

Lemma process_region_deletes_classified_witness :
  get_tagged_resources "us-east-1" (start clean_world) = (inr clean_arns, snd clean_listing) ∧
  clean_arns ≠ [] ∧ categorize clean_arns = inr clean_buckets ∧
  get_igw_vpc_mapping "us-east-1" (by_category clean_buckets internet_gateways) (snd clean_listing)
    = (inr clean_igws, snd clean_lookup) ∧
  (∀ c, c ∈ requested_calls clean_buckets ++ igw_calls clean_igws →
        client_errors_only (W:=sim) "us-east-1" c) ∧
  ∃ w' new, process_region false "us-east-1" (start clean_world) =
              (inr tt, mk_st w' (trace (snd clean_lookup) ++ new)) ∧
    ∀ arn, arn ∈ clean_arns →
      (∀ c x call, classify_arn arn = inr (Into c x) → call ∈ category_calls c [x] →
                   ECall "us-east-1" call ∈ new) ∧
      (∀ cl ng, classify_arn arn = inr (IntoNodegroup cl ng) →
                ECall "us-east-1" (DeleteNodegroup cl ng) ∈ new).
Proof.
  assert (Hd : get_tagged_resources "us-east-1" (start clean_world) = (inr clean_arns, snd clean_listing))
    by (vm_compute; reflexivity).
  assert (Hne : clean_arns ≠ []) by (vm_compute; discriminate).
  assert (Hc : categorize clean_arns = inr clean_buckets) by (vm_compute; reflexivity).
  assert (Hi : get_igw_vpc_mapping "us-east-1" (by_category clean_buckets internet_gateways)
                 (snd clean_listing) = (inr clean_igws, snd clean_lookup)) by (vm_compute; reflexivity).
  assert (E : requested_calls clean_buckets ++ igw_calls clean_igws =
                [DeleteNatGateway "nat-0c3"; DeleteSubnet "subnet-0b2"; DeleteVpc "vpc-0a1";
                 DetachInternetGateway "igw-0d4" "vpc-0a1"; DeleteInternetGateway "igw-0d4"])
    by (vm_compute; reflexivity).
  assert (Hok : ∀ c, c ∈ requested_calls clean_buckets ++ igw_calls clean_igws →
                     client_errors_only (W:=sim) "us-east-1" c).
  { intros c Hc'. apply sim_client_errors. intros x ->. rewrite E in Hc'. set_solver. }
  split_and!; [exact Hd|exact Hne|exact Hc|exact Hi|exact Hok|].
  exact (process_region_deletes_classified "us-east-1" (start clean_world) _ _ _ _ _
           Hd Hne Hc Hi Hok).
Defined.
