(* ===== verification/ShellCleanup.v ===== *)
(** The shell script [src/cleanup.py] (a bash script despite its name):
    after a [yes] at the prompt it removes, in each of three regions, the
    Secrets Manager secret [xelta-dev-db-credentials] and the log group
    [/aws/vpc/xelta-dev-<region>] when they exist, then waits 30 seconds.

    The [aws] command line is the class [ShellApi]: a command gives the
    next world, whether it exited with status 0, and its standard output.
    [set -e] ends the script on a failing command outside a condition or
    an [||] list; in this script that can only be [read] at the end of its
    input ([script] with [None]), which is raised as an exception.  Every
    other command is in an [if] condition, a pipeline tested by [if], or
    followed by [|| echo].

    [sim_cli] is a command line over a list of (name, region) resources;
    against it the confirmed script removes exactly [script_targets]
    from the world and keeps everything else. *)

From stdpp Require Import base list strings sets.
From S2P Require Import Prelude PyStr.

Local Open Scope cleanup_scope.

(** Lines 7-8. *)
Definition ENVIRONMENT : string := "dev".
Definition SH_REGIONS : list string := ["us-east-1"; "eu-central-1"; "ap-south-1"].

Inductive cli_call :=
| DescribeSecret (secret_id region : string)
| DeleteSecret (secret_id region : string)
| DescribeLogGroups (prefix region : string)
| DeleteLogGroup (name region : string).

Inductive sh_event :=
| ShCall (c : cli_call)
| ShSleep (seconds : nat).

Class ShellApi (W : Type) := {
  run_cli : W → cli_call → W * (bool * string)
}.

Record sh_st (W : Type) := mk_sh { sh_world : W; sh_trace : list sh_event }.
Arguments mk_sh {W} _ _.
Arguments sh_world {W} _.
Arguments sh_trace {W} _.

(** The two names the script deletes in [region] (lines 29 and 47). *)
Definition secret_name : string := "xelta-" +:+ ENVIRONMENT +:+ "-db-credentials".
Definition log_group (region : string) : string :=
  "/aws/vpc/xelta-" +:+ ENVIRONMENT +:+ "-" +:+ region.

Section Script.
Context {W : Type} `{ShellApi W}.

(** One [aws ...] command: its exit status and output. *)
Definition cli (c : cli_call) : M (sh_st W) (bool * string) :=
  λ s, let '(w', r) := run_cli (sh_world s) c in
       (inr r, mk_sh w' (sh_trace s ++ [ShCall c])).

Definition sh_sleep (n : nat) : M (sh_st W) unit :=
  m_modify (λ s, mk_sh (sh_world s) (sh_trace s ++ [ShSleep n])).

(** Lines 24-40: [if aws secretsmanager describe-secret ...; then aws
    secretsmanager delete-secret ... || echo ...]. *)
Definition delete_secrets (region : string) : M (sh_st W) unit :=
  r <- cli (DescribeSecret secret_name region) ;;
  if fst r then (_ <- cli (DeleteSecret secret_name region) ;; m_ret tt) else m_ret tt.

(** Lines 43-55: the [--query] output piped to [grep -q "$log_group"];
    without [pipefail] the pipeline's status is [grep]'s. *)
Definition delete_log_groups (region : string) : M (sh_st W) unit :=
  r <- cli (DescribeLogGroups (log_group region) region) ;;
  if contains (log_group region) (snd r)
  then (_ <- cli (DeleteLogGroup (log_group region) region) ;; m_ret tt)
  else m_ret tt.

(** Lines 57-63: [for region in "${REGIONS[@]}"; do ... done]. *)
Definition process_sh_regions : M (sh_st W) unit :=
  m_for SH_REGIONS (λ region, delete_secrets region ;; delete_log_groups region).

(** Lines 77-79: [sleep 30]. *)
Definition wait_for_propagation : M (sh_st W) unit := sh_sleep 30.

(** Lines 16-21, then the loop and the wait; [confirm] is what [read]
    gets, [None] at the end of the input, where [set -e] ends the
    script. *)
Definition script (confirm : option string) : M (sh_st W) unit :=
  match confirm with
  | None => m_raise (OtherError "read: end of input")
  | Some answer =>
      if bool_decide (answer = "yes")
      then process_sh_regions ;; wait_for_propagation
      else m_ret tt
  end.
End Script.

(** The deletions the script may make: the secret and the log group of
    one of its regions, in that region. *)
Definition named_deletion (c : cli_call) : Prop :=
  match c with
  | DeleteSecret n r => n = "xelta-dev-db-credentials" ∧ r ∈ SH_REGIONS
  | DeleteLogGroup n r => n = "/aws/vpc/xelta-dev-" +:+ r ∧ r ∈ SH_REGIONS
  | DescribeSecret _ _ | DescribeLogGroups _ _ => True
  end.

Section ShellLemmas.
Context {W : Type} `{ShellApi W}.

(** [m] only adds events satisfying [P] to the trace. *)
Definition sh_only {A} (P : sh_event → Prop) (m : M (sh_st W) A) : Prop :=
  ∀ s, ∃ new, sh_trace (snd (m s)) = sh_trace s ++ new ∧ Forall P new.
End ShellLemmas.

(** A deletion on the command line below: every copy of [nr] goes. *)
Definition remove_resource (nr : string * string) (w : list (string * string)) :=
  List.filter (λ x, negb (bool_decide (x = nr))) w.

(** A command line over a list of (name, region) resources: a describe
    succeeds on a present secret and lists the present log groups of the
    prefix; a delete removes the resource. *)
Definition sim_cli (w : list (string * string)) (c : cli_call) :
    list (string * string) * (bool * string) :=
  match c with
  | DescribeSecret n r => (w, (bool_decide ((n, r) ∈ w), ""))
  | DescribeLogGroups p r =>
      (w, (true, String.concat " " (omap (λ '(n, r'), if bool_decide (r' = r) && String.prefix p n
                                                    then Some n else None) w)))
  | DeleteSecret n r | DeleteLogGroup n r =>
      (remove_resource (n, r) w, (bool_decide ((n, r) ∈ w), ""))
  end.

#[export] Instance sim_shell : ShellApi (list (string * string)) := { run_cli := sim_cli }.

(** What the script is written to remove: in each of its regions, the
    secret of line 29 and the log group of line 47. *)
Definition script_targets : list (string * string) :=
  flat_map (λ r, [(secret_name, r); (log_group r, r)]) SH_REGIONS.

Section ShellInvariant.
Context {W : Type} `{ShellApi W} (P : sh_event → Prop).

Lemma sh_only_ret {A} (x : A) : sh_only P (m_ret (σ := sh_st W) x).
Proof. intros s. exists []. by rewrite app_nil_r. Qed.

Lemma sh_only_raise {A} e : sh_only P (m_raise (σ := sh_st W) (A:=A) e).
Proof. intros s. exists []. by rewrite app_nil_r. Qed.

Lemma cli_eq c (s : sh_st W) :
  cli c s = (inr (snd (run_cli (sh_world s) c)),
             mk_sh (fst (run_cli (sh_world s) c)) (sh_trace s ++ [ShCall c])).
Proof. unfold cli. by destruct (run_cli (sh_world s) c). Qed.

Lemma sh_only_cli c : P (ShCall c) → sh_only P (cli (W:=W) c).
Proof.
  intros HP s. exists [ShCall c]. unfold cli.
  destruct (run_cli (sh_world s) c). by repeat constructor.
Qed.

Lemma sh_only_sleep n : P (ShSleep n) → sh_only P (sh_sleep (W:=W) n).
Proof. intros HP s. exists [ShSleep n]. by repeat constructor. Qed.

Lemma sh_only_bind {A B} (m : M (sh_st W) A) (k : A → M (sh_st W) B) :
  sh_only P m → (∀ x, sh_only P (k x)) → sh_only P (m_bind m k).
Proof.
  intros Hm Hk s. destruct (Hm s) as (n1 & E1 & F1). unfold m_bind.
  destruct (m s) as [[e|x] s'] eqn:Em; cbn in E1 |- *; [by exists n1|].
  destruct (Hk x s') as (n2 & E2 & F2). exists (n1 ++ n2).
  rewrite E2, E1, app_assoc. split; [done|]. by apply Forall_app.
Qed.

Lemma sh_only_for {A} (l : list A) (body : A → M (sh_st W) unit) :
  (∀ x, x ∈ l → sh_only P (body x)) → sh_only P (m_for l body).
Proof.
  induction l as [|x l IH]; intros Hb; [apply sh_only_ret|].
  apply sh_only_bind; [apply Hb; left|intros; apply IH; intros; apply Hb; by right].
Qed.
End ShellInvariant.

Section ShellTheorems.
Context {W : Type} `{ShellApi W}.

Lemma sh_only_region region :
  region ∈ SH_REGIONS →
  sh_only (λ e, ∀ c, e = ShCall c → named_deletion c)
    (delete_secrets (W:=W) region ;; delete_log_groups region).
Proof.
  intros Hr. apply sh_only_bind; [|intros _].
  - unfold delete_secrets. apply sh_only_bind; [apply sh_only_cli; by intros ? [= <-]|].
    intros [[] ?]; cbn; [|apply sh_only_ret].
    apply sh_only_bind; [apply sh_only_cli|intros; apply sh_only_ret].
    intros ? [= <-]. by split.
  - unfold delete_log_groups. apply sh_only_bind; [apply sh_only_cli; by intros ? [= <-]|].
    intros [? out]; cbn. destruct (contains _ out); [|apply sh_only_ret].
    apply sh_only_bind; [apply sh_only_cli|intros; apply sh_only_ret].
    intros ? [= <-]. by split.
Qed.

(** C19: The shell script deletes nothing but the secret
    [xelta-dev-db-credentials] and the log group [/aws/vpc/xelta-dev-<r>]
    of each of its regions [r], in that region, whatever the command
    line answers and whatever the confirmation. *)
Theorem script_deletes_only_named confirm (s : sh_st W) :
  ∃ new, sh_trace (snd (script confirm s)) = sh_trace s ++ new ∧
         Forall (λ e, ∀ c, e = ShCall c → named_deletion c) new.
Proof.
  revert s. change (sh_only (λ e, ∀ c, e = ShCall c → named_deletion c) (script (W:=W) confirm)).
  destruct confirm as [a|]; [|apply sh_only_raise]. unfold script, process_sh_regions, wait_for_propagation.
  case_bool_decide; [|apply sh_only_ret].
  apply sh_only_bind; [|intros; apply sh_only_sleep; discriminate].
  apply sh_only_for. apply sh_only_region.
Qed.

(** C20: Without the answer [yes] the shell script runs no command and
    leaves the world as it was; at the end of its input it stops with
    an error ([set -e] on [read]). *)
Theorem script_requires_yes confirm (s : sh_st W) :
  confirm ≠ Some "yes" →
  snd (script confirm s) = s ∧ (fst (script confirm s) = inr tt ↔ confirm ≠ None).
Proof.
  intros Hc. destruct confirm as [a|]; cbn; [|naive_solver].
  rewrite bool_decide_eq_false_2 by congruence. naive_solver.
Qed.

(** C21: [delete_secrets] asks for the secret and deletes it exactly
    when [describe-secret] succeeds, in the region it is given. *)
Theorem delete_secrets_trace region (s : sh_st W) :
  sh_trace (snd (delete_secrets region s)) =
    sh_trace s ++ ShCall (DescribeSecret secret_name region) ::
      (if fst (snd (run_cli (sh_world s) (DescribeSecret secret_name region)))
       then [ShCall (DeleteSecret secret_name region)] else []).
Proof.
  unfold delete_secrets, m_bind. rewrite cli_eq. cbn [fst snd sh_world sh_trace].
  destruct (run_cli (sh_world s) _) as [w1 [[] out]]; cbn; [|done].
  rewrite cli_eq. cbn. by rewrite <- app_assoc.
Qed.
End ShellTheorems.

Lemma script_requires_yes_witness :
  Some "no" ≠ Some "yes" ∧
  snd (script (Some "no") (mk_sh [("xelta-dev-db-credentials", "us-east-1")] [])) =
    mk_sh [("xelta-dev-db-credentials", "us-east-1")] [] ∧
  (fst (script (Some "no") (mk_sh [("xelta-dev-db-credentials", "us-east-1")] [])) = inr tt ↔
   Some "no" ≠ None).
Proof.
  assert (Hc : Some "no" ≠ Some "yes") by discriminate.
  split; [exact Hc|]. exact (script_requires_yes (Some "no") (mk_sh _ []) Hc).
Defined.

(** With the secret in [us-east-1] and the log group in [ap-south-1],
    the script removes both and nothing else. *)
Example script_sample_run :
  sh_world (snd (script (Some "yes")
    (mk_sh [("xelta-dev-db-credentials", "us-east-1");
            ("/aws/vpc/xelta-dev-ap-south-1", "ap-south-1");
            ("xelta-prod-db-credentials", "us-east-1")] []))) =
  [("xelta-prod-db-credentials", "us-east-1")].
Proof. vm_compute. reflexivity. Qed.

(** ** The script against the command line [sim_cli] *)

Section SimShell.

Lemma remove_resource_absent nr w : nr ∉ w → remove_resource nr w = w.
Proof.
  induction w as [|x w IH]; intros Hn; [done|]. unfold remove_resource in *. cbn [List.filter].
  rewrite bool_decide_eq_false_2 by set_solver. cbn [negb]. rewrite IH; set_solver.
Qed.

Lemma filter_filter_and {A} (p q : A → bool) w :
  List.filter p (List.filter q w) = List.filter (λ x, q x && p x) w.
Proof. induction w as [|x w IH]; [done|]. cbn. destruct (q x); cbn; [destruct (p x)|]; by rewrite ?IH. Qed.

Lemma filter_all {A} (p : A → bool) w : (∀ x, p x = true) → List.filter p w = w.
Proof. intros Hp. induction w as [|x w IH]; [done|]. cbn. by rewrite Hp, IH. Qed.

(** Removing the resources of [L] one after the other keeps exactly the
    resources outside [L]. *)
Lemma foldl_remove L w :
  foldl (λ w nr, remove_resource nr w) w L = List.filter (λ x, negb (bool_decide (x ∈ L))) w.
Proof.
  revert w. induction L as [|nr L IH]; intros w; cbn.
  - symmetry. apply filter_all. intros x. by rewrite bool_decide_eq_false_2 by set_solver.
  - rewrite IH. unfold remove_resource. rewrite filter_filter_and.
    apply filter_ext. intros x. repeat case_bool_decide; set_solver.
Qed.

Lemma concat_elem sep x l : x ∈ l → ∃ a b, String.concat sep l = a +:+ x +:+ b.
Proof.
  induction l as [|y [|z l] IH]; intros Hx; [set_solver|..].
  - apply list_elem_of_singleton in Hx as ->. exists "", "". by rewrite str_app_nil_r.
  - apply elem_of_cons in Hx as [->|Hx].
    + exists "", (sep +:+ String.concat sep (z :: l)). done.
    + destruct (IH Hx) as (a & b & E). exists (y +:+ sep +:+ a), b.
      change (String.concat sep (y :: z :: l)) with (y +:+ sep +:+ String.concat sep (z :: l)).
      rewrite E. by rewrite !str_app_assoc.
Qed.

(** A present log group is in what [describe-log-groups] lists for its
    name, so the [grep -q] of line 49 finds it. *)
Lemma listed_log_group r w :
  (log_group r, r) ∈ w →
  contains (log_group r) (snd (snd (sim_cli w (DescribeLogGroups (log_group r) r)))) = true.
Proof.
  intros Hin. apply contains_spec. apply concat_elem.
  apply list_elem_of_omap. exists (log_group r, r). split; [done|].
  rewrite bool_decide_eq_true_2 by done.
  rewrite <- (str_app_nil_r (log_group r)) at 2. by rewrite prefix_app.
Qed.

Lemma sim_delete_secrets r (s : sh_st (list (string * string))) :
  fst (delete_secrets r s) = inr tt ∧
  sh_world (snd (delete_secrets r s)) = remove_resource (secret_name, r) (sh_world s).
Proof.
  unfold delete_secrets, m_bind. rewrite cli_eq. cbn [fst snd sh_world run_cli sim_shell sim_cli].
  case_bool_decide; [rewrite cli_eq|rewrite remove_resource_absent]; done.
Qed.

Lemma sim_delete_log_groups r (s : sh_st (list (string * string))) :
  fst (delete_log_groups r s) = inr tt ∧
  sh_world (snd (delete_log_groups r s)) = remove_resource (log_group r, r) (sh_world s).
Proof.
  unfold delete_log_groups, m_bind. rewrite cli_eq. cbn [fst snd sh_world run_cli sim_shell].
  destruct (contains _ _) eqn:E; [rewrite cli_eq; done|].
  rewrite remove_resource_absent; [done|]. intros Hin.
  apply listed_log_group in Hin. cbn [snd] in Hin. congruence.
Qed.

Lemma m_for_world {A} (l : list A) (body : A → M (sh_st (list (string * string))) unit) f s :
  (∀ x s, fst (body x s) = inr tt ∧ sh_world (snd (body x s)) = f x (sh_world s)) →
  fst (m_for l body s) = inr tt ∧
  sh_world (snd (m_for l body s)) = foldl (λ w x, f x w) (sh_world s) l.
Proof.
  intros Hb. revert s. induction l as [|x l IH]; intros s; [done|]. cbn [m_for foldl].
  unfold m_bind. destruct (Hb x s) as [E1 W1].
  destruct (body x s) as [[e|[]] s1]; cbn in E1, W1 |- *; [done|]. rewrite <- W1. apply IH.
Qed.

(** C29: Against a command line that answers like AWS ([sim_cli]),
    the confirmed script ends normally and the resources left are
    exactly those of the start that are not among [script_targets]:
    every copy of the secret and of the log group of each of the three
    regions is gone, present or not at the start, and everything else,
    other regions and other names included, is kept. *)
Theorem script_removes_targets w tr :
  fst (script (Some "yes") (mk_sh w tr)) = inr tt ∧
  sh_world (snd (script (Some "yes") (mk_sh w tr))) =
    List.filter (λ nr, negb (bool_decide (nr ∈ script_targets))) w.
Proof.
  unfold script, process_sh_regions, wait_for_propagation. rewrite bool_decide_eq_true_2 by done.
  destruct (m_for_world SH_REGIONS (λ region, delete_secrets region ;; delete_log_groups region)
              (λ r w, remove_resource (log_group r, r) (remove_resource (secret_name, r) w))
              (mk_sh w tr)) as [E W'].
  { intros r s. unfold m_bind. destruct (sim_delete_secrets r s) as [E1 W1].
    destruct (delete_secrets r s) as [[e|[]] s1]; cbn in E1, W1; [done|].
    rewrite <- W1. apply sim_delete_log_groups. }
  destruct (m_for _ _ _) as [[e|[]] s1] eqn:Ef; cbn in E, W'; [done|].
  rewrite (m_bind_ok _ _ _ _ _ Ef). split; [done|]. cbn. rewrite W', <- foldl_remove. reflexivity.
Qed.
End SimShell.
